(** * TASK-MANAGER: stage/task status propagation, scheduled jobs, e-mail queue

    A shallow embedding of the core of the task-management backend:

    - [app/models/*.py]            the rows of the relational schema,
    - [app/services/tasks.py]      [update_stage], [update_task_status_from_stages],
                                   [create_task], [get_task_by_id],
    - [app/routers/tasks.py]       [delete_stage], [delete_task], [update_task],
                                   [add_stage_to_task], [list_tasks],
                                   [notify_user_manually], [create_task],
    - [app/routers/templates.py]   [create_template], [delete_template],
    - [app/routers/users.py]       [get_user], [delete_user],
    - [app/services/scheduler.py]  [check_overdue_and_notify], [archive_old_tasks],
    - [app/services/data_cleaning.py]  [run_data_cleaning],
    - [app/services/email_worker.py], [app/utils/email.py]
                                   [enqueue_email], [email_worker], [send_email_async],
    - [app/utils/sanitization.py]  [sanitize_string].

    Conventions.  A table is the list of its rows in storage order; a
    [select] is a filter over it.  A Python [date] is its proleptic Gregorian
    ordinal ([date.toordinal()]), so that [d + timedelta(days=n)] is [d + n]
    and comparison of dates is comparison of integers.  A [datetime] is an
    integer time stamp.  Columns of SQL type [Float] are binary64 floats.
    Nullable columns and optional Python values are [option]s.

    A session's uncommitted changes live in local values until [db.commit()]
    installs them, so that [db.rollback()] leaves the committed database.
    Where a job can fail only through its environment, the place of the
    failure is an argument of the job ([failure_point], [delete_raises]);
    the constraints of the schema that a job can violate (the primary keys
    of the archive tables) are checked by its commit.  Calls gathered by
    [asyncio.gather] run one after the other, in the order of the list. *)

From Stdlib Require Import PrimFloat.
From stdpp Require Import base list gmap strings pretty sorting.

Open Scope Z_scope.

Abbreviation date := Z (only parsing).
Abbreviation datetime := Z (only parsing).

(** ** Python values *)

(** What a Python function call produces: a value, or a raised exception. *)
Inductive exn :=
  | HTTPException (status_code : Z) (detail : string)
  | IntegrityError (msg : string)
  | OperationalError (msg : string)
  | DBAPIError (msg : string)
  | SMTPException (msg : string).

(** [str(e)] *)
Definition str_exn (e : exn) : string :=
  match e with
  | HTTPException code detail => pretty code +:+ ": " +:+ detail
  | IntegrityError msg | OperationalError msg | DBAPIError msg | SMTPException msg =>
      msg
  end.

Inductive result (A : Type) :=
  | Ok (a : A)
  | Raise (e : exn).
Arguments Ok {A} a.
Arguments Raise {A} e.

(** [result.scalars().first()]: the first selected row, or [None]. *)
Definition first {A} (P : A → bool) (rows : list A) : option A :=
  head (List.filter P rows).

(** [max(xs, default=d)] on dates. *)
Definition max_default (xs : list Z) (d : Z) : Z :=
  match xs with
  | [] => d
  | x :: xs' => foldl Z.max x xs'
  end.

(** SQL [column != value] on a nullable column: a NULL never satisfies it. *)
Definition sql_ne (x : option Z) (v : Z) : bool :=
  match x with
  | Some c => negb (bool_decide (c = v))
  | None => false
  end.

(** Truth value of a Python [str]: the empty string is false. *)
Definition truthy (s : string) : bool := negb (bool_decide (s = "")).

Definition nl : string := String (Ascii.ascii_of_nat 10) "".

(** [str(x)] of an optional string inside an f-string. *)
Definition str_opt (x : option string) : string := default "None" x.

(** Year, month and day of a date given by its ordinal (the civil calendar,
    day 1 being 0001-01-01). *)
Definition ymd_of_ordinal (n : Z) : Z * Z * Z :=
  let z := n + 305 in
  let era := z `div` 146097 in
  let doe := z - era * 146097 in
  let yoe := (doe - doe `div` 1460 + doe `div` 36524 - doe `div` 146096) `div` 365 in
  let doy := doe - (365 * yoe + yoe `div` 4 - yoe `div` 100) in
  let mp := (5 * doy + 2) `div` 153 in
  let d := doy - (153 * mp + 2) `div` 5 + 1 in
  let m := if bool_decide (mp < 10) then mp + 3 else mp - 9 in
  let y := yoe + era * 400 in
  (if bool_decide (m ≤ 2) then y + 1 else y, m, d).

Fixpoint zeros (n : nat) : string :=
  match n with
  | O => ""
  | S n' => "0" +:+ zeros n'
  end.

(** [str(n).zfill(width)] for a natural number [n]. *)
Definition zfill (width : nat) (n : Z) : string :=
  let s := pretty n in
  zeros (width - String.length s) +:+ s.

(** [str(d)] of a date: [YYYY-MM-DD]. *)
Definition str_date (d : date) : string :=
  let '(y, m, dd) := ymd_of_ordinal d in
  zfill 4 y +:+ "-" +:+ zfill 2 m +:+ "-" +:+ zfill 2 dd.

(** ** The schema ([app/models/tasks.py], [app/models/user.py], [app/models/email.py]) *)

Module State.
Record t := mk {
  state_id : Z;
  state_name : string;
  description : option string;
}.
End State.

Module User.
Record t := mk {
  user_id : Z;
  username : string;
  email : string;
  full_name : option string;
  hashed_password : string;
  is_deleted : bool;
  deleted_at : option datetime;
}.
End User.

(** [status_state_id] is the value of the ORM attribute, which Python code may
    set to [None] (the result of [states.get] for a missing name); the column
    itself is [NOT NULL], so every committed row holds [Some]. *)
Module Task.
Record t := mk {
  task_id : Z;
  name : string;
  description : option string;
  status_state_id : option Z;
  due_date : date;
  completed_date : option date;
  priority : string;
  assigned_user_id : option Z;
  created_by_id : option Z;
  idempotency_key : option string;
  created_at : option datetime;
  updated_at : option datetime;
  is_deleted : bool;
  deleted_at : option datetime;
}.

Definition with_status (st : option Z) (r : t) : t :=
  mk (task_id r) (name r) (description r) st (due_date r) (completed_date r)
     (priority r) (assigned_user_id r) (created_by_id r) (idempotency_key r)
     (created_at r) (updated_at r) (is_deleted r) (deleted_at r).

Definition with_completed_date (d : option date) (r : t) : t :=
  mk (task_id r) (name r) (description r) (status_state_id r) (due_date r) d
     (priority r) (assigned_user_id r) (created_by_id r) (idempotency_key r)
     (created_at r) (updated_at r) (is_deleted r) (deleted_at r).

Definition with_updated_at (u : option datetime) (r : t) : t :=
  mk (task_id r) (name r) (description r) (status_state_id r) (due_date r)
     (completed_date r) (priority r) (assigned_user_id r) (created_by_id r)
     (idempotency_key r) (created_at r) u (is_deleted r) (deleted_at r).

(** [row.status_state_id = st] as the next commit writes it: the unit of
    work issues an UPDATE only when the value differs from the loaded one,
    and a written row gets [updated_at = now()] ([onupdate=func.now()]). *)
Definition assign_status (now : datetime) (st : Z) (r : t) : t :=
  if bool_decide (status_state_id r = Some st) then r
  else with_updated_at (Some now) (with_status (Some st) r).
End Task.

Module TaskStage.
Record t := mk {
  stage_id : Z;
  task_id : Z;
  stage_name : string;
  estimated_time_hours : float;
  actual_time_hours : option float;
  status_state_id : option Z;
  order_number : Z;
  start_date : option date;
  completed_date : option date;
  created_at : option datetime;
  updated_at : option datetime;
}.

Definition with_status (st : option Z) (r : t) : t :=
  mk (stage_id r) (task_id r) (stage_name r) (estimated_time_hours r)
     (actual_time_hours r) st (order_number r) (start_date r)
     (completed_date r) (created_at r) (updated_at r).

Definition with_actual_time_hours (h : option float) (r : t) : t :=
  mk (stage_id r) (task_id r) (stage_name r) (estimated_time_hours r)
     h (status_state_id r) (order_number r) (start_date r)
     (completed_date r) (created_at r) (updated_at r).

Definition with_order_number (n : Z) (r : t) : t :=
  mk (stage_id r) (task_id r) (stage_name r) (estimated_time_hours r)
     (actual_time_hours r) (status_state_id r) n (start_date r)
     (completed_date r) (created_at r) (updated_at r).

Definition with_start_date (d : option date) (r : t) : t :=
  mk (stage_id r) (task_id r) (stage_name r) (estimated_time_hours r)
     (actual_time_hours r) (status_state_id r) (order_number r) d
     (completed_date r) (created_at r) (updated_at r).

Definition with_completed_date (d : option date) (r : t) : t :=
  mk (stage_id r) (task_id r) (stage_name r) (estimated_time_hours r)
     (actual_time_hours r) (status_state_id r) (order_number r)
     (start_date r) d (created_at r) (updated_at r).

Definition with_updated_at (u : option datetime) (r : t) : t :=
  mk (stage_id r) (task_id r) (stage_name r) (estimated_time_hours r)
     (actual_time_hours r) (status_state_id r) (order_number r)
     (start_date r) (completed_date r) (created_at r) u.

(** Assignments as the next commit writes them (see [Task.assign_status]). *)
Definition assign_status (now : datetime) (st : Z) (r : t) : t :=
  if bool_decide (status_state_id r = Some st) then r
  else with_updated_at (Some now) (with_status (Some st) r).

Definition assign_order_number (now : datetime) (n : Z) (r : t) : t :=
  if bool_decide (order_number r = n) then r
  else with_updated_at (Some now) (with_order_number n r).
End TaskStage.

Module ArchivedTask.
Record t := mk {
  task_id : Z;
  name : string;
  description : option string;
  status_state_id : option Z;
  due_date : date;
  completed_date : option date;
  priority : string;
  assigned_user_id : option Z;
  created_by_id : option Z;
  idempotency_key : option string;
  created_at : option datetime;
  updated_at : option datetime;
  archived_at : option datetime;
}.
End ArchivedTask.

Module ArchivedTaskStage.
Record t := mk {
  stage_id : Z;
  task_id : Z;
  stage_name : string;
  estimated_time_hours : float;
  actual_time_hours : option float;
  status_state_id : option Z;
  order_number : Z;
  start_date : option date;
  completed_date : option date;
  created_at : option datetime;
  updated_at : option datetime;
  archived_at : option datetime;
}.
End ArchivedTaskStage.

Module EmailLog.
Record t := mk {
  id : Z;
  to_email : option string;
  subject : string;
  body : string;
  status : string;
  created_at : option datetime;
  sent_at : option datetime;
  error_message : option string;
}.

Definition mark_sent (now : datetime) (r : t) : t :=
  mk (id r) (to_email r) (subject r) (body r) "sent" (created_at r)
     (Some now) (error_message r).

Definition mark_failed (e : string) (r : t) : t :=
  mk (id r) (to_email r) (subject r) (body r) "failed" (created_at r)
     (sent_at r) (Some e).
End EmailLog.

(** The committed contents of the database, one list of rows per table. *)
Record DB := mkDB {
  states : list State.t;
  users : list User.t;
  tasks : list Task.t;
  task_stages : list TaskStage.t;
  archived_tasks : list ArchivedTask.t;
  archived_task_stages : list ArchivedTaskStage.t;
  email_logs : list EmailLog.t;
}.

Definition with_tasks (ts : list Task.t) (db : DB) : DB :=
  mkDB (states db) (users db) ts (task_stages db) (archived_tasks db)
       (archived_task_stages db) (email_logs db).

Definition with_task_stages (ss : list TaskStage.t) (db : DB) : DB :=
  mkDB (states db) (users db) (tasks db) ss (archived_tasks db)
       (archived_task_stages db) (email_logs db).

Definition with_email_logs (ls : list EmailLog.t) (db : DB) : DB :=
  mkDB (states db) (users db) (tasks db) (task_stages db) (archived_tasks db)
       (archived_task_stages db) ls.

(** The relationship [Task.stages]: the stages whose foreign key is the task. *)
Definition stages_of (db : DB) (tid : Z) : list TaskStage.t :=
  List.filter (λ s, bool_decide (TaskStage.task_id s = tid)) (task_stages db).

(** The relationship [Task.assigned_user]. *)
Definition assigned_user (db : DB) (t : Task.t) : option User.t :=
  uid ← Task.assigned_user_id t;
  first (λ u, bool_decide (User.user_id u = uid)) (users db).

(** A modified ORM object is written back by primary key. *)
Definition put_task (t' : Task.t) (rows : list Task.t) : list Task.t :=
  (λ r, if bool_decide (Task.task_id r = Task.task_id t') then t' else r) <$> rows.

Definition put_stage (s' : TaskStage.t) (rows : list TaskStage.t) : list TaskStage.t :=
  (λ r, if bool_decide (TaskStage.stage_id r = TaskStage.stage_id s') then s' else r) <$> rows.

(** ** [app/services/tasks.py] *)

(** [get_all_states]: the dict [{s.state_name: s.state_id for s in states}];
    a later row overwrites an earlier one of the same name. *)
Definition get_all_states (db : DB) : gmap string Z :=
  foldl (λ m s, <[State.state_name s := State.state_id s]> m) ∅ (states db).

Definition get_task (db : DB) (tid : Z) : option Task.t :=
  first (λ t, bool_decide (Task.task_id t = tid)) (tasks db).

Definition get_stage (db : DB) (sid : Z) : option TaskStage.t :=
  first (λ s, bool_decide (TaskStage.stage_id s = sid)) (task_stages db).

(** The dates [s.completed_date for s in task.stages if s.completed_date]. *)
Definition stage_completed_dates (stages : list TaskStage.t) : list date :=
  omap TaskStage.completed_date stages.

(** The body of [update_task_status_from_stages] once the task, its stages
    and the three state ids are loaded. *)
Definition apply_status_rules (today : date) (comp_id overdue_id in_prog_id : option Z)
    (task : Task.t) (stages : list TaskStage.t) : Task.t :=
  let all_completed :=
    forallb (λ s, bool_decide (TaskStage.status_state_id s = comp_id)) stages in
  if all_completed && negb (bool_decide (stages = [])) then
    Task.with_completed_date
      (Some (max_default (stage_completed_dates stages) today))
      (Task.with_status comp_id task)
  else if bool_decide (Task.due_date task < today)
          && negb (bool_decide (Task.status_state_id task = comp_id)) then
    Task.with_status overdue_id task
  else if existsb (λ s, bool_decide (TaskStage.status_state_id s = in_prog_id)) stages then
    Task.with_status in_prog_id task
  else task.

(** [update_task_status_from_stages(db, task_id)]: works on the objects of the
    session, commits nothing; a task that does not exist is left alone. *)
Definition update_task_status_from_stages (today : date) (db : DB) (task_id : Z) : DB :=
  match get_task db task_id with
  | None => db
  | Some task =>
      let states := get_all_states db in
      let comp_id := states !! "completed" in
      let overdue_id := states !! "overdue" in
      let in_prog_id := states !! "in-progress" in
      let task' :=
        apply_status_rules today comp_id overdue_id in_prog_id task
          (stages_of db task_id) in
      with_tasks (put_task task' (tasks db)) db
  end.

(** The request body of a stage update ([app/schemas/task.py]). *)
Module TaskStageUpdate.
Record t := mk {
  status_state_id : Z;
  actual_time_hours : option float;
  start_date : option date;
  completed_date : option date;
}.
End TaskStageUpdate.

(** The assignments of [update_stage] to the loaded stage, in source order;
    [Raise] when completion lacks the actual hours. *)
Definition apply_stage_update (today : date) (new_status : State.t)
    (update_data : TaskStageUpdate.t) (stage : TaskStage.t) : result TaskStage.t :=
  let stage :=
    TaskStage.with_status (Some (TaskStageUpdate.status_state_id update_data)) stage in
  let stage :=
    if bool_decide (State.state_name new_status = "in-progress")
       && bool_decide (TaskStage.start_date stage = None)
    then TaskStage.with_start_date (Some today) stage else stage in
  let completing :=
    if bool_decide (State.state_name new_status = "completed") then
      if bool_decide (TaskStageUpdate.actual_time_hours update_data = None)
         && bool_decide (TaskStage.actual_time_hours stage = None)
      then Raise (HTTPException 400 "Actual time hours required to complete stage")
      else Ok (TaskStage.with_completed_date
                 (Some (default today (TaskStageUpdate.completed_date update_data)))
                 stage)
    else Ok stage in
  match completing with
  | Raise e => Raise e
  | Ok stage =>
      let stage :=
        match TaskStageUpdate.actual_time_hours update_data with
        | Some h => TaskStage.with_actual_time_hours (Some h) stage
        | None => stage
        end in
      let stage :=
        match TaskStageUpdate.start_date update_data with
        | Some d => TaskStage.with_start_date (Some d) stage
        | None => stage
        end in
      let stage :=
        match TaskStageUpdate.completed_date update_data with
        | Some d => TaskStage.with_completed_date (Some d) stage
        | None => stage
        end in
      Ok stage
  end.

(** [update_stage(db, stage_id, update_data)]: the updated stage and the
    session's view of the database, or the exception raised. *)
Definition update_stage (today : date) (db : DB) (stage_id : Z)
    (update_data : TaskStageUpdate.t) : result (TaskStage.t * DB) :=
  match get_stage db stage_id with
  | None => Raise (HTTPException 404 "Stage not found")
  | Some stage =>
      match first (λ s, bool_decide
                     (State.state_id s = TaskStageUpdate.status_state_id update_data))
                  (states db) with
      | None => Raise (HTTPException 404 "Invalid status ID")
      | Some new_status =>
          match apply_stage_update today new_status update_data stage with
          | Raise e => Raise e
          | Ok stage' =>
              let db := with_task_stages (put_stage stage' (task_stages db)) db in
              Ok (stage', update_task_status_from_stages today db (TaskStage.task_id stage'))
          end
      end
  end.

(** ** [app/utils/email.py] and [app/services/email_worker.py] *)

(** [app/config.py]: the mail settings. *)
Record Settings := mkSettings {
  EMAIL_HOST : option string;
  EMAIL_PORT : Z;
  EMAIL_USER : option string;
  EMAIL_PASS : option string;
  EMAIL_FROM : option string;
  EMAIL_TO : option string;
}.

(** The MIME message handed to the mail transport. *)
Record Message := mkMessage {
  msg_From : option string;
  msg_To : option string;
  msg_Subject : string;
  msg_text : string;
}.

(** The mail transport, [aiosmtplib.send]: an external collaborator that
    delivers the message or raises. *)
Definition Transport := Settings → Message → result unit.

(** [send_email_async]: the whole body sits in [try: ... except Exception],
    whose handler only prints, so the call returns normally whether the
    transport delivered the message or raised. *)
Definition send_email_async (settings : Settings) (smtp_send : Transport)
    (subject body : string) (to_email : option string) : result unit :=
  let attempt : result unit :=
    if negb (truthy (default "" (EMAIL_HOST settings))) then Ok ()
    else
      let to_email :=
        if negb (truthy (default "" to_email)) then EMAIL_TO settings else to_email in
      smtp_send settings (mkMessage (EMAIL_FROM settings) to_email subject body) in
  match attempt with
  | Ok _ => Ok ()
  | Raise _ => Ok ()
  end.

Module EmailJob.
Record t := mk {
  log_id : Z;
  subject : string;
  body : string;
  to_email : option string;
}.
End EmailJob.

(** The process: the database and the in-memory queue [email_queue]. *)
Record World := mkWorld {
  db : DB;
  email_queue : list EmailJob.t;
}.

(** The id of a new [email_logs] row.  The database draws it from the
    sequence of the table, which the model does not hold; in its place stands
    the least id above those in use.  The program only adds rows to this
    table, and commits each row with the id drawn for it, so that its
    sequence stands at the greatest id of the table when it did at the
    start; what is proved of a new id is that it is above those in use. *)
Definition next_log_id (logs : list EmailLog.t) : Z :=
  foldr Z.max 0 (EmailLog.id <$> logs) + 1.

(** [enqueue_email(subject, body, to_email)]: persists a [pending] row, then
    puts the job at the back of the queue. *)
Definition enqueue_email (now : datetime) (subject body : string)
    (to_email : option string) (w : World) : World :=
  let log_id := next_log_id (email_logs (db w)) in
  let new_log :=
    EmailLog.mk log_id to_email subject body "pending" (Some now) None None in
  mkWorld (with_email_logs (email_logs (db w) ++ [new_log]) (db w))
          (email_queue w ++ [EmailJob.mk log_id subject body to_email]).

(** The status update of the worker: the first log row of that id, if any. *)
Definition update_log (f : EmailLog.t → EmailLog.t) (log_id : Z) (d : DB) : DB :=
  match first (λ l, bool_decide (EmailLog.id l = log_id)) (email_logs d) with
  | None => d
  | Some _ =>
      with_email_logs
        ((λ l, if bool_decide (EmailLog.id l = log_id) then f l else l)
           <$> email_logs d) d
  end.

(** One iteration of the [while True] loop of [email_worker].  [None]: the
    queue is empty and [email_queue.get()] blocks.  Otherwise the job at the
    front is taken and processed, and the loop goes on with the next
    iteration in the returned state.  The two status updates are taken to
    reach the database. *)
Definition email_worker_step (settings : Settings) (smtp_send : Transport)
    (now : datetime) (w : World) : option World :=
  match email_queue w with
  | [] => None
  | job :: rest =>
      let d :=
        match send_email_async settings smtp_send (EmailJob.subject job)
                (EmailJob.body job) (EmailJob.to_email job) with
        | Ok _ => update_log (EmailLog.mark_sent now) (EmailJob.log_id job) (db w)
        | Raise e =>
            update_log (EmailLog.mark_failed (str_exn e)) (EmailJob.log_id job) (db w)
        end in
      Some (mkWorld d rest)
  end.


(** ** [app/services/scheduler.py]: the overdue sweep *)

(** A call [enqueue_email(subject, body, to_email=recipient)] that has been
    created but not yet awaited. *)
Record Email := mkEmail {
  email_subject : string;
  email_body : string;
  email_to : option string;
}.

(** [asyncio.gather] over the created calls: they run in the order of the list. *)
Definition gather (now : datetime) (emails : list Email) (w : World) : World :=
  foldl (λ w e, enqueue_email now (email_subject e) (email_body e) (email_to e) w)
        w emails.

(** [task.assigned_user.email if task.assigned_user else None] *)
Definition recipient (d : DB) (task : Task.t) : option string :=
  User.email <$> assigned_user d task.

(** [task.assigned_user.full_name if task.assigned_user else "User"], as an
    f-string prints it. *)
Definition recipient_name (d : DB) (task : Task.t) : string :=
  match assigned_user d task with
  | Some u => str_opt (User.full_name u)
  | None => "User"
  end.

Definition task_overdue_email (d : DB) (task : Task.t) : option Email :=
  if truthy (default "" (recipient d task)) then
    Some (mkEmail
      ("Task Overdue: " +:+ Task.name task)
      ("Hello " +:+ recipient_name d task +:+ "," +:+ nl +:+ nl +:+
       "The following task is now OVERDUE:" +:+ nl +:+
       "Task ID: " +:+ pretty (Task.task_id task) +:+ nl +:+
       "Name: " +:+ Task.name task +:+ nl +:+
       "Due Date: " +:+ str_date (Task.due_date task) +:+ nl +:+
       "Priority: " +:+ Task.priority task +:+ nl +:+ nl +:+
       "Please update the status or contact your manager.")
      (recipient d task))
  else None.

Definition stage_overdue_email (d : DB) (stage : TaskStage.t) : option Email :=
  match get_task d (TaskStage.task_id stage) with
  | None => None
  | Some task =>
      if truthy (default "" (recipient d task)) then
        Some (mkEmail
          ("Stage Overdue in Task " +:+ pretty (TaskStage.task_id stage))
          ("Hello " +:+ recipient_name d task +:+ "," +:+ nl +:+ nl +:+
           "A stage in your task is overdue:" +:+ nl +:+
           "Stage: " +:+ TaskStage.stage_name stage +:+ nl +:+
           "Task: " +:+ Task.name task +:+
             " (ID: " +:+ pretty (Task.task_id task) +:+ ")" +:+ nl +:+ nl +:+
           "Please attend to this immediately.")
          (recipient d task))
      else None
  end.

Definition reminder_email (d : DB) (task : Task.t) : option Email :=
  if truthy (default "" (recipient d task)) then
    Some (mkEmail
      ("Reminder: Task Due Soon - " +:+ Task.name task)
      ("Hello " +:+ recipient_name d task +:+ "," +:+ nl +:+ nl +:+
       "This is a reminder that your task is due soon:" +:+ nl +:+
       "Task ID: " +:+ pretty (Task.task_id task) +:+ nl +:+
       "Name: " +:+ Task.name task +:+ nl +:+
       "Due Date: " +:+ str_date (Task.due_date task) +:+ nl +:+ nl +:+
       "Please ensure it is completed on time.")
      (recipient d task))
  else None.

(** The three queries of the sweep. *)
Definition overdue_task_selected (comp_id : Z) (today : date) (t : Task.t) : bool :=
  sql_ne (Task.status_state_id t) comp_id && bool_decide (Task.due_date t < today).

Definition overdue_stage_selected (d : DB) (comp_id : Z) (today : date)
    (s : TaskStage.t) : bool :=
  sql_ne (TaskStage.status_state_id s) comp_id
  && bool_decide (TaskStage.completed_date s = None)
  && negb (bool_decide (TaskStage.start_date s = None))
  && existsb (λ t, bool_decide (Task.task_id t = TaskStage.task_id s)
                   && bool_decide (Task.due_date t < today)) (tasks d).

Definition near_due_selected (comp_id : Z) (today : date) (t : Task.t) : bool :=
  sql_ne (Task.status_state_id t) comp_id
  && bool_decide (today + 1 ≤ Task.due_date t)
  && bool_decide (Task.due_date t ≤ today + 2).

(** The first loop: the selected tasks become [overdue]. *)
Definition flag_tasks (now : datetime) (comp_id overdue_id : Z) (today : date)
    (rows : list Task.t) : list Task.t :=
  (λ t, if overdue_task_selected comp_id today t then
          if negb (bool_decide (Task.status_state_id t = Some overdue_id))
          then Task.assign_status now overdue_id t else t
        else t) <$> rows.

(** The second loop: the selected stages become [overdue]. *)
Definition flag_stages (now : datetime) (d : DB) (comp_id overdue_id : Z)
    (today : date) (rows : list TaskStage.t) : list TaskStage.t :=
  (λ s, if overdue_stage_selected d comp_id today s
        then TaskStage.assign_status now overdue_id s else s) <$> rows.

(** Where a database call of the sweep raises, if anywhere: the four
    [db.execute] calls and the [db.commit]. *)
Inductive failure_point :=
  | NoFailure
  | FailStatesQuery
  | FailTaskQuery
  | FailStageQuery
  | FailCommit
  | FailReminderQuery.

Global Instance failure_point_eq_dec : EqDecision failure_point.
Proof. solve_decision. Defined.

Definition raises_at (fail here : failure_point) : bool := bool_decide (fail = here).

(** The [try] block of [check_overdue_and_notify].  The first component is
    what is committed when the block ends or raises: the session's pending
    changes exist only in the local values [tasks'] and [stages'] until the
    single [db.commit()] installs them.  The second component tells whether
    the block raised. *)
Definition sweep_try (fail : failure_point) (today : date) (now : datetime)
    (w : World) : World * result unit :=
  let d := db w in
  if raises_at fail FailStatesQuery then (w, Raise (OperationalError "states")) else
  let states := get_all_states d in
  match states !! "completed", states !! "overdue" with
  | Some comp_id, Some overdue_id =>
      if raises_at fail FailTaskQuery then (w, Raise (OperationalError "tasks")) else
      let selected := List.filter (overdue_task_selected comp_id today) (tasks d) in
      let tasks' := flag_tasks now comp_id overdue_id today (tasks d) in
      let task_emails := omap (task_overdue_email d) selected in
      if raises_at fail FailStageQuery then (w, Raise (OperationalError "stages")) else
      let stages := List.filter (overdue_stage_selected d comp_id today) (task_stages d) in
      let stages' := flag_stages now d comp_id overdue_id today (task_stages d) in
      let email_tasks := task_emails ++ omap (stage_overdue_email d) stages in
      if raises_at fail FailCommit then (w, Raise (OperationalError "commit")) else
      let d := with_task_stages stages' (with_tasks tasks' d) in
      let w := gather now email_tasks (mkWorld d (email_queue w)) in
      if raises_at fail FailReminderQuery then (w, Raise (OperationalError "reminders")) else
      let near_due_tasks := List.filter (near_due_selected comp_id today) (tasks (db w)) in
      let reminder_tasks := omap (reminder_email (db w)) near_due_tasks in
      (gather now reminder_tasks w, Ok ())
  | _, _ => (w, Ok ())
  end.

(** [check_overdue_and_notify]: the handler rolls the session back, which
    leaves the committed state, and prints. *)
Definition check_overdue_and_notify (fail : failure_point) (today : date)
    (now : datetime) (w : World) : World :=
  (sweep_try fail today now w).1.

(** ** [app/services/scheduler.py]: the archival job *)

Definition archived_task (now : datetime) (task : Task.t) : ArchivedTask.t :=
  ArchivedTask.mk (Task.task_id task) (Task.name task) (Task.description task)
    (Task.status_state_id task) (Task.due_date task) (Task.completed_date task)
    (Task.priority task) (Task.assigned_user_id task) (Task.created_by_id task)
    (Task.idempotency_key task) (Task.created_at task) (Task.updated_at task)
    (Some now).

Definition archived_stage (now : datetime) (stage : TaskStage.t) : ArchivedTaskStage.t :=
  ArchivedTaskStage.mk (TaskStage.stage_id stage) (TaskStage.task_id stage)
    (TaskStage.stage_name stage) (TaskStage.estimated_time_hours stage)
    (TaskStage.actual_time_hours stage) (TaskStage.status_state_id stage)
    (TaskStage.order_number stage) (TaskStage.start_date stage)
    (TaskStage.completed_date stage) (TaskStage.created_at stage)
    (TaskStage.updated_at stage) (Some now).

(** [status_state_id == completed_state.state_id] and
    [completed_date <= archive_threshold]; a NULL date never satisfies it. *)
Definition archive_selected (completed_id : Z) (threshold : date) (t : Task.t) : bool :=
  bool_decide (Task.status_state_id t = Some completed_id)
  && match Task.completed_date t with
     | Some d => bool_decide (d ≤ threshold)
     | None => false
     end.

(** What the session holds before the commit: the rows added and the tasks
    deleted. *)
Record Pending := mkPending {
  added_tasks : list ArchivedTask.t;
  added_stages : list ArchivedTaskStage.t;
  deleted_tasks : list Z;
}.

(** The loop over [tasks_to_archive].  [delete_raises task] tells whether
    [db.delete(task)] raises for that task. *)
Fixpoint archive_loop (delete_raises : Task.t → bool) (now : datetime) (d : DB)
    (tasks_to_archive : list Task.t) (p : Pending) : result Pending :=
  match tasks_to_archive with
  | [] => Ok p
  | task :: rest =>
      let p := mkPending (added_tasks p ++ [archived_task now task])
                 (added_stages p ++ (archived_stage now <$> stages_of d (Task.task_id task)))
                 (deleted_tasks p) in
      if delete_raises task then Raise (OperationalError "delete")
      else archive_loop delete_raises now d rest
             (mkPending (added_tasks p) (added_stages p)
                (deleted_tasks p ++ [Task.task_id task]))
  end.

(** An INSERT of [new] primary keys into a table holding [old] ones is
    accepted when no new key is in use or given twice. *)
Definition insert_ok (old new : list Z) : bool :=
  bool_decide (NoDup new) && forallb (λ k, negb (bool_decide (k ∈ old))) new.

(** [db.commit()] of the archival: the inserts into the two archive tables,
    then the deletion of the tasks, which takes their stages along
    ([cascade], [ondelete="CASCADE"]).  All of it or nothing is written. *)
Definition archive_commit (p : Pending) (d : DB) : result DB :=
  if insert_ok (ArchivedTask.task_id <$> archived_tasks d)
               (ArchivedTask.task_id <$> added_tasks p)
     && insert_ok (ArchivedTaskStage.stage_id <$> archived_task_stages d)
                  (ArchivedTaskStage.stage_id <$> added_stages p)
  then
    Ok (mkDB (states d) (users d)
          (List.filter (λ t, negb (bool_decide (Task.task_id t ∈ deleted_tasks p)))
                       (tasks d))
          (List.filter (λ s, negb (bool_decide (TaskStage.task_id s ∈ deleted_tasks p)))
                       (task_stages d))
          (archived_tasks d ++ added_tasks p)
          (archived_task_stages d ++ added_stages p)
          (email_logs d))
  else Raise (IntegrityError "duplicate key value violates unique constraint").

(** The [try] block of [archive_old_tasks]. *)
Definition archive_try (delete_raises : Task.t → bool) (today : date)
    (now : datetime) (d : DB) : result DB :=
  match first (λ s, bool_decide (State.state_name s = "completed")) (states d) with
  | None => Ok d
  | Some completed_state =>
      let archive_threshold := today - 30 in
      let tasks_to_archive :=
        List.filter (archive_selected (State.state_id completed_state) archive_threshold)
                    (tasks d) in
      if bool_decide (tasks_to_archive = []) then Ok d
      else
        match archive_loop delete_raises now d tasks_to_archive (mkPending [] [] []) with
        | Raise e => Raise e
        | Ok p => archive_commit p d
        end
  end.

(** [archive_old_tasks]: on an exception the session is rolled back, and the
    database is as it was. *)
Definition archive_old_tasks (delete_raises : Task.t → bool) (today : date)
    (now : datetime) (d : DB) : DB :=
  match archive_try delete_raises today now d with
  | Ok d' => d'
  | Raise _ => d
  end.

(** ** [app/routers/tasks.py]: [delete_stage] *)

(** [get_task_by_id] of the service: soft-deleted tasks are not found. *)
Definition get_task_by_id (d : DB) (task_id : Z) : result Task.t :=
  match first (λ t, bool_decide (Task.task_id t = task_id)
                    && negb (Task.is_deleted t)) (tasks d) with
  | Some task => Ok task
  | None => Raise (HTTPException 404 "Task not found")
  end.

(** [enumerate(xs, start)] *)
Definition enumerate {A} (start : Z) (xs : list A) : list (Z * A) :=
  zip (seqZ start (Z.of_nat (length xs))) xs.

Definition order_le (a b : TaskStage.t) : Prop :=
  TaskStage.order_number a ≤ TaskStage.order_number b.

Global Instance order_le_dec : RelDecision order_le.
Proof. intros a b. unfold order_le. apply _. Defined.

(** [ORDER BY order_number]; among rows of equal [order_number] the order is
    the one the sort gives them (SQL leaves it open). *)
Definition order_by_order_number (rows : list TaskStage.t) : list TaskStage.t :=
  merge_sort order_le rows.

(** [s.order_number = i], written back by primary key. *)
Definition set_order_number (now : datetime) (rows : list TaskStage.t)
    (job : Z * TaskStage.t) : list TaskStage.t :=
  (λ r, if bool_decide (TaskStage.stage_id r = TaskStage.stage_id job.2)
        then TaskStage.assign_order_number now job.1 r else r) <$> rows.

(** [delete_stage(stage_id)]: the database after the call (both commits
    precede the final read) and the response or the exception raised. *)
Definition delete_stage (now : datetime) (d : DB) (stage_id : Z) : DB * result Task.t :=
  match get_stage d stage_id with
  | None => (d, Raise (HTTPException 404 "Stage not found"))
  | Some stage =>
      let task_id := TaskStage.task_id stage in
      let d :=
        with_task_stages
          (List.filter (λ s, negb (bool_decide (TaskStage.stage_id s = stage_id)))
                       (task_stages d)) d in
      let remaining_stages := order_by_order_number (stages_of d task_id) in
      let d :=
        with_task_stages
          (foldl (set_order_number now) (task_stages d) (enumerate 1 remaining_stages)) d in
      (d, get_task_by_id d task_id)
  end.

(** ** [app/routers/tasks.py] and [app/services/tasks.py]: the other routes

    The values of a request are taken to fit their columns (the range of an
    integer, the length of a string); [add_stage_to_task], which computes
    the number of the new stage and whose request sets no bound to the name,
    checks both.  The time of the database ([func.now()], for [created_at]
    and [updated_at]) and the time of the process ([datetime.now]) are two
    arguments, [db_now] and [now]. *)

Global Instance Task_eq_dec : EqDecision Task.t.
Proof. solve_decision. Defined.

(** [get_state_by_name] *)
Definition get_state_by_name (d : DB) (name : string) : result State.t :=
  match first (λ s, bool_decide (State.state_name s = name)) (states d) with
  | Some state => Ok state
  | None => Raise (HTTPException 500 ("State '" +:+ name +:+ "' not found"))
  end.

(** [task.is_deleted = True; task.deleted_at = datetime.now(timezone.utc)] *)
Definition soft_deleted (now : datetime) (r : Task.t) : Task.t :=
  Task.mk (Task.task_id r) (Task.name r) (Task.description r)
    (Task.status_state_id r) (Task.due_date r) (Task.completed_date r)
    (Task.priority r) (Task.assigned_user_id r) (Task.created_by_id r)
    (Task.idempotency_key r) (Task.created_at r) (Task.updated_at r) true (Some now).

(** [delete_task(task_id)]: the soft deletion.  The task found is not
    deleted, so the row changes and the commit writes it. *)
Definition delete_task (now db_now : datetime) (d : DB) (task_id : Z)
    : DB * result unit :=
  match get_task_by_id d task_id with
  | Raise e => (d, Raise e)
  | Ok task =>
      let task := soft_deleted now task in
      (with_tasks (put_task (Task.with_updated_at (Some db_now) task) (tasks d)) d,
       Ok ())
  end.

(** The request body of a task update ([app/schemas/task.py]). *)
Module TaskUpdate.
Record t := mk {
  name : option string;
  description : option string;
  due_date : option date;
  priority : option string;
  assigned_user_id : option Z;
  status_state_id : option Z;
}.
End TaskUpdate.

(** The five [if update_data.x is not None: task.x = update_data.x]. *)
Definition apply_task_fields (u : TaskUpdate.t) (r : Task.t) : Task.t :=
  Task.mk (Task.task_id r)
    (default (Task.name r) (TaskUpdate.name u))
    (match TaskUpdate.description u with
     | Some x => Some x
     | None => Task.description r
     end)
    (Task.status_state_id r)
    (default (Task.due_date r) (TaskUpdate.due_date u))
    (Task.completed_date r)
    (default (Task.priority r) (TaskUpdate.priority u))
    (match TaskUpdate.assigned_user_id u with
     | Some x => Some x
     | None => Task.assigned_user_id r
     end)
    (Task.created_by_id r) (Task.idempotency_key r) (Task.created_at r)
    (Task.updated_at r) (Task.is_deleted r) (Task.deleted_at r).

(** The constraints of [tasks] that an UPDATE of a row can violate, each
    checked when its columns change: the foreign keys of [status_state_id]
    (which is [NOT NULL]) and of [assigned_user_id], and the uniqueness of
    ([name], [assigned_user_id]), which a NULL assignee never violates. *)
Definition task_update_ok (d : DB) (old new : Task.t) : bool :=
  (bool_decide (Task.status_state_id new = Task.status_state_id old)
   || match Task.status_state_id new with
      | Some st => existsb (λ s, bool_decide (State.state_id s = st)) (states d)
      | None => false
      end)
  && (bool_decide (Task.assigned_user_id new = Task.assigned_user_id old)
      || match Task.assigned_user_id new with
         | Some uid => existsb (λ u, bool_decide (User.user_id u = uid)) (users d)
         | None => true
         end)
  && (bool_decide (Task.name new = Task.name old
                   ∧ Task.assigned_user_id new = Task.assigned_user_id old)
      || match Task.assigned_user_id new with
         | Some uid =>
             negb (existsb (λ r, negb (bool_decide (Task.task_id r = Task.task_id new))
                                 && bool_decide (Task.name r = Task.name new)
                                 && bool_decide (Task.assigned_user_id r = Some uid))
                           (tasks d))
         | None => true
         end).

(** [db.commit()] after the attributes of one task were assigned: no write
    when nothing changed; otherwise the UPDATE, which sets [updated_at], or
    the error of the constraint it violates. *)
Definition commit_task (db_now : datetime) (d : DB) (old new : Task.t) : result DB :=
  if bool_decide (new = old) then Ok d
  else if task_update_ok d old new then
    Ok (with_tasks (put_task (Task.with_updated_at (Some db_now) new) (tasks d)) d)
  else Raise (IntegrityError "violates a constraint of tasks").

(** [update_task(task_id, update_data)] *)
Definition update_task (db_now : datetime) (d : DB) (task_id : Z)
    (update_data : TaskUpdate.t) : DB * result Task.t :=
  match get_task_by_id d task_id with
  | Raise e => (d, Raise e)
  | Ok task =>
      let task' := apply_task_fields update_data task in
      let assigned : result Task.t :=
        match TaskUpdate.status_state_id update_data with
        | None => Ok task'
        | Some new_status =>
            let completed_id := get_all_states d !! "completed" in
            if bool_decide (Some new_status = completed_id)
               && existsb (λ s, negb (bool_decide
                                        (TaskStage.status_state_id s = completed_id)))
                          (stages_of d task_id)
            then Raise (HTTPException 400
                          "Cannot mark task as completed while stages are still open")
            else Ok (Task.with_status (Some new_status) task')
        end in
      match assigned with
      | Raise e => (d, Raise e)
      | Ok task' =>
          match commit_task db_now d task task' with
          | Raise e => (d, Raise e)
          | Ok d' => (d', get_task_by_id d' task_id)
          end
      end
  end.

(** The request body of a new stage ([app/schemas/task.py]). *)
Module TaskStageCreate.
Record t := mk {
  stage_name : string;
  estimated_time_hours : float;
  order_number : Z;
}.
End TaskStageCreate.

Definition Z_ge (a b : Z) : Prop := b ≤ a.

Global Instance Z_ge_dec : RelDecision Z_ge.
Proof. intros a b. unfold Z_ge. apply _. Defined.

(** The key of a new [task_stages] row.  The database draws it from the
    sequence of the table, which the model does not hold; in its place stands
    the least key above those in use.  A sequence from which every key of the
    table was drawn gives a key above those in use as well, and that is all
    that is proved of a new key; after the row of the greatest key was
    deleted the sequence gives a greater key than this one. *)
Definition next_stage_id (rows : list TaskStage.t) : Z :=
  foldr Z.max 0 (TaskStage.stage_id <$> rows) + 1.

(** The greatest value of an [Integer] column. *)
Definition int4_max : Z := 2147483647.

(** The character NUL, which no text of the database holds. *)
Fixpoint contains_nul (s : string) : bool :=
  match s with
  | EmptyString => false
  | String c s' => bool_decide (c = Ascii.zero) || contains_nul s'
  end.

(** [x or 0] for an optional integer. *)
Definition or_zero (x : option Z) : Z :=
  match x with
  | Some m => if bool_decide (m = 0) then 0 else m
  | None => 0
  end.

(** [add_stage_to_task(task_id, stage_data)]: the new stage goes after the
    greatest [order_number] of the task.  The insert violates no constraint
    of keys: its key is new, and its task and its state were just read.  It
    is refused, and nothing is written, when a value does not fit its
    column: the [order_number] computed here may pass the greatest
    [Integer], and the schema of the request sets no bound to [stage_name],
    which is a [String(100)], and does not keep the character NUL out of
    it.  The length of a text is the number of its characters, which a
    [string] holds one by one. *)
Definition add_stage_to_task (db_now : datetime) (d : DB) (task_id : Z)
    (stage_data : TaskStageCreate.t) : DB * result TaskStage.t :=
  match get_task_by_id d task_id with
  | Raise e => (d, Raise e)
  | Ok task =>
      let max_order :=
        or_zero (head (merge_sort Z_ge
                         (TaskStage.order_number <$> stages_of d task_id))) in
      match get_state_by_name d "pending" with
      | Raise e => (d, Raise e)
      | Ok pending_state =>
          let new_stage :=
            TaskStage.mk (next_stage_id (task_stages d)) task_id
              (TaskStageCreate.stage_name stage_data)
              (TaskStageCreate.estimated_time_hours stage_data) None
              (Some (State.state_id pending_state)) (max_order + 1) None None
              (Some db_now) None in
          if negb (bool_decide (max_order + 1 ≤ int4_max))
          then (d, Raise (DBAPIError "value out of int32 range"))
          else if contains_nul (TaskStageCreate.stage_name stage_data)
          then (d, Raise (DBAPIError "invalid byte sequence for encoding UTF8: 0x00"))
          else if negb (bool_decide
                          (String.length (TaskStageCreate.stage_name stage_data)
                           ≤ 100)%nat)
          then (d, Raise (DBAPIError "value too long for type character varying(100)"))
          else (with_task_stages (task_stages d ++ [new_stage]) d, Ok new_stage)
      end
  end.

Definition task_id_le (a b : Task.t) : Prop := Task.task_id a ≤ Task.task_id b.

Global Instance task_id_le_dec : RelDecision task_id_le.
Proof. intros a b. unfold task_id_le. apply _. Defined.

(** [list_tasks(last_id, limit)]: the page of live tasks after the key
    [last_id], in the order of their keys.  [if last_id:] takes 0 for no
    cursor; the database refuses a negative LIMIT. *)
Definition list_tasks (d : DB) (last_id : option Z) (limit : Z) : result (list Task.t) :=
  let query := List.filter (λ t, negb (Task.is_deleted t)) (tasks d) in
  let query :=
    match last_id with
    | Some last =>
        if bool_decide (last = 0) then query
        else List.filter (λ t, bool_decide (last < Task.task_id t)) query
    | None => query
    end in
  if bool_decide (limit < 0) then Raise (OperationalError "LIMIT must not be negative")
  else Ok (take (Z.to_nat limit) (merge_sort task_id_le query)).

(** [notify_user_manually(task_id)]: the task is read without regard to
    [is_deleted]. *)
Definition notify_user_manually (now : datetime) (w : World) (task_id : Z)
    : World * result string :=
  match get_task (db w) task_id with
  | None => (w, Raise (HTTPException 404 "Task not found"))
  | Some task =>
      match assigned_user (db w) task with
      | None => (w, Raise (HTTPException 400 "Task has no assigned user"))
      | Some u =>
          let recipient := User.email u in
          let status :=
            st ← Task.status_state_id task;
            first (λ s, bool_decide (State.state_id s = st)) (states (db w)) in
          let subject := "Notification: Task " +:+ Task.name task in
          let body :=
            "This is a manual notification for your task:" +:+ nl +:+
            "Task: " +:+ Task.name task +:+
              " (ID: " +:+ pretty (Task.task_id task) +:+ ")" +:+ nl +:+
            "Status: " +:+ match status with
                           | Some s => State.state_name s
                           | None => "Unknown"
                           end +:+ nl +:+
            "Priority: " +:+ Task.priority task +:+ nl in
          (enqueue_email now subject body (Some recipient) w,
           Ok ("Notification sent to " +:+ recipient))
      end
  end.

(** ** [app/services/tasks.py]: [create_task]

    The two template tables are kept beside the [DB]. *)

Module TaskTemplate.
Record t := mk {
  template_id : Z;
  name : string;
  description : option string;
}.
End TaskTemplate.

Module TaskTemplateStage.
Record t := mk {
  id : Z;
  template_id : Z;
  stage_name : string;
  estimated_time_hours : option float;
  order_number : Z;
}.
End TaskTemplateStage.

Record Templates := mkTemplates {
  task_templates : list TaskTemplate.t;
  task_template_stages : list TaskTemplateStage.t;
}.

(** The request body of a new task ([app/schemas/task.py]). *)
Module TaskCreate.
Record t := mk {
  name : string;
  description : option string;
  due_date : date;
  priority : string;
  template_id : option Z;
  assigned_user_id : option Z;
  idempotency_key : option string;
  stages : list TaskStageCreate.t;
}.
End TaskCreate.

(** [sorted(rows, key=...)]: rows of equal key keep their order. *)
Fixpoint insert_sorted {A} (key : A → Z) (x : A) (l : list A) : list A :=
  match l with
  | [] => [x]
  | y :: l' =>
      if bool_decide (key x ≤ key y) then x :: l else y :: insert_sorted key x l'
  end.

Definition sorted {A} (key : A → Z) (l : list A) : list A :=
  foldr (insert_sorted key) [] l.

(** [x or 0.0] for an optional float: a zero of either sign is false. *)
Definition or_zero_float (x : option float) : float :=
  match x with
  | Some h => if PrimFloat.eqb h 0 then 0%float else h
  | None => 0%float
  end.

(** The key of a new [tasks] row, as [next_stage_id] is that of a stage: the
    least key above those in use stands for the key that the sequence gives,
    and what is proved of a new key is that it is above those in use. *)
Definition next_task_id (rows : list Task.t) : Z :=
  foldr Z.max 0 (Task.task_id <$> rows) + 1.

(** The constraints of [tasks] that the INSERT of a row under a new key can
    violate: the foreign keys of [status_state_id], [assigned_user_id] and
    [created_by_id], the uniqueness of ([name], [assigned_user_id]) and that
    of [idempotency_key]; a NULL violates neither uniqueness.  The rows of
    soft-deleted tasks count like the others. *)
Definition task_insert_ok (d : DB) (new : Task.t) : bool :=
  match Task.status_state_id new with
  | Some st => existsb (λ s, bool_decide (State.state_id s = st)) (states d)
  | None => false
  end
  && match Task.assigned_user_id new with
     | Some uid => existsb (λ u, bool_decide (User.user_id u = uid)) (users d)
     | None => true
     end
  && match Task.created_by_id new with
     | Some uid => existsb (λ u, bool_decide (User.user_id u = uid)) (users d)
     | None => true
     end
  && match Task.assigned_user_id new with
     | Some uid =>
         negb (existsb (λ r, bool_decide (Task.name r = Task.name new)
                             && bool_decide (Task.assigned_user_id r = Some uid))
                       (tasks d))
     | None => true
     end
  && match Task.idempotency_key new with
     | Some k =>
         negb (existsb (λ r, bool_decide (Task.idempotency_key r = Some k)) (tasks d))
     | None => true
     end.

(** The stages a new task gets, before the database gives them their keys:
    name, estimated hours and [order_number] of each. *)
Definition template_stage_specs (tpl : Templates) (template_id : Z)
    : list (string * float * Z) :=
  (λ ts, (TaskTemplateStage.stage_name ts,
          or_zero_float (TaskTemplateStage.estimated_time_hours ts),
          TaskTemplateStage.order_number ts))
  <$> sorted TaskTemplateStage.order_number
        (List.filter (λ ts, bool_decide (TaskTemplateStage.template_id ts = template_id))
                     (task_template_stages tpl)).

Definition explicit_stage_specs (stages : list TaskStageCreate.t)
    : list (string * float * Z) :=
  (λ stage, (TaskStageCreate.stage_name stage,
             TaskStageCreate.estimated_time_hours stage,
             TaskStageCreate.order_number stage)) <$> stages.

(** The rows of the stages added with [db.add], with the keys they are
    given in the order they were added. *)
Definition added_stage_rows (db_now : datetime) (first_id task_id pending_id : Z)
    (specs : list (string * float * Z)) : list TaskStage.t :=
  (λ '(i, (stage_name, hours, order_number)),
     TaskStage.mk i task_id stage_name hours None (Some pending_id) order_number
       None None (Some db_now) None)
  <$> enumerate first_id specs.

(** [create_task(db, task_data, current_user_id)] of the service.  The
    result is the database as the session has it, the new task flushed and
    its stages added, and the task returned; an exception leaves the session
    to be rolled back. *)
Definition create_task (db_now : datetime) (d : DB) (tpl : Templates)
    (task_data : TaskCreate.t) (current_user_id : Z) : result (DB * Task.t) :=
  let key := TaskCreate.idempotency_key task_data in
  let existing_task :=
    match key with
    | Some k =>
        if truthy k then
          first (λ r, bool_decide (Task.idempotency_key r = Some k)
                      && negb (Task.is_deleted r)) (tasks d)
        else None
    | None => None
    end in
  match existing_task with
  | Some existing =>
      match get_task_by_id d (Task.task_id existing) with
      | Raise e => Raise e
      | Ok task => Ok (d, task)
      end
  | None =>
      match get_state_by_name d "pending" with
      | Raise e => Raise e
      | Ok pending_state =>
          let new_task :=
            Task.mk (next_task_id (tasks d)) (TaskCreate.name task_data)
              (TaskCreate.description task_data) (Some (State.state_id pending_state))
              (TaskCreate.due_date task_data) None (TaskCreate.priority task_data)
              (TaskCreate.assigned_user_id task_data) (Some current_user_id)
              key (Some db_now) None false None in
          if negb (task_insert_ok d new_task)
          then Raise (IntegrityError "violates a constraint of tasks")
          else
            let from_template : result (list (string * float * Z)) :=
              match TaskCreate.template_id task_data with
              | Some template_id =>
                  if bool_decide (template_id = 0) then Ok []
                  else
                    match first (λ t, bool_decide (TaskTemplate.template_id t = template_id))
                                (task_templates tpl) with
                    | None => Raise (HTTPException 404 "Template not found")
                    | Some template =>
                        Ok (template_stage_specs tpl (TaskTemplate.template_id template))
                    end
              | None => Ok []
              end in
            match from_template with
            | Raise e => Raise e
            | Ok specs =>
                let specs := specs ++ explicit_stage_specs (TaskCreate.stages task_data) in
                Ok (mkDB (states d) (users d) (tasks d ++ [new_task])
                      (task_stages d
                       ++ added_stage_rows db_now (next_stage_id (task_stages d))
                            (Task.task_id new_task) (State.state_id pending_state) specs)
                      (archived_tasks d) (archived_task_stages d) (email_logs d),
                    new_task)
            end
      end
  end.

(** [create_task(task_data)] of the router: the service, the commit, and the
    task read again. *)
Definition create_task_route (db_now : datetime) (d : DB) (tpl : Templates)
    (task_data : TaskCreate.t) (current_user_id : Z) : DB * result Task.t :=
  match create_task db_now d tpl task_data current_user_id with
  | Raise e => (d, Raise e)
  | Ok (d', task) => (d', get_task_by_id d' (Task.task_id task))
  end.

(** ** [app/routers/templates.py] *)

(** The request body of a new template. *)
Module TemplateStageCreate.
Record t := mk {
  stage_name : string;
  estimated_time_hours : option float;
  order_number : Z;
}.
End TemplateStageCreate.

Module TemplateCreate.
Record t := mk {
  name : string;
  description : option string;
  stages : list TemplateStageCreate.t;
}.
End TemplateCreate.

(** The keys of new rows of the two tables, as [next_stage_id] is that of a
    stage: the least key above those in use stands for the key that the
    sequence gives, and what is proved of a new key is that it is above
    those in use (and so not 0). *)
Definition next_template_id (rows : list TaskTemplate.t) : Z :=
  foldr Z.max 0 (TaskTemplate.template_id <$> rows) + 1.

Definition next_template_stage_id (rows : list TaskTemplateStage.t) : Z :=
  foldr Z.max 0 (TaskTemplateStage.id <$> rows) + 1.

(** [create_template(data)]: the template, its stages in the order of the
    request, and the template read again with its stages. *)
Definition create_template (tpl : Templates) (data : TemplateCreate.t)
    : Templates * option (TaskTemplate.t * list TaskTemplateStage.t) :=
  let template :=
    TaskTemplate.mk (next_template_id (task_templates tpl)) (TemplateCreate.name data)
      (TemplateCreate.description data) in
  let stages :=
    (λ '(i, s),
       TaskTemplateStage.mk i (TaskTemplate.template_id template)
         (TemplateStageCreate.stage_name s)
         (TemplateStageCreate.estimated_time_hours s)
         (TemplateStageCreate.order_number s))
    <$> enumerate (next_template_stage_id (task_template_stages tpl))
          (TemplateCreate.stages data) in
  let tpl' :=
    mkTemplates (task_templates tpl ++ [template]) (task_template_stages tpl ++ stages) in
  (tpl',
   (λ t, (t, List.filter (λ s, bool_decide (TaskTemplateStage.template_id s
                                            = TaskTemplate.template_id t))
                         (task_template_stages tpl')))
   <$> first (λ t, bool_decide (TaskTemplate.template_id t
                                = TaskTemplate.template_id template))
             (task_templates tpl')).

(** [delete_template(template_id)]: the template goes with its stages
    ([cascade="all, delete-orphan"]). *)
Definition delete_template (tpl : Templates) (template_id : Z)
    : Templates * result unit :=
  match first (λ t, bool_decide (TaskTemplate.template_id t = template_id))
              (task_templates tpl) with
  | None => (tpl, Raise (HTTPException 404 "Template not found"))
  | Some template =>
      (mkTemplates
         (List.filter (λ t, negb (bool_decide (TaskTemplate.template_id t
                                               = TaskTemplate.template_id template)))
                      (task_templates tpl))
         (List.filter (λ s, negb (bool_decide (TaskTemplateStage.template_id s
                                               = TaskTemplate.template_id template)))
                      (task_template_stages tpl)),
       Ok ())
  end.

(** ** [app/routers/users.py] *)

Definition put_user (u' : User.t) (rows : list User.t) : list User.t :=
  (λ r, if bool_decide (User.user_id r = User.user_id u') then u' else r) <$> rows.

(** [get_user(user_id)] *)
Definition get_user (d : DB) (user_id : Z) : result User.t :=
  match first (λ u, bool_decide (User.user_id u = user_id) && negb (User.is_deleted u))
              (users d) with
  | Some user => Ok user
  | None => Raise (HTTPException 404 "User not found")
  end.

(** [delete_user(user_id)]: the same query, then the soft deletion. *)
Definition delete_user (now : datetime) (d : DB) (user_id : Z) : DB * result unit :=
  match get_user d user_id with
  | Raise e => (d, Raise e)
  | Ok user =>
      let user :=
        User.mk (User.user_id user) (User.username user) (User.email user)
          (User.full_name user) (User.hashed_password user) true (Some now) in
      (mkDB (states d) (put_user user (users d)) (tasks d) (task_stages d)
         (archived_tasks d) (archived_task_stages d) (email_logs d),
       Ok ())
  end.

(** ** [app/services/data_cleaning.py]

    Here a time stamp counts the seconds from 1970-01-01T00:00Z, the day of
    ordinal 719163. *)

(** [t.date()] of a [datetime] in UTC. *)
Definition date_of (t : datetime) : date := t `div` 86400 + 719163.

(** [ORDER BY created_at DESC]: NULLs come first. *)
Definition created_desc (a b : Task.t) : Prop :=
  match Task.created_at a, Task.created_at b with
  | None, _ => True
  | Some _, None => False
  | Some x, Some y => y ≤ x
  end.

Global Instance created_desc_dec : RelDecision created_desc.
Proof.
  intros a b. unfold created_desc.
  destruct (Task.created_at a), (Task.created_at b); apply _.
Defined.

(** The loop of [run_data_cleaning] over the tasks read: the objects as the
    loop leaves them, and the log.  [seen] holds the keys of the dict;
    [now i] is the clock at the deletion that follows [i] others.  The
    result is [None] when a task has no [created_at]: [t.created_at.date()]
    raises [AttributeError]. *)
Fixpoint cleaning_loop (now : nat → datetime) (tasks : list Task.t)
    (seen : list (string * date)) (log : list string)
    : option (list Task.t * list string) :=
  match tasks with
  | [] => Some ([], log)
  | t :: rest =>
      match Task.created_at t with
      | None => None
      | Some created =>
          let day := date_of created in
          let key := (Task.name t, day) in
          if bool_decide (key ∈ seen) then
            match cleaning_loop now rest seen
                    (log ++ ["Deleted Dupe: " +:+ Task.name t +:+
                             " (ID: " +:+ pretty (Task.task_id t) +:+ ")"]) with
            | None => None
            | Some (rest', log') => Some (soft_deleted (now (length log)) t :: rest', log')
            end
          else
            match cleaning_loop now rest (key :: seen) log with
            | None => None
            | Some (rest', log') => Some (t :: rest', log')
            end
      end
  end.

(** What [run_data_cleaning] returns. *)
Inductive cleaning_report :=
  | Cleaned (cleaned : nat) (items : list string)
  | NoDuplicates.

(** [run_data_cleaning(db)]: the tasks read were live, so the objects that
    are deleted after the loop are the changed ones, which the commit writes
    back. *)
Definition run_data_cleaning (now : nat → datetime) (db_now : datetime) (d : DB)
    : option (DB * cleaning_report) :=
  let tasks_read :=
    merge_sort created_desc (List.filter (λ t, negb (Task.is_deleted t)) (tasks d)) in
  match cleaning_loop now tasks_read [] [] with
  | None => None
  | Some (objects, log) =>
      match log with
      | [] => Some (d, NoDuplicates)
      | _ :: _ =>
          Some (with_tasks
                  (foldl (λ rows t, put_task (Task.with_updated_at (Some db_now) t) rows)
                         (tasks d) (List.filter Task.is_deleted objects))
                  d,
                Cleaned (length log) log)
      end
  end.

(** ** [app/utils/sanitization.py]

    A Python [str] is the list of its code points. *)

(** [re.sub(r'<[^>]*>', '', v)], as a scan: a tag runs from a [<] to the
    first [>] after it and is dropped; [pending] holds the text since a [<]
    that has not met its [>] yet, and is kept when the end comes first. *)
Fixpoint strip_tags_from (pending : option (list N)) (v : list N) : list N :=
  match v with
  | [] => default [] pending
  | c :: rest =>
      match pending with
      | None =>
          if bool_decide (c = 60%N) then strip_tags_from (Some [c]) rest
          else c :: strip_tags_from None rest
      | Some text =>
          if bool_decide (c = 62%N) then strip_tags_from None rest
          else strip_tags_from (Some (text ++ [c])) rest
      end
  end.

Definition strip_tags (v : list N) : list N := strip_tags_from None v.

(** [str.isspace] of one character. *)
Definition isspace (c : N) : bool :=
  bool_decide
    (c ∈ [0x9; 0xa; 0xb; 0xc; 0xd; 0x1c; 0x1d; 0x1e; 0x1f; 0x20; 0x85; 0xa0;
          0x1680; 0x2000; 0x2001; 0x2002; 0x2003; 0x2004; 0x2005; 0x2006;
          0x2007; 0x2008; 0x2009; 0x200a; 0x2028; 0x2029; 0x202f; 0x205f;
          0x3000]%N).

Fixpoint lstrip (v : list N) : list N :=
  match v with
  | [] => []
  | c :: rest => if isspace c then lstrip rest else v
  end.

(** [v.strip()] *)
Definition strip (v : list N) : list N := reverse (lstrip (reverse (lstrip v))).

(** The code points of a text of one-byte characters. *)
Fixpoint code_points (s : string) : list N :=
  match s with
  | EmptyString => []
  | String c s' => Ascii.N_of_ascii c :: code_points s'
  end.

(** [sanitize_string(v)]: a value that is not a [str] is returned as it
    is. *)
Definition sanitize_string {A} (v : list N + A) : list N + A :=
  match v with
  | inl s => inl (strip (strip_tags s))
  | inr other => inr other
  end.

(** ** Auxiliary definitions of the statements *)

(** The number the renumbering loop of [delete_stage] gives the stage of
    primary key [sid]: its position, counted from [start], in the ordered
    list of the remaining stages. *)
Fixpoint new_number (start : Z) (remaining : list TaskStage.t) (sid : Z) : option Z :=
  match remaining with
  | [] => None
  | s :: rest =>
      if bool_decide (TaskStage.stage_id s = sid) then Some start
      else new_number (start + 1) rest sid
  end.

Definition renumbered (now : datetime) (start : Z) (remaining : list TaskStage.t)
    (r : TaskStage.t) : TaskStage.t :=
  match new_number start remaining (TaskStage.stage_id r) with
  | Some n => TaskStage.assign_order_number now n r
  | None => r
  end.

(** The log row and the queued job that [enqueue_email] makes of an e-mail. *)
Definition logged_as (e : Email) (l : EmailLog.t) : Prop :=
  EmailLog.subject l = email_subject e ∧ EmailLog.body l = email_body e ∧
  EmailLog.to_email l = email_to e ∧ EmailLog.status l = "pending".

Definition queued_as (l : EmailLog.t) (j : EmailJob.t) : Prop :=
  EmailJob.log_id j = EmailLog.id l ∧ EmailJob.subject j = EmailLog.subject l ∧
  EmailJob.body j = EmailLog.body l ∧ EmailJob.to_email j = EmailLog.to_email l.

(** Between [w] and [w'] an overdue notification for [task] was enqueued for
    the user [u]: a new [pending] log row with the subject of the task and
    the address of the user, and a new job for it at the back of the queue. *)
Definition overdue_notified (task : Task.t) (u : User.t) (w w' : World) : Prop :=
  ∃ logs jobs log job,
    email_logs (db w') = email_logs (db w) ++ logs ∧
    email_queue w' = email_queue w ++ jobs ∧
    log ∈ logs ∧ job ∈ jobs ∧
    EmailLog.subject log = "Task Overdue: " +:+ Task.name task ∧
    EmailLog.to_email log = Some (User.email u) ∧
    EmailLog.status log = "pending" ∧
    queued_as log job.

(** The tasks an archival run selects. *)
Definition to_archive (today : date) (d : DB) : list Task.t :=
  match first (λ s, bool_decide (State.state_name s = "completed")) (states d) with
  | None => []
  | Some completed_state =>
      List.filter (archive_selected (State.state_id completed_state) (today - 30))
                  (tasks d)
  end.

(** The archive rows a run adds for the tasks [sel]. *)
Definition new_archived_tasks (now : datetime) (sel : list Task.t) : list ArchivedTask.t :=
  archived_task now <$> sel.

Definition new_archived_stages (now : datetime) (d : DB) (sel : list Task.t)
    : list ArchivedTaskStage.t :=
  sel ≫= (λ t, archived_stage now <$> stages_of d (Task.task_id t)).

(** The database in which the tasks [sel] are archived: their copies and the
    copies of their stages are in the archive tables, and they and their
    stages are gone from the live tables. *)
Definition archived_db (now : datetime) (d : DB) (sel : list Task.t) : DB :=
  mkDB (states d) (users d)
    (List.filter (λ t, negb (bool_decide (Task.task_id t ∈ Task.task_id <$> sel)))
                 (tasks d))
    (List.filter (λ s, negb (bool_decide (TaskStage.task_id s ∈ Task.task_id <$> sel)))
                 (task_stages d))
    (archived_tasks d ++ new_archived_tasks now sel)
    (archived_task_stages d ++ new_archived_stages now d sel)
    (email_logs d).



(** Between [w] and [w'] a notification with this subject was enqueued for
    this address: a new [pending] log row, and a new job for it at the back
    of the queue. *)
Definition notified (subject : string) (to_email : option string) (w w' : World) : Prop :=
  ∃ logs jobs log job,
    email_logs (db w') = email_logs (db w) ++ logs ∧
    email_queue w' = email_queue w ++ jobs ∧
    log ∈ logs ∧ job ∈ jobs ∧
    EmailLog.subject log = subject ∧
    EmailLog.to_email log = to_email ∧
    EmailLog.status log = "pending" ∧
    queued_as log job.

(** The key under which [run_data_cleaning] takes two tasks for duplicates:
    the name and the day of creation. *)
Definition dup_key (t : Task.t) : option (string * date) :=
  (λ created, (Task.name t, date_of created)) <$> Task.created_at t.

(** No [<] of the text is followed, anywhere later, by a [>]: the pattern
    [<[^>]*>] matches nowhere. *)
Fixpoint tag_free (v : list N) : Prop :=
  match v with
  | [] => True
  | c :: rest => (c = 60%N → 62%N ∉ rest) ∧ tag_free rest
  end.

(** The text does not begin with white space. *)
Definition starts_clean (v : list N) : Prop :=
  match v with
  | [] => True
  | c :: _ => isspace c = false
  end.

(** ** Sample data *)

Module Sample.
(** The four canonical states. *)
Definition registry : list State.t :=
  [State.mk 1 "pending" None; State.mk 2 "in-progress" None;
   State.mk 3 "completed" None; State.mk 4 "overdue" None].

Definition ann : User.t :=
  User.mk 1 "ann" "ann@example.org" (Some "Ann") "x" false None.

Definition task (id : Z) (name : string) (status : Z) (due : date)
    (completed : option date) (assignee : option Z) : Task.t :=
  Task.mk id name None (Some status) due completed "high" assignee None None
    None None false None.

Definition stage (id task_id : Z) (status order : Z) (actual : option float)
    (started completed : option date) : TaskStage.t :=
  TaskStage.mk id task_id "stage" 5%float actual (Some status) order started
    completed None None.

(** 2026-11-03 *)
Definition today : date := 739923.
Definition now : datetime := 1793700000.

(** Task 1 has two completed stages; task 2 has no stage and is past due;
    task 3 has one stage in progress. *)
Definition db1 : DB :=
  mkDB registry [ann]
    [task 1 "report" 2 (today + 7) None (Some 1);
     task 2 "empty" 1 (today - 1) None (Some 1);
     task 3 "draft" 2 (today + 7) None None]
    [stage 10 1 3 1 (Some 6%float) (Some (today - 5)) (Some (today - 3));
     stage 11 1 3 2 (Some 2%float) (Some (today - 3)) (Some (today - 1));
     stage 12 3 2 1 None (Some (today - 2)) None]
    [] [] [].

Definition world1 : World := mkWorld db1 [].

(** A configured mail host, and a transport that is down: every send
    raises. *)
Definition settings : Settings :=
  mkSettings (Some "smtp.example.org") 587 (Some "mailer") (Some "secret")
    (Some "noreply@example.org") None.

Definition smtp_down : Transport :=
  λ _ _, Raise (SMTPException "Connection refused").

(** Task 4 is past due and already in the [overdue] state. *)
Definition late : Task.t := task 4 "late" 4 (today - 10) None (Some 1).

Definition world3 : World := mkWorld (mkDB registry [ann] [late] [] [] [] []) [].

(** Tasks 6 and 7 were completed 31 and 40 days ago; task 6 has two
    stages, task 7 one. *)
Definition old6 : Task.t := task 6 "old" 3 (today - 35) (Some (today - 31)) (Some 1).
Definition old7 : Task.t := task 7 "older" 3 (today - 45) (Some (today - 40)) None.

Definition db4 : DB :=
  mkDB registry [ann] [old6; old7]
    [stage 30 6 3 1 (Some 4%float) (Some (today - 33)) (Some (today - 32));
     stage 31 6 3 2 (Some 1%float) (Some (today - 32)) (Some (today - 31));
     stage 32 7 3 1 (Some 3%float) (Some (today - 41)) (Some (today - 40))]
    [] [] [].


(** Task 8 is due tomorrow; task 9, completed, is long past due and has a
    stage that was started and never completed. *)
Definition soon : Task.t := task 8 "soon" 1 (today + 1) None (Some 1).
Definition done9 : Task.t := task 9 "done" 3 (today - 20) (Some (today - 21)) (Some 1).
Definition open90 : TaskStage.t := stage 90 9 2 1 None (Some (today - 25)) None.

Definition world6 : World :=
  mkWorld (mkDB registry [ann] [soon; done9] [open90] [] [] []) [].

(** Task 10 is soft-deleted and has one stage. *)
Definition gone : Task.t :=
  Task.mk 10 "gone" None (Some 1) (today + 3) None "low" (Some 1) None None None None
    true (Some now).

Definition db7 : DB :=
  mkDB registry [ann] [gone] [stage 100 10 1 1 None None None] [] [] [].



(** Template 1 has three stages, stored out of order. *)
Definition templates : Templates :=
  mkTemplates [TaskTemplate.mk 1 "release" None]
    [TaskTemplateStage.mk 1 1 "test" (Some 2%float) 2;
     TaskTemplateStage.mk 2 1 "build" None 1;
     TaskTemplateStage.mk 3 1 "ship" (Some 0%float) 3].

Definition request (key : option string) : TaskCreate.t :=
  TaskCreate.mk "release 1.0" None (today + 14) "high" (Some 1) (Some 1) key
    [TaskStageCreate.mk "announce" 1%float 1].

(** Three tasks named alike, two of them created on one day; a fourth one,
    soft-deleted, of that day too. *)
Definition copy (id : Z) (created : datetime) (deleted : bool) : Task.t :=
  Task.mk id "weekly report" None (Some 1) (today + 7) None "low" None None None
    (Some created) None deleted (if deleted then Some created else None).

Definition db9 : DB :=
  mkDB registry [ann]
    [copy 1 (now - 3600) false; copy 2 now false; copy 3 (now - 86400) false;
     copy 4 (now - 60) true]
    [] [] [] [].

(** A template of two stages, given out of order, and a task from it. *)
Definition hotfix : TemplateCreate.t :=
  TemplateCreate.mk "hotfix" None
    [TemplateStageCreate.mk "verify" None 2;
     TemplateStageCreate.mk "patch" (Some 1.5%float) 1].

Definition hotfix_request : TaskCreate.t :=
  TaskCreate.mk "hotfix 7" None (today + 2) "high" (Some 2) None None [].

(** Task 5 has three ordered stages. *)
Definition db2 : DB :=
  mkDB registry [ann]
    [task 5 "plan" 1 (today + 7) None (Some 1)]
    [stage 20 5 1 1 None None None;
     stage 21 5 1 2 None None None;
     stage 22 5 1 3 None None None]
    [] [] [].
End Sample.

(** * Properties *)

(** ** Dates as text *)

Example str_date_examples :
  str_date 1 = "0001-01-01" ∧ str_date 60 = "0001-03-01" ∧
  str_date 719163 = "1970-01-01" ∧ str_date 730179 = "2000-02-29" ∧
  str_date 730180 = "2000-03-01" ∧ str_date Sample.today = "2026-11-03" ∧
  str_date 3652059 = "9999-12-31".
Proof. by vm_compute. Qed.

(** ** Rows and lookups *)

Section first_facts.
Context {A : Type}.
Implicit Types (P : A → bool) (rows : list A).

Lemma first_Some P rows x : first P rows = Some x → x ∈ rows ∧ P x = true.
Proof.
  unfold first. intros H. apply head_Some_elem_of in H.
  apply list_elem_of_In, filter_In in H as [H1 H2].
  split; [by apply list_elem_of_In | done].
Qed.

Lemma first_cons P x rows :
  first P (x :: rows) = if P x then Some x else first P rows.
Proof. unfold first. simpl. by destruct (P x). Qed.

Lemma first_None P rows : first P rows = None → ∀ x, x ∈ rows → P x = false.
Proof.
  induction rows as [|y rows IH]; intros H x Hx; [by apply elem_of_nil in Hx|].
  rewrite first_cons in H. destruct (P y) eqn:Hy; [done|].
  apply elem_of_cons in Hx as [->|Hx]; [done | by apply IH].
Qed.

Lemma first_is_Some P rows x : x ∈ rows → P x = true → is_Some (first P rows).
Proof.
  intros Hx HP. destruct (first P rows) eqn:E; [by eexists|].
  by rewrite (first_None _ _ E x Hx) in HP.
Qed.
End first_facts.

Lemma get_task_id d tid task : get_task d tid = Some task → Task.task_id task = tid.
Proof.
  intros H. apply first_Some in H as [_ H]. by apply bool_decide_eq_true in H.
Qed.

Lemma get_stage_id d sid stage :
  get_stage d sid = Some stage → TaskStage.stage_id stage = sid.
Proof.
  intros H. apply first_Some in H as [_ H]. by apply bool_decide_eq_true in H.
Qed.

(** After a write-back the lookup by that key finds the new object. *)
Lemma first_put_task rows tid task task' :
  first (λ t, bool_decide (Task.task_id t = tid)) rows = Some task →
  Task.task_id task' = tid →
  first (λ t, bool_decide (Task.task_id t = tid)) (put_task task' rows) = Some task'.
Proof.
  intros H Hid. induction rows as [|r rows IH]; [done|].
  rewrite first_cons in H. unfold put_task in *. rewrite fmap_cons, first_cons.
  rewrite Hid in *. destruct (bool_decide (Task.task_id r = tid)) eqn:Hr.
  - by rewrite Hid, bool_decide_eq_true_2.
  - rewrite Hr. by apply IH.
Qed.

Lemma first_put_stage rows sid stage stage' :
  first (λ s, bool_decide (TaskStage.stage_id s = sid)) rows = Some stage →
  TaskStage.stage_id stage' = sid →
  first (λ s, bool_decide (TaskStage.stage_id s = sid)) (put_stage stage' rows)
  = Some stage'.
Proof.
  intros H Hid. induction rows as [|r rows IH]; [done|].
  rewrite first_cons in H. unfold put_stage in *. rewrite fmap_cons, first_cons.
  rewrite Hid in *. destruct (bool_decide (TaskStage.stage_id r = sid)) eqn:Hr.
  - by rewrite Hid, bool_decide_eq_true_2.
  - rewrite Hr. by apply IH.
Qed.

(** ** [max] with a default *)

Lemma foldl_max_ge x xs : x ≤ foldl Z.max x xs ∧ ∀ y, y ∈ xs → y ≤ foldl Z.max x xs.
Proof.
  revert x. induction xs as [|z xs IH]; intros x; simpl.
  - split; [lia|]. intros y Hy. by apply elem_of_nil in Hy.
  - destruct (IH (x `max` z)) as [H1 H2]. split; [lia|].
    intros y Hy. apply elem_of_cons in Hy as [->|Hy]; [lia | by apply H2].
Qed.

Lemma foldl_max_elem x xs : foldl Z.max x xs = x ∨ foldl Z.max x xs ∈ xs.
Proof.
  revert x. induction xs as [|z xs IH]; intros x; simpl; [by left|].
  destruct (IH (x `max` z)) as [H|H].
  - rewrite H. destruct (Z.max_spec x z) as [[_ ->]|[_ ->]]; [right; left | by left].
  - right. by right.
Qed.

Lemma max_default_nil d : max_default [] d = d.
Proof. done. Qed.

Lemma max_default_is_max xs d :
  xs ≠ [] → max_default xs d ∈ xs ∧ ∀ y, y ∈ xs → y ≤ max_default xs d.
Proof.
  destruct xs as [|x xs]; [done|]. intros _. simpl.
  destruct (foldl_max_ge x xs) as [H1 H2], (foldl_max_elem x xs) as [H|H].
  - rewrite H. split; [by left|]. intros y Hy.
    apply elem_of_cons in Hy as [->|Hy]; [lia|]. rewrite <-H. by apply H2.
  - split; [by right|]. intros y Hy.
    apply elem_of_cons in Hy as [->|Hy]; [done | by apply H2].
Qed.

Lemma elem_of_stage_completed_dates stages dt :
  dt ∈ stage_completed_dates stages ↔
  ∃ s, s ∈ stages ∧ TaskStage.completed_date s = Some dt.
Proof. unfold stage_completed_dates. apply list_elem_of_omap. Qed.

(** ** The state registry *)

Lemma foldl_states_lookup (rows : list State.t) (m : gmap string Z) n c :
  foldl (λ m s, <[State.state_name s := State.state_id s]> m) m rows !! n = Some c →
  m !! n = Some c ∨ ∃ s, s ∈ rows ∧ State.state_name s = n ∧ State.state_id s = c.
Proof.
  revert m. induction rows as [|r rows IH]; intros m H; simpl in H; [by left|].
  apply IH in H as [H|(s & Hs & Hn & Hc)].
  - destruct (decide (State.state_name r = n)) as [Heq|Hne].
    + rewrite <-Heq, lookup_insert_eq in H. injection H as <-.
      right. exists r. split; [by left | done].
    + rewrite lookup_insert_ne in H by done. by left.
  - right. exists s. split; [by right | done].
Qed.

Lemma get_all_states_row d n c :
  get_all_states d !! n = Some c →
  ∃ s, s ∈ states d ∧ State.state_name s = n ∧ State.state_id s = c.
Proof.
  intros H. apply foldl_states_lookup in H as [H|H]; [|done].
  by rewrite lookup_empty in H.
Qed.

Lemma NoDup_fmap_inj_on {A B} (f : A → B) (l : list A) x y :
  NoDup (f <$> l) → x ∈ l → y ∈ l → f x = f y → x = y.
Proof.
  induction l as [|z l IH]; intros Hnd Hx Hy Hf; [by apply elem_of_nil in Hx|].
  rewrite fmap_cons in Hnd. apply NoDup_cons in Hnd as [Hz Hnd].
  apply elem_of_cons in Hx as [->|Hx], Hy as [->|Hy]; [done| | |by apply IH].
  - exfalso. apply Hz. rewrite Hf. by apply list_elem_of_fmap_2.
  - exfalso. apply Hz. rewrite <-Hf. by apply list_elem_of_fmap_2.
Qed.

(** Under the primary key of [states], two names do not share an id. *)
Lemma get_all_states_inj d n1 n2 c :
  NoDup (State.state_id <$> states d) →
  get_all_states d !! n1 = Some c → get_all_states d !! n2 = Some c → n1 = n2.
Proof.
  intros Hnd H1 H2.
  apply get_all_states_row in H1 as (s1 & Hs1 & <- & Hc1).
  apply get_all_states_row in H2 as (s2 & Hs2 & <- & Hc2).
  f_equal. apply (NoDup_fmap_inj_on State.state_id (states d)); congruence.
Qed.

(** ** Task status propagation *)

Lemma forallb_Forall {A} (f : A → bool) (P : A → Prop) (l : list A) :
  (∀ x, P x → f x = true) → Forall P l → forallb f l = true.
Proof.
  intros HP Hl. induction Hl as [|x l Hx _ IH]; [done|].
  simpl. by rewrite (HP x Hx), IH.
Qed.

(** Rule 2 of the propagation. *)
Lemma apply_status_rules_completed today c overdue_id in_prog_id task stages :
  stages ≠ [] →
  Forall (λ s, TaskStage.status_state_id s = Some c) stages →
  apply_status_rules today (Some c) overdue_id in_prog_id task stages
  = Task.with_completed_date
      (Some (max_default (stage_completed_dates stages) today))
      (Task.with_status (Some c) task).
Proof.
  intros Hne Hall. unfold apply_status_rules.
  rewrite (forallb_Forall _ _ _ (λ s Hs, bool_decide_eq_true_2 _ Hs) Hall).
  by rewrite (bool_decide_eq_false_2 _ Hne).
Qed.

(** Without stages rule 2 does not apply and rule 4 finds nothing. *)
Lemma apply_status_rules_no_stage today comp_id overdue_id in_prog_id task :
  apply_status_rules today comp_id overdue_id in_prog_id task []
  = if bool_decide (Task.due_date task < today)
       && negb (bool_decide (Task.status_state_id task = comp_id))
    then Task.with_status overdue_id task else task.
Proof. done. Qed.

Lemma update_task_status_from_stages_task today d tid task :
  get_task d tid = Some task →
  get_task (update_task_status_from_stages today d tid) tid
  = Some (apply_status_rules today (get_all_states d !! "completed")
            (get_all_states d !! "overdue") (get_all_states d !! "in-progress")
            task (stages_of d tid)).
Proof.
  intros Hget. unfold update_task_status_from_stages. rewrite Hget.
  unfold get_task in *. simpl. eapply first_put_task; [done|].
  apply get_task_id in Hget. revert Hget.
  unfold apply_status_rules. by repeat case_match.
Qed.

(** C3.  When a task has at least one stage and every stage is in the
    [completed] state, [update_task_status_from_stages] leaves the task in
    the [completed] state with a [completed_date] that is the greatest
    [completed_date] of its stages, or today when no stage has one. *)
Theorem all_stages_completed_completes_task today d tid task c :
  get_task d tid = Some task →
  get_all_states d !! "completed" = Some c →
  stages_of d tid ≠ [] →
  Forall (λ s, TaskStage.status_state_id s = Some c) (stages_of d tid) →
  ∃ task' m,
    get_task (update_task_status_from_stages today d tid) tid = Some task' ∧
    Task.status_state_id task' = Some c ∧
    Task.completed_date task' = Some m ∧
    (((∀ s, s ∈ stages_of d tid → TaskStage.completed_date s = None) ∧ m = today)
     ∨ ((∃ s, s ∈ stages_of d tid ∧ TaskStage.completed_date s = Some m) ∧
        (∀ s dt, s ∈ stages_of d tid →
                 TaskStage.completed_date s = Some dt → dt ≤ m))).
Proof.
  intros Hget Hc Hne Hall.
  eexists _, (max_default (stage_completed_dates (stages_of d tid)) today).
  split; [by apply update_task_status_from_stages_task|].
  rewrite Hc, apply_status_rules_completed by done.
  split; [done|]. split; [done|].
  destruct (stage_completed_dates (stages_of d tid)) as [|dt dts] eqn:Hdates.
  - left. split; [|done]. intros s Hs.
    destruct (TaskStage.completed_date s) as [dt|] eqn:Hdt; [|done].
    assert (dt ∈ stage_completed_dates (stages_of d tid)) as Hin
      by (apply elem_of_stage_completed_dates; eauto).
    rewrite Hdates in Hin. by apply elem_of_nil in Hin.
  - right. rewrite <-Hdates.
    destruct (max_default_is_max (stage_completed_dates (stages_of d tid)) today)
      as [Hin Hmax]; [by rewrite Hdates|].
    split; [by apply elem_of_stage_completed_dates|].
    intros s dt' Hs Hdt. apply Hmax, elem_of_stage_completed_dates. eauto.
Qed.

Lemma all_stages_completed_completes_task_witness :
  ∃ task' m,
    get_task (update_task_status_from_stages Sample.today Sample.db1 1) 1 = Some task' ∧
    Task.status_state_id task' = Some 3 ∧
    Task.completed_date task' = Some m ∧
    (((∀ s, s ∈ stages_of Sample.db1 1 → TaskStage.completed_date s = None)
      ∧ m = Sample.today)
     ∨ ((∃ s, s ∈ stages_of Sample.db1 1 ∧ TaskStage.completed_date s = Some m) ∧
        (∀ s dt, s ∈ stages_of Sample.db1 1 →
                 TaskStage.completed_date s = Some dt → dt ≤ m))).
Proof.
  apply (all_stages_completed_completes_task Sample.today Sample.db1 1
           (Sample.task 1 "report" 2 (Sample.today + 7) None (Some 1)) 3).
  - reflexivity.
  - vm_compute. reflexivity.
  - discriminate.
  - repeat constructor.
Defined.

(** C7.  For a task without stages [update_task_status_from_stages] never
    applies the completion rule: the task is left as it is, or becomes
    [overdue] when it is past due and not completed.  In particular, the
    state ids being a primary key, the task is in the [completed] state
    afterwards only if it already was. *)
Theorem zero_stages_never_completed today d tid task :
  NoDup (State.state_id <$> states d) →
  get_task d tid = Some task →
  stages_of d tid = [] →
  ∃ task',
    get_task (update_task_status_from_stages today d tid) tid = Some task' ∧
    (task' = task
     ∨ (task' = Task.with_status (get_all_states d !! "overdue") task
        ∧ Task.due_date task < today
        ∧ Task.status_state_id task ≠ get_all_states d !! "completed")) ∧
    Task.completed_date task' = Task.completed_date task ∧
    ∀ c, get_all_states d !! "completed" = Some c →
         Task.status_state_id task' = Some c →
         Task.status_state_id task = Some c.
Proof.
  intros Hpk Hget Hnone. eexists.
  split; [by apply update_task_status_from_stages_task|].
  rewrite Hnone, apply_status_rules_no_stage.
  destruct (bool_decide (Task.due_date task < today)) eqn:Hdue; simpl;
    [|by auto].
  destruct (bool_decide (Task.status_state_id task = get_all_states d !! "completed"))
    eqn:Hst; simpl; [by auto|].
  apply bool_decide_eq_true in Hdue. apply bool_decide_eq_false in Hst.
  split; [by right|]. split; [done|].
  intros c Hc Ho. exfalso.
  by pose proof (get_all_states_inj d "completed" "overdue" c Hpk Hc Ho).
Qed.

Lemma zero_stages_never_completed_witness :
  ∃ task',
    get_task (update_task_status_from_stages Sample.today Sample.db1 2) 2 = Some task' ∧
    (task' = Sample.task 2 "empty" 1 (Sample.today - 1) None (Some 1)
     ∨ (task' = Task.with_status (get_all_states Sample.db1 !! "overdue")
                  (Sample.task 2 "empty" 1 (Sample.today - 1) None (Some 1))
        ∧ Task.due_date (Sample.task 2 "empty" 1 (Sample.today - 1) None (Some 1))
          < Sample.today
        ∧ Task.status_state_id (Sample.task 2 "empty" 1 (Sample.today - 1) None (Some 1))
          ≠ get_all_states Sample.db1 !! "completed")) ∧
    Task.completed_date task'
    = Task.completed_date (Sample.task 2 "empty" 1 (Sample.today - 1) None (Some 1)) ∧
    ∀ c, get_all_states Sample.db1 !! "completed" = Some c →
         Task.status_state_id task' = Some c →
         Task.status_state_id (Sample.task 2 "empty" 1 (Sample.today - 1) None (Some 1))
         = Some c.
Proof.
  apply (zero_stages_never_completed Sample.today Sample.db1 2).
  - apply (bool_decide_unpack _). vm_compute. exact I.
  - reflexivity.
  - reflexivity.
Defined.

(** ** The stage engine *)

Lemma get_stage_after_update today d sid stage stage' :
  get_stage d sid = Some stage →
  TaskStage.stage_id stage' = sid →
  get_stage
    (update_task_status_from_stages today
       (with_task_stages (put_stage stage' (task_stages d)) d)
       (TaskStage.task_id stage')) sid
  = Some stage'.
Proof.
  intros Hget Hid. unfold update_task_status_from_stages.
  destruct (get_task _ _); unfold get_stage; simpl; by eapply first_put_stage.
Qed.

(** The assignments of [update_stage] keep the primary key of the stage. *)
Lemma apply_stage_update_id today st u stage stage' :
  apply_stage_update today st u stage = Ok stage' →
  TaskStage.stage_id stage' = TaskStage.stage_id stage.
Proof.
  unfold apply_stage_update. intros H.
  repeat case_match; simplify_eq; done.
Qed.

(** C5.  A transition of a stage to the state named [completed] raises the
    validation error (HTTP 400, "Actual time hours required to complete
    stage") when the request carries no actual hours and the stage has none
    stored.  When actual hours are available the call succeeds, and the
    stage, as returned and as stored, has the [completed_date] of the request
    or, the request having none, today. *)
Theorem update_stage_to_completed today d sid u stage st :
  get_stage d sid = Some stage →
  first (λ s, bool_decide (State.state_id s = TaskStageUpdate.status_state_id u))
        (states d) = Some st →
  State.state_name st = "completed" →
  (TaskStageUpdate.actual_time_hours u = None →
   TaskStage.actual_time_hours stage = None →
   update_stage today d sid u
   = Raise (HTTPException 400 "Actual time hours required to complete stage")) ∧
  (TaskStageUpdate.actual_time_hours u ≠ None
   ∨ TaskStage.actual_time_hours stage ≠ None →
   ∃ stage' d',
     update_stage today d sid u = Ok (stage', d') ∧
     get_stage d' sid = Some stage' ∧
     TaskStage.status_state_id stage' = Some (TaskStageUpdate.status_state_id u) ∧
     TaskStage.completed_date stage'
     = Some (default today (TaskStageUpdate.completed_date u))).
Proof.
  intros Hget Hst Hname. unfold update_stage. rewrite Hget, Hst. split.
  - intros Hu Hs. unfold apply_stage_update. rewrite Hname. simpl.
    by rewrite Hu, Hs.
  - intros Hhours.
    assert (∃ stage', apply_stage_update today st u stage = Ok stage' ∧
              TaskStage.status_state_id stage'
              = Some (TaskStageUpdate.status_state_id u) ∧
              TaskStage.completed_date stage'
              = Some (default today (TaskStageUpdate.completed_date u)))
      as (stage' & Happ & Hstatus & Hdate).
    { unfold apply_stage_update. rewrite Hname. simpl.
      destruct (TaskStageUpdate.actual_time_hours u) as [h|] eqn:Hu,
               (TaskStage.actual_time_hours stage) as [h'|] eqn:Hs,
               (TaskStageUpdate.start_date u), (TaskStageUpdate.completed_date u);
        simpl; try (eexists; split; [reflexivity | by split]).
      all: by destruct Hhours. }
    rewrite Happ. eexists _, _. split; [done|]. split; [|done].
    apply get_stage_after_update with (stage := stage); [done|].
    rewrite (apply_stage_update_id _ _ _ _ _ Happ). by eapply get_stage_id.
Qed.

Lemma update_stage_to_completed_witness :
  (TaskStageUpdate.actual_time_hours (TaskStageUpdate.mk 3 None None None) = None →
   TaskStage.actual_time_hours
     (Sample.stage 12 3 2 1 None (Some (Sample.today - 2)) None) = None →
   update_stage Sample.today Sample.db1 12 (TaskStageUpdate.mk 3 None None None)
   = Raise (HTTPException 400 "Actual time hours required to complete stage")) ∧
  (TaskStageUpdate.actual_time_hours (TaskStageUpdate.mk 3 None None None) ≠ None
   ∨ TaskStage.actual_time_hours
       (Sample.stage 12 3 2 1 None (Some (Sample.today - 2)) None) ≠ None →
   ∃ stage' d',
     update_stage Sample.today Sample.db1 12 (TaskStageUpdate.mk 3 None None None)
     = Ok (stage', d') ∧
     get_stage d' 12 = Some stage' ∧
     TaskStage.status_state_id stage' = Some 3 ∧
     TaskStage.completed_date stage' = Some Sample.today).
Proof.
  apply (update_stage_to_completed Sample.today Sample.db1 12
           (TaskStageUpdate.mk 3 None None None)
           (Sample.stage 12 3 2 1 None (Some (Sample.today - 2)) None)
           (State.mk 3 "completed" None)).
  - reflexivity.
  - reflexivity.
  - reflexivity.
Defined.

(** The scenario of the specification: the stage is completed with six
    actual hours and no date; it is dated today and its task, all of whose
    stages are now completed, becomes completed. *)
Example update_stage_scenario :
  ∃ stage' d',
    update_stage Sample.today Sample.db1 12
      (TaskStageUpdate.mk 3 (Some 6%float) None None) = Ok (stage', d') ∧
    TaskStage.completed_date stage' = Some Sample.today ∧
    TaskStage.actual_time_hours stage' = Some 6%float ∧
    (Task.status_state_id <$> get_task d' 3) = Some (Some 3) ∧
    (Task.completed_date <$> get_task d' 3) = Some (Some Sample.today).
Proof. eexists _, _. split; [reflexivity|]. by vm_compute. Qed.

(** ** Selections *)

Section selections.
Context {A : Type}.
Implicit Types (f : A → bool) (l : list A).

Lemma elem_of_select f l x : x ∈ List.filter f l ↔ x ∈ l ∧ f x = true.
Proof. rewrite !list_elem_of_In. apply filter_In. Qed.

Lemma select_sublist f l : List.filter f l `sublist_of` l.
Proof.
  induction l as [|x l IH]; simpl; [done|].
  destruct (f x); by constructor.
Qed.

Lemma select_ext_in f g l :
  (∀ x, x ∈ l → f x = g x) → List.filter f l = List.filter g l.
Proof.
  intros H. apply filter_ext_in. intros x Hx. by apply H, list_elem_of_In.
Qed.

Lemma select_all f l : (∀ x, x ∈ l → f x = true) → List.filter f l = l.
Proof.
  induction l as [|x l IH]; intros H; simpl; [done|].
  rewrite (H x) by left. f_equal. apply IH. intros y Hy. apply H. by right.
Qed.

Lemma select_fmap {B} (h : B → A) f (l : list B) :
  List.filter f (h <$> l) = h <$> List.filter (f ∘ h) l.
Proof.
  induction l as [|x l IH]; csimpl; [done|].
  unfold compose at 1. destruct (f (h x)); csimpl; by rewrite IH.
Qed.

Lemma select_select f g l :
  List.filter f (List.filter g l) = List.filter (λ x, g x && f x) l.
Proof.
  induction l as [|x l IH]; simpl; [done|].
  destruct (g x); simpl; [destruct (f x)|]; by rewrite IH.
Qed.

Lemma first_None_intro f l : (∀ x, x ∈ l → f x = false) → first f l = None.
Proof.
  induction l as [|x l IH]; intros H; [done|].
  rewrite first_cons, (H x) by left. apply IH. intros y Hy. apply H. by right.
Qed.

Lemma NoDup_fmap_sublist {B} (g : A → B) l1 l2 :
  l1 `sublist_of` l2 → NoDup (g <$> l2) → NoDup (g <$> l1).
Proof.
  intros Hsub Hnd. apply (sublist_NoDup _ (g <$> l2)); [done|].
  by apply fmap_sublist.
Qed.

(** Removing the row of a key from a table keyed by [g] removes one row. *)
Lemma select_remove_key {B} `{EqDecision B} (g : A → B) l x :
  NoDup (g <$> l) → x ∈ l →
  S (length (List.filter (λ y, negb (bool_decide (g y = g x))) l)) = length l.
Proof.
  induction l as [|z l IH]; intros Hnd Hx; [by apply elem_of_nil in Hx|].
  rewrite fmap_cons in Hnd. apply NoDup_cons in Hnd as [Hz Hnd]. simpl.
  apply elem_of_cons in Hx as [->|Hx].
  - rewrite bool_decide_eq_true_2 by done. simpl. f_equal.
    f_equal. apply select_all. intros y Hy.
    apply negb_true_iff, bool_decide_eq_false_2. intros Heq.
    apply Hz. rewrite <-Heq. by apply list_elem_of_fmap_2.
  - rewrite bool_decide_eq_false_2; simpl; [by rewrite IH|].
    intros Heq. apply Hz. rewrite Heq. by apply list_elem_of_fmap_2.
Qed.
End selections.

(** ** [delete_stage] *)

Global Instance order_le_total : Total order_le.
Proof. intros a b. unfold order_le. lia. Qed.

Global Instance order_le_trans : Transitive order_le.
Proof. intros a b c. unfold order_le. lia. Qed.

Lemma enumerate_cons {A} start (x : A) xs :
  enumerate start (x :: xs) = (start, x) :: enumerate (start + 1) xs.
Proof.
  unfold enumerate. simpl length. rewrite seqZ_cons by lia.
  by replace (Z.pred (Z.of_nat (S (length xs)))) with (Z.of_nat (length xs)) by lia.
Qed.

Lemma assign_order_number_order now n r :
  TaskStage.order_number (TaskStage.assign_order_number now n r) = n.
Proof. unfold TaskStage.assign_order_number. by case_bool_decide. Qed.

Lemma assign_order_number_stage_id now n r :
  TaskStage.stage_id (TaskStage.assign_order_number now n r) = TaskStage.stage_id r.
Proof. unfold TaskStage.assign_order_number. by case_bool_decide. Qed.

Lemma assign_order_number_task_id now n r :
  TaskStage.task_id (TaskStage.assign_order_number now n r) = TaskStage.task_id r.
Proof. unfold TaskStage.assign_order_number. by case_bool_decide. Qed.

Lemma renumbered_stage_id now start rem r :
  TaskStage.stage_id (renumbered now start rem r) = TaskStage.stage_id r.
Proof.
  unfold renumbered. destruct (new_number _ _ _); [|done].
  apply assign_order_number_stage_id.
Qed.

Lemma renumbered_task_id now start rem r :
  TaskStage.task_id (renumbered now start rem r) = TaskStage.task_id r.
Proof.
  unfold renumbered. destruct (new_number _ _ _); [|done].
  apply assign_order_number_task_id.
Qed.

Lemma new_number_None start rem sid :
  sid ∉ TaskStage.stage_id <$> rem → new_number start rem sid = None.
Proof.
  revert start. induction rem as [|s rem IH]; intros start Hsid; [done|].
  rewrite fmap_cons in Hsid. apply not_elem_of_cons in Hsid as [Hne Hsid].
  simpl. rewrite bool_decide_eq_false_2 by done. by apply IH.
Qed.

Lemma new_number_ge start rem sid n : new_number start rem sid = Some n → start ≤ n.
Proof.
  revert start. induction rem as [|s rem IH]; intros start H; [done|].
  simpl in H. case_bool_decide; [by simplify_eq|]. apply IH in H. lia.
Qed.

Lemma new_number_is_Some start rem r :
  r ∈ rem → is_Some (new_number start rem (TaskStage.stage_id r)).
Proof.
  revert start. induction rem as [|s rem IH]; intros start Hr;
    [by apply elem_of_nil in Hr|].
  simpl. case_bool_decide; [by eexists|].
  apply elem_of_cons in Hr as [->|Hr]; [done | by apply IH].
Qed.

(** The renumbering loop, in closed form. *)
Lemma foldl_set_order_number now rows start rem :
  NoDup (TaskStage.stage_id <$> rem) →
  foldl (set_order_number now) rows (enumerate start rem)
  = renumbered now start rem <$> rows.
Proof.
  revert rows start. induction rem as [|s rem IH]; intros rows start Hnd.
  - unfold renumbered. simpl. by rewrite list_fmap_id.
  - rewrite enumerate_cons. simpl foldl.
    rewrite fmap_cons in Hnd. apply NoDup_cons in Hnd as [Hs Hnd].
    rewrite IH by done. unfold set_order_number. simpl.
    rewrite <-list_fmap_compose. apply list_fmap_ext. intros _ r _.
    unfold compose, renumbered. simpl new_number.
    destruct (decide (TaskStage.stage_id r = TaskStage.stage_id s)) as [Heq|Hne].
    + rewrite (bool_decide_eq_true_2 _ Heq),
        (bool_decide_eq_true_2 _ (eq_sym Heq)).
      rewrite new_number_None; [done|].
      by rewrite assign_order_number_stage_id, Heq.
    + rewrite (bool_decide_eq_false_2 _ Hne).
      by rewrite bool_decide_eq_false_2 by congruence.
Qed.

(** Listed in their order, the remaining stages get the numbers
    [start], [start + 1], ... *)
Lemma renumbered_order_seq now start rem :
  NoDup (TaskStage.stage_id <$> rem) →
  (λ r, TaskStage.order_number (renumbered now start rem r)) <$> rem
  = seqZ start (Z.of_nat (length rem)).
Proof.
  revert start. induction rem as [|s rem IH]; intros start Hnd; [done|].
  rewrite fmap_cons in Hnd. apply NoDup_cons in Hnd as [Hs Hnd].
  simpl length. rewrite seqZ_cons by lia.
  replace (Z.pred (Z.of_nat (S (length rem)))) with (Z.of_nat (length rem)) by lia.
  rewrite fmap_cons. f_equal.
  - unfold renumbered. simpl. rewrite bool_decide_eq_true_2 by done.
    apply assign_order_number_order.
  - rewrite <-(IH (Z.succ start)) by done. apply list_fmap_ext. intros i r Hr.
    unfold renumbered. simpl. rewrite bool_decide_eq_false_2; [done|].
    intros Heq. apply Hs. rewrite Heq.
    by eapply list_elem_of_fmap_2, list_elem_of_lookup_2.
Qed.

(** The new numbers follow the prior order. *)
Lemma new_number_mono start rem a b na nb :
  StronglySorted order_le rem →
  NoDup (TaskStage.stage_id <$> rem) →
  a ∈ rem → b ∈ rem →
  TaskStage.order_number a < TaskStage.order_number b →
  new_number start rem (TaskStage.stage_id a) = Some na →
  new_number start rem (TaskStage.stage_id b) = Some nb →
  na < nb.
Proof.
  revert start. induction rem as [|s rem IH]; intros start Hsorted Hnd Ha Hb Hlt Hna Hnb;
    [by apply elem_of_nil in Ha|].
  apply StronglySorted_cons in Hsorted as [Hs Hsorted].
  rewrite fmap_cons in Hnd. apply NoDup_cons in Hnd as [Hfresh Hnd].
  assert (∀ r, r ∈ rem → TaskStage.stage_id s ≠ TaskStage.stage_id r) as Hother.
  { intros r Hr Heq. apply Hfresh. rewrite Heq. by apply list_elem_of_fmap_2. }
  simpl in Hna, Hnb.
  apply elem_of_cons in Ha as [->|Ha], Hb as [->|Hb].
  - lia.
  - rewrite bool_decide_eq_true_2 in Hna by done.
    rewrite bool_decide_eq_false_2 in Hnb by auto.
    apply new_number_ge in Hnb. simplify_eq. lia.
  - rewrite Forall_forall in Hs. specialize (Hs a Ha). unfold order_le in Hs. lia.
  - rewrite bool_decide_eq_false_2 in Hna by auto.
    rewrite bool_decide_eq_false_2 in Hnb by auto.
    by eapply IH.
Qed.

Lemma Sorted_seqZ m (n : nat) : Sorted Z.le (seqZ m (Z.of_nat n)).
Proof.
  revert m. induction n as [|n IH]; intros m; [constructor|].
  rewrite seqZ_cons by lia.
  replace (Z.pred (Z.of_nat (S n))) with (Z.of_nat n) by lia.
  constructor; [apply IH|].
  destruct n as [|n]; [constructor|].
  rewrite seqZ_cons by lia. constructor. lia.
Qed.

(** The stage table after [delete_stage]: the row is gone and the other
    rows carry their new numbers. *)
Lemma delete_stage_task_stages now d sid stage :
  NoDup (TaskStage.stage_id <$> task_stages d) →
  get_stage d sid = Some stage →
  task_stages (delete_stage now d sid).1
  = renumbered now 1
      (order_by_order_number
         (List.filter (λ s, bool_decide (TaskStage.task_id s = TaskStage.task_id stage))
            (List.filter (λ s, negb (bool_decide (TaskStage.stage_id s = sid)))
               (task_stages d))))
    <$> List.filter (λ s, negb (bool_decide (TaskStage.stage_id s = sid)))
          (task_stages d).
Proof.
  intros Hnd Hget. unfold delete_stage. rewrite Hget. simpl.
  unfold stages_of. simpl. apply foldl_set_order_number.
  unfold order_by_order_number. rewrite merge_sort_Permutation.
  eapply NoDup_fmap_sublist; [|done].
  etrans; apply select_sublist.
Qed.

(** C8.  [delete_stage] removes the stage and renumbers the remaining stages
    of its task: listed by [order_number] they carry the numbers 1, 2, ..., N
    without a gap, N being one less than before; two remaining stages keep
    the relative order their prior numbers gave them; every other remaining
    stage of the task is still there, and the other tasks keep their
    stages. *)
Theorem delete_stage_renumbers now d sid stage :
  NoDup (TaskStage.stage_id <$> task_stages d) →
  get_stage d sid = Some stage →
  let tid := TaskStage.task_id stage in
  let d' := (delete_stage now d sid).1 in
  let n := length (stages_of d' tid) in
  get_stage d' sid = None ∧
  S n = length (stages_of d tid) ∧
  TaskStage.order_number <$> order_by_order_number (stages_of d' tid)
  = seqZ 1 (Z.of_nat n) ∧
  (∀ a, a ∈ stages_of d tid → TaskStage.stage_id a ≠ sid →
        ∃ a', a' ∈ stages_of d' tid ∧ TaskStage.stage_id a' = TaskStage.stage_id a) ∧
  (∀ a b a' b',
     a ∈ stages_of d tid → b ∈ stages_of d tid →
     a' ∈ stages_of d' tid → b' ∈ stages_of d' tid →
     TaskStage.stage_id a' = TaskStage.stage_id a →
     TaskStage.stage_id b' = TaskStage.stage_id b →
     TaskStage.order_number a < TaskStage.order_number b →
     TaskStage.order_number a' < TaskStage.order_number b') ∧
  (∀ tid', tid' ≠ tid → stages_of d' tid' = stages_of d tid').
Proof.
  intros Hnd Hget tid d' n.
  pose proof (delete_stage_task_stages now d sid stage Hnd Hget) as Hrows.
  fold tid d' in Hrows.
  set (rows1 := List.filter (λ s, negb (bool_decide (TaskStage.stage_id s = sid)))
                  (task_stages d)) in *.
  set (S1 := List.filter (λ s, bool_decide (TaskStage.task_id s = tid)) rows1) in *.
  set (rem := order_by_order_number S1) in *.
  assert (rem ≡ₚ S1) as Hperm by apply merge_sort_Permutation.
  assert (StronglySorted order_le rem) as Hsorted
    by (apply StronglySorted_merge_sort; apply _).
  assert (S1 `sublist_of` task_stages d) as Hsub
    by (etrans; apply select_sublist).
  assert (NoDup (TaskStage.stage_id <$> rem)) as Hndrem.
  { rewrite Hperm. by eapply NoDup_fmap_sublist. }
  assert (stages_of d' tid = renumbered now 1 rem <$> S1) as Hafter.
  { unfold stages_of. rewrite Hrows, select_fmap. f_equal.
    apply select_ext_in. intros r _. unfold compose.
    by rewrite renumbered_task_id. }
  destruct (first_Some _ _ _ Hget) as [Hin Hsid%bool_decide_eq_true].
  assert (stage ∈ stages_of d tid) as Hstage.
  { apply elem_of_select. split; [done|]. by apply bool_decide_eq_true_2. }
  assert (∀ a, a ∈ stages_of d tid → TaskStage.stage_id a ≠ sid → a ∈ S1) as Hkeep.
  { intros a [Ha Hta]%elem_of_select Hne. apply elem_of_select. split; [|done].
    apply elem_of_select. split; [done|].
    by apply negb_true_iff, bool_decide_eq_false_2. }
  assert (∀ a a', a ∈ stages_of d tid → a' ∈ stages_of d' tid →
            TaskStage.stage_id a' = TaskStage.stage_id a →
            a ∈ S1 ∧ a' = renumbered now 1 rem a) as Hsame.
  { intros a a' [Ha _]%elem_of_select Ha' Hid.
    rewrite Hafter in Ha'. apply list_elem_of_fmap in Ha' as (r & -> & Hr).
    rewrite renumbered_stage_id in Hid.
    assert (r = a) as ->; [|done].
    apply (NoDup_fmap_inj_on TaskStage.stage_id (task_stages d)); try done.
    by eapply elem_of_sublist. }
  split; [|split; [|split; [|split; [|split]]]].
  - apply first_None_intro. intros r Hr. rewrite Hrows in Hr.
    apply list_elem_of_fmap in Hr as (r0 & -> & [_ Hr0]%elem_of_select).
    rewrite renumbered_stage_id. by apply negb_true_iff in Hr0.
  - unfold n. rewrite Hafter, length_fmap.
    rewrite <-(select_remove_key TaskStage.stage_id (stages_of d tid) stage);
      [|by eapply NoDup_fmap_sublist; [apply select_sublist|] | done].
    do 2 f_equal. unfold S1, rows1, stages_of. rewrite Hsid, !select_select.
    apply select_ext_in. intros r _. apply andb_comm.
  - apply (Sorted_unique Z.le).
    + unfold order_by_order_number.
      apply (Sorted_fmap TaskStage.order_number order_le Z.le); [done|]. apply Sorted_merge_sort; apply _.
    + apply Sorted_seqZ.
    + unfold order_by_order_number. rewrite merge_sort_Permutation.
      unfold n. rewrite Hafter, length_fmap, <-list_fmap_compose, <-Hperm.
      unfold compose. by rewrite renumbered_order_seq.
  - intros a Ha Hne. exists (renumbered now 1 rem a).
    split; [|apply renumbered_stage_id].
    rewrite Hafter. by apply list_elem_of_fmap_2, Hkeep.
  - intros a b a' b' Ha Hb Ha' Hb' Hida Hidb Hlt.
    destruct (Hsame a a' Ha Ha' Hida) as [Ha1 ->].
    destruct (Hsame b b' Hb Hb' Hidb) as [Hb1 ->].
    rewrite <-Hperm in Ha1, Hb1.
    destruct (new_number_is_Some 1 rem a Ha1) as [na Hna].
    destruct (new_number_is_Some 1 rem b Hb1) as [nb Hnb].
    unfold renumbered. rewrite Hna, Hnb, !assign_order_number_order.
    by apply (new_number_mono 1 rem a b na nb).
  - intros tid' Hne. unfold stages_of. rewrite Hrows, select_fmap.
    assert (∀ r, r ∈ task_stages d → TaskStage.task_id r = tid' →
              TaskStage.stage_id r ≠ sid ∧ renumbered now 1 rem r = r) as Hout.
    { intros r Hr Htid. split.
      - intros Heq. apply Hne. rewrite <-Htid. unfold tid. f_equal.
        apply (NoDup_fmap_inj_on TaskStage.stage_id (task_stages d)); try done.
        congruence.
      - unfold renumbered. rewrite new_number_None; [done|].
        intros (s & Hids & Hs)%list_elem_of_fmap. rewrite Hperm in Hs.
        assert (s = r) as ->.
        { apply (NoDup_fmap_inj_on TaskStage.stage_id (task_stages d)); try done.
          by eapply elem_of_sublist. }
        apply elem_of_select in Hs as [_ Hs%bool_decide_eq_true]. congruence. }
    rewrite (select_ext_in _ (λ s, bool_decide (TaskStage.task_id s = tid')))
      by (intros r _; unfold compose; by rewrite renumbered_task_id).
    unfold rows1 at 1. rewrite select_select.
    rewrite (select_ext_in _ (λ s, bool_decide (TaskStage.task_id s = tid'))
               (task_stages d)).
    + rewrite <-(list_fmap_id (List.filter _ (task_stages d))) at 2.
      apply list_fmap_ext. intros i r Hr%list_elem_of_lookup_2.
      apply elem_of_select in Hr as [Hr Ht%bool_decide_eq_true].
      by apply Hout.
    + intros r Hr. simpl.
      destruct (bool_decide (TaskStage.task_id r = tid')) eqn:Ht;
        [|by rewrite andb_false_r].
      rewrite andb_true_r. apply negb_true_iff, bool_decide_eq_false_2.
      apply bool_decide_eq_true in Ht. by apply Hout.
Qed.

Lemma delete_stage_renumbers_witness :
  TaskStage.order_number
    <$> order_by_order_number (stages_of (delete_stage Sample.now Sample.db2 21).1 5)
  = seqZ 1 2.
Proof.
  refine (proj1 (proj2 (proj2
    (delete_stage_renumbers Sample.now Sample.db2 21
       (Sample.stage 21 5 1 2 None None None) _ _)))).
  - apply (bool_decide_unpack _). vm_compute. exact I.
  - reflexivity.
Defined.

(** The scenario of the specification: of three stages numbered 1, 2, 3 the
    second is deleted; the two that remain are numbered 1, 2. *)
Example delete_second_of_three :
  (λ s, (TaskStage.stage_id s, TaskStage.order_number s))
    <$> task_stages (delete_stage Sample.now Sample.db2 21).1
  = [(20, 1); (22, 2)].
Proof. reflexivity. Qed.

(** ** The notification queue *)

Lemma enqueue_email_db now subject body to w :
  db (enqueue_email now subject body to w)
  = with_email_logs
      (email_logs (db w)
       ++ [EmailLog.mk (next_log_id (email_logs (db w))) to subject body "pending"
             (Some now) None None]) (db w).
Proof. done. Qed.

(** [gather] touches the log table and the queue only, and appends to both:
    one log row and one job for each e-mail, in order. *)
Lemma gather_spec now emails w :
  ∃ logs jobs,
    db (gather now emails w) = with_email_logs (email_logs (db w) ++ logs) (db w) ∧
    email_queue (gather now emails w) = email_queue w ++ jobs ∧
    Forall2 logged_as emails logs ∧ Forall2 queued_as logs jobs.
Proof.
  revert w. induction emails as [|e emails IH]; intros w.
  - exists [], []. rewrite !app_nil_r. by destruct w as [[]].
  - destruct (IH (enqueue_email now (email_subject e) (email_body e) (email_to e) w))
      as (logs & jobs & Hdb & Hq & Hlogs & Hjobs).
    eexists (_ :: logs), (_ :: jobs). unfold gather in *. simpl foldl.
    rewrite Hdb, Hq. simpl. rewrite <-!app_assoc. simpl.
    split; [done|]. split; [done|].
    split; constructor; try done.
Qed.

Lemma gather_tables now emails w :
  states (db (gather now emails w)) = states (db w) ∧
  users (db (gather now emails w)) = users (db w) ∧
  tasks (db (gather now emails w)) = tasks (db w) ∧
  task_stages (db (gather now emails w)) = task_stages (db w) ∧
  email_logs (db w) `prefix_of` email_logs (db (gather now emails w)).
Proof.
  destruct (gather_spec now emails w) as (logs & jobs & -> & _).
  simpl. repeat split. by exists logs.
Qed.

(** ** The overdue sweep *)

Lemma get_all_states_ext d1 d2 :
  states d1 = states d2 → get_all_states d1 = get_all_states d2.
Proof. unfold get_all_states. by intros ->. Qed.

(** A run that finds a canonical state missing changes nothing. *)
Lemma sweep_states_missing fail today now w :
  get_all_states (db w) !! "completed" = None
  ∨ get_all_states (db w) !! "overdue" = None →
  check_overdue_and_notify fail today now w = w.
Proof.
  intros H. unfold check_overdue_and_notify, sweep_try.
  destruct (raises_at fail FailStatesQuery); [done|].
  destruct H as [-> | ->]; [done|].
  by destruct (get_all_states (db w) !! "completed").
Qed.

(** A run that raises before its commit has committed nothing. *)
Lemma sweep_rolled_back fail today now w :
  fail ∈ [FailStatesQuery; FailTaskQuery; FailStageQuery; FailCommit] →
  check_overdue_and_notify fail today now w = w.
Proof.
  intros Hfail. unfold check_overdue_and_notify, sweep_try.
  destruct (get_all_states (db w) !! "completed"),
           (get_all_states (db w) !! "overdue");
    repeat (apply elem_of_cons in Hfail as [->|Hfail]; [done|]);
    by apply elem_of_nil in Hfail.
Qed.

(** A run that commits leaves the flagged tasks and stages; whatever follows
    the commit only adds notifications. *)
Lemma sweep_committed fail today now w c o :
  get_all_states (db w) !! "completed" = Some c →
  get_all_states (db w) !! "overdue" = Some o →
  fail = NoFailure ∨ fail = FailReminderQuery →
  let w' := check_overdue_and_notify fail today now w in
  states (db w') = states (db w) ∧
  users (db w') = users (db w) ∧
  tasks (db w') = flag_tasks now c o today (tasks (db w)) ∧
  task_stages (db w') = flag_stages now (db w) c o today (task_stages (db w)) ∧
  email_logs (db w) `prefix_of` email_logs (db w').
Proof.
  intros Hc Ho Hfail w'. unfold w', check_overdue_and_notify, sweep_try.
  rewrite Hc, Ho.
  destruct Hfail as [-> | ->]; simpl.
  - match goal with
    | |- context [gather now ?es (gather now ?es1 ?w1)] =>
        destruct (gather_tables now es (gather now es1 w1))
          as (Hs2 & Hu2 & Ht2 & Hst2 & Hp2);
        destruct (gather_tables now es1 w1) as (Hs1 & Hu1 & Ht1 & Hst1 & Hp1)
    end.
    repeat split;
      [by rewrite Hs2, Hs1 | by rewrite Hu2, Hu1 | by rewrite Ht2, Ht1
      | by rewrite Hst2, Hst1 | etrans; [exact Hp1 | exact Hp2]].
  - match goal with
    | |- context [gather now ?es1 ?w1] =>
        destruct (gather_tables now es1 w1) as (Hs1 & Hu1 & Ht1 & Hst1 & Hp1)
    end.
    rewrite Hs1, Hu1, Ht1, Hst1. by repeat split.
Qed.

Lemma assign_status_status now o (t : Task.t) :
  Task.status_state_id (Task.assign_status now o t) = Some o.
Proof. unfold Task.assign_status. by case_bool_decide. Qed.

Lemma stage_assign_status_status now o (s : TaskStage.t) :
  TaskStage.status_state_id (TaskStage.assign_status now o s) = Some o.
Proof. unfold TaskStage.assign_status. by case_bool_decide. Qed.

Lemma stage_assign_status_id now o (s : TaskStage.t) :
  TaskStage.status_state_id s = Some o → TaskStage.assign_status now o s = s.
Proof. intros H. unfold TaskStage.assign_status. by rewrite bool_decide_eq_true_2. Qed.

(** The flagged task: same key, same due date, same assignee, same name. *)
Lemma flag_task_fields now c o today t :
  let t' := if overdue_task_selected c today t then
              if negb (bool_decide (Task.status_state_id t = Some o))
              then Task.assign_status now o t else t
            else t in
  Task.task_id t' = Task.task_id t ∧ Task.due_date t' = Task.due_date t ∧
  Task.assigned_user_id t' = Task.assigned_user_id t ∧ Task.name t' = Task.name t.
Proof.
  simpl. unfold Task.assign_status. by repeat case_match.
Qed.

(** A second pass over flagged tasks changes none of them. *)
Lemma flag_tasks_idem now1 now2 c o today rows :
  flag_tasks now2 c o today (flag_tasks now1 c o today rows)
  = flag_tasks now1 c o today rows.
Proof.
  unfold flag_tasks. rewrite <-list_fmap_compose. apply list_fmap_ext.
  intros _ t _. unfold compose.
  destruct (overdue_task_selected c today t) eqn:Hsel; [|by rewrite Hsel].
  destruct (bool_decide (Task.status_state_id t = Some o)) eqn:Hst; simpl.
  - by rewrite Hsel, Hst.
  - destruct (overdue_task_selected c today (Task.assign_status now1 o t)); [|done].
    by rewrite assign_status_status, bool_decide_eq_true_2.
Qed.

(** The stage query does not see the flagging of the tasks. *)
Lemma overdue_stage_selected_flagged now d d1 c o today s :
  tasks d1 = flag_tasks now c o today (tasks d) →
  overdue_stage_selected d1 c today s = overdue_stage_selected d c today s.
Proof.
  intros Ht. unfold overdue_stage_selected. rewrite Ht. clear Ht. f_equal.
  unfold flag_tasks. induction (tasks d) as [|t ts IH]; [done|].
  csimpl. rewrite IH.
  destruct (flag_task_fields now c o today t) as (-> & -> & _). done.
Qed.

Lemma flag_stages_idem now1 now2 d d1 c o today rows :
  tasks d1 = flag_tasks now1 c o today (tasks d) →
  flag_stages now2 d1 c o today (flag_stages now1 d c o today rows)
  = flag_stages now1 d c o today rows.
Proof.
  intros Ht. unfold flag_stages. rewrite <-list_fmap_compose. apply list_fmap_ext.
  intros _ s _. unfold compose.
  rewrite !(overdue_stage_selected_flagged now1 d d1 c o) by done.
  destruct (overdue_stage_selected d c today s) eqn:Hsel; [|by rewrite Hsel].
  destruct (overdue_stage_selected d c today (TaskStage.assign_status now1 o s));
    [|done].
  apply stage_assign_status_id, stage_assign_status_status.
Qed.

(** C6.  After a sweep that ran to its end, a second sweep on the same date
    (whether it runs to its end or fails anywhere) leaves the task table and
    the stage table, hence every task and stage status, as the first sweep
    left them; it can only add rows to the notification log. *)
Theorem sweep_twice_same_statuses fail today now1 now2 w :
  let w1 := check_overdue_and_notify NoFailure today now1 w in
  let w2 := check_overdue_and_notify fail today now2 w1 in
  tasks (db w2) = tasks (db w1) ∧
  task_stages (db w2) = task_stages (db w1) ∧
  email_logs (db w1) `prefix_of` email_logs (db w2).
Proof.
  intros w1 w2.
  destruct (get_all_states (db w) !! "completed") as [c|] eqn:Hc;
    [destruct (get_all_states (db w) !! "overdue") as [o|] eqn:Ho|].
  - destruct (sweep_committed NoFailure today now1 w c o Hc Ho (or_introl eq_refl))
      as (Hs & Hu & Ht & Hst & Hp). fold w1 in Hs, Hu, Ht, Hst, Hp.
    assert (fail ∈ [FailStatesQuery; FailTaskQuery; FailStageQuery; FailCommit]
            ∨ (fail = NoFailure ∨ fail = FailReminderQuery)) as [Hfail|Hfail]
      by (destruct fail; set_solver).
    + unfold w2. by rewrite sweep_rolled_back.
    + rewrite <-(get_all_states_ext w1.(db) w.(db) Hs) in Hc, Ho.
      destruct (sweep_committed fail today now2 w1 c o Hc Ho Hfail)
        as (_ & _ & Ht2 & Hst2 & Hp2). fold w2 in Ht2, Hst2, Hp2.
      rewrite Ht2, Hst2, Ht, Hst. split; [apply flag_tasks_idem|].
      split; [|exact Hp2].
      apply (flag_stages_idem now1 now2 (db w) (db w1) c o today), Ht.
  - unfold w2, w1.
    rewrite (sweep_states_missing NoFailure today now1 w) by auto.
    by rewrite (sweep_states_missing fail today now2 w) by auto.
  - unfold w2, w1.
    rewrite (sweep_states_missing NoFailure today now1 w) by auto.
    by rewrite (sweep_states_missing fail today now2 w) by auto.
Qed.

(** The sample world a second time the same day: no status moves, and the
    overdue notification of task 2 is logged again. *)
Example sweep_twice_more_notifications :
  let w1 := check_overdue_and_notify NoFailure Sample.today Sample.now Sample.world1 in
  let w2 := check_overdue_and_notify NoFailure Sample.today Sample.now w1 in
  (EmailLog.subject <$> email_logs (db w1) = ["Task Overdue: empty"]) ∧
  (EmailLog.subject <$> email_logs (db w2)
   = ["Task Overdue: empty"; "Task Overdue: empty"]).
Proof. by vm_compute. Qed.


(** An undisturbed sweep, unfolded: the committed database, then the two
    batches of notifications. *)
Lemma sweep_no_failure today now w c o :
  get_all_states (db w) !! "completed" = Some c →
  get_all_states (db w) !! "overdue" = Some o →
  ∃ w0 stage_emails reminders,
    email_logs (db w0) = email_logs (db w) ∧
    email_queue w0 = email_queue w ∧
    check_overdue_and_notify NoFailure today now w
    = gather now reminders
        (gather now
           (omap (task_overdue_email (db w))
                 (List.filter (overdue_task_selected c today) (tasks (db w)))
            ++ stage_emails) w0).
Proof.
  intros Hc Ho. unfold check_overdue_and_notify, sweep_try. rewrite Hc, Ho. simpl.
  exists (mkWorld (with_task_stages
                     (flag_stages now (db w) c o today (task_stages (db w)))
                     (with_tasks (flag_tasks now c o today (tasks (db w))) (db w)))
                  (email_queue w)).
  by eexists _, _.
Qed.

Lemma task_overdue_email_Some d task u :
  assigned_user d task = Some u → User.email u ≠ "" →
  ∃ e, task_overdue_email d task = Some e ∧
       email_subject e = "Task Overdue: " +:+ Task.name task ∧
       email_to e = Some (User.email u).
Proof.
  intros Hu Hmail. unfold task_overdue_email, recipient. rewrite Hu. simpl.
  unfold truthy. rewrite bool_decide_eq_false_2 by done. simpl. by eexists.
Qed.

(** Every task the first query selects and whose assignee has an address
    gets its overdue notification, whatever its status was. *)
Lemma sweep_enqueues_task_overdue today now w c o task u :
  get_all_states (db w) !! "completed" = Some c →
  get_all_states (db w) !! "overdue" = Some o →
  task ∈ tasks (db w) →
  overdue_task_selected c today task = true →
  assigned_user (db w) task = Some u → User.email u ≠ "" →
  overdue_notified task u w (check_overdue_and_notify NoFailure today now w).
Proof.
  intros Hc Ho Htask Hsel Hu Hmail.
  destruct (sweep_no_failure today now w c o Hc Ho)
    as (w0 & stage_emails & reminders & Hl0 & Hq0 & ->).
  destruct (task_overdue_email_Some (db w) task u Hu Hmail) as (e & He & Hsubj & Hto).
  set (emails := omap _ _ ++ stage_emails).
  assert (e ∈ emails) as Hin.
  { apply elem_of_app. left. apply list_elem_of_omap. exists task.
    split; [|done]. by apply elem_of_select. }
  destruct (gather_spec now emails w0) as (logs1 & jobs1 & Hdb1 & Hq1 & Hlogs & Hjobs).
  destruct (gather_spec now reminders (gather now emails w0))
    as (logs2 & jobs2 & Hdb2 & Hq2 & _ & _).
  apply list_elem_of_lookup in Hin as [i Hi].
  destruct (Forall2_lookup_l _ _ _ _ _ Hlogs Hi) as (log & Hlog & Hsent).
  destruct (Forall2_lookup_l _ _ _ _ _ Hjobs Hlog) as (job & Hjob & Hqueued).
  destruct Hsent as (Hs & _ & Ht & Hst).
  exists (logs1 ++ logs2), (jobs1 ++ jobs2), log, job.
  rewrite Hdb2, Hq2, Hdb1, Hq1, Hq0. simpl. rewrite Hl0, <-!app_assoc.
  split; [done|]. split; [done|].
  split; [apply elem_of_app; left; by eapply list_elem_of_lookup_2|].
  split; [apply elem_of_app; left; by eapply list_elem_of_lookup_2|].
  by rewrite Hs, Ht, Hsubj, Hto.
Qed.

(** C10.  An undisturbed sweep enqueues an overdue notification, with a
    subject that starts with "Task Overdue: ", for every task that is not
    completed, is past due and has an assignee with an address.  This
    includes a task that was already overdue, whose row the sweep leaves as
    it is; and a second sweep enqueues the notification again. *)
Theorem sweep_notifies_every_late_task today now now' w c o task st u :
  NoDup (State.state_id <$> states (db w)) →
  get_all_states (db w) !! "completed" = Some c →
  get_all_states (db w) !! "overdue" = Some o →
  task ∈ tasks (db w) →
  Task.status_state_id task = Some st → st ≠ c →
  Task.due_date task < today →
  assigned_user (db w) task = Some u → User.email u ≠ "" →
  let w1 := check_overdue_and_notify NoFailure today now w in
  let w2 := check_overdue_and_notify NoFailure today now' w1 in
  overdue_notified task u w w1 ∧
  (st = o → task ∈ tasks (db w1)) ∧
  overdue_notified task u w1 w2.
Proof.
  intros Hpk Hc Ho Htask Hst Hne Hdue Hu Hmail w1 w2.
  assert (overdue_task_selected c today task = true) as Hsel.
  { unfold overdue_task_selected. rewrite Hst. simpl.
    by rewrite bool_decide_eq_false_2, bool_decide_eq_true_2. }
  destruct (sweep_committed NoFailure today now w c o Hc Ho (or_introl eq_refl))
    as (Hs & Husers & Ht & _ & _). fold w1 in Hs, Husers, Ht.
  set (task1 := if negb (bool_decide (Task.status_state_id task = Some o))
                then Task.assign_status now o task else task).
  assert (task1 ∈ tasks (db w1)) as Htask1.
  { rewrite Ht. unfold flag_tasks.
    apply (list_elem_of_fmap_2' _ _ task); [done|]. by rewrite Hsel. }
  split; [by apply sweep_enqueues_task_overdue with c o|].
  split.
  { intros ->. revert Htask1. unfold task1.
    by rewrite Hst, bool_decide_eq_true_2. }
  assert (o ≠ c) as Hoc.
  { intros ->.
    by pose proof (get_all_states_inj (db w) "completed" "overdue" c Hpk Hc Ho). }
  assert (Task.status_state_id task1 = Some o ∧ Task.due_date task1 = Task.due_date task
          ∧ Task.assigned_user_id task1 = Task.assigned_user_id task
          ∧ Task.name task1 = Task.name task) as (Hst1 & Hdue1 & Hasg1 & Hname1).
  { unfold task1, Task.assign_status.
    destruct (bool_decide (Task.status_state_id task = Some o)) eqn:Hb; simpl;
      [by apply bool_decide_eq_true in Hb | done]. }
  rewrite <-(get_all_states_ext (db w1) (db w) Hs) in Hc, Ho.
  pose proof (sweep_enqueues_task_overdue today now' w1 c o task1 u Hc Ho Htask1)
    as Hagain.
  unfold overdue_notified in *. rewrite Hname1 in Hagain. apply Hagain; [|..|done].
  - unfold overdue_task_selected. rewrite Hst1, Hdue1. simpl.
    by rewrite bool_decide_eq_false_2, bool_decide_eq_true_2.
  - unfold assigned_user in *. by rewrite Hasg1, Husers.
Qed.

Lemma sweep_notifies_every_late_task_witness :
  let w1 := check_overdue_and_notify NoFailure Sample.today Sample.now Sample.world3 in
  let w2 := check_overdue_and_notify NoFailure Sample.today (Sample.now + 60) w1 in
  overdue_notified Sample.late Sample.ann Sample.world3 w1 ∧
  (4 = 4 → Sample.late ∈ tasks (db w1)) ∧
  overdue_notified Sample.late Sample.ann w1 w2.
Proof.
  apply (sweep_notifies_every_late_task Sample.today Sample.now (Sample.now + 60)
           Sample.world3 3 4 Sample.late 4 Sample.ann).
  - apply (bool_decide_unpack _). vm_compute. exact I.
  - vm_compute. reflexivity.
  - vm_compute. reflexivity.
  - apply list_elem_of_here.
  - reflexivity.
  - discriminate.
  - reflexivity.
  - reflexivity.
  - discriminate.
Defined.

(** ** The archival job *)

(** The loop either raises at the first task whose deletion raises, or
    leaves the session with the copies and deletions of all tasks. *)
Lemma archive_loop_spec delete_raises now d sel p :
  archive_loop delete_raises now d sel p
  = if forallb (λ t, negb (delete_raises t)) sel
    then Ok (mkPending (added_tasks p ++ new_archived_tasks now sel)
               (added_stages p ++ new_archived_stages now d sel)
               (deleted_tasks p ++ (Task.task_id <$> sel)))
    else Raise (OperationalError "delete").
Proof.
  revert p. induction sel as [|t sel IH]; intros [ts ss ds]; simpl.
  - by rewrite !app_nil_r.
  - destruct (delete_raises t); simpl; [done|]. rewrite IH. simpl.
    destruct (forallb _ sel); [|done].
    unfold new_archived_tasks, new_archived_stages. csimpl.
    by rewrite <-!app_assoc.
Qed.

Lemma archived_db_nil now d : archived_db now d [] = d.
Proof.
  unfold archived_db, new_archived_tasks, new_archived_stages. csimpl.
  rewrite !app_nil_r, !select_all; [by destruct d|done..].
Qed.

(** [archive_old_tasks] in closed form: everything, or nothing. *)
Lemma archive_old_tasks_cases delete_raises today now d :
  archive_old_tasks delete_raises today now d
  = if forallb (λ t, negb (delete_raises t)) (to_archive today d)
       && insert_ok (ArchivedTask.task_id <$> archived_tasks d)
            (ArchivedTask.task_id <$> new_archived_tasks now (to_archive today d))
       && insert_ok (ArchivedTaskStage.stage_id <$> archived_task_stages d)
            (ArchivedTaskStage.stage_id
               <$> new_archived_stages now d (to_archive today d))
    then archived_db now d (to_archive today d) else d.
Proof.
  unfold archive_old_tasks, archive_try, to_archive.
  destruct (first _ (states d)) as [cs|]; [|by rewrite archived_db_nil].
  case_bool_decide as Hsel.
  - rewrite Hsel. by rewrite archived_db_nil.
  - rewrite archive_loop_spec.
    destruct (forallb _ _); [|done]. unfold archive_commit. simpl.
    by destruct (insert_ok _ _ && insert_ok _ _).
Qed.



Section key_selections.
Context {A B : Type} `{EqDecision B} (g : A → B).

Lemma select_none (f : A → bool) l :
  (∀ x, x ∈ l → f x = false) → List.filter f l = [].
Proof.
  induction l as [|x l IH]; intros H; simpl; [done|].
  rewrite (H x) by left. apply IH. intros y Hy. apply H. by right.
Qed.

End key_selections.



Lemma new_archived_tasks_ids now sel :
  ArchivedTask.task_id <$> new_archived_tasks now sel = Task.task_id <$> sel.
Proof. unfold new_archived_tasks. by rewrite <-list_fmap_compose. Qed.

Lemma new_archived_stages_cons now d t sel :
  new_archived_stages now d (t :: sel)
  = (archived_stage now <$> stages_of d (Task.task_id t))
    ++ new_archived_stages now d sel.
Proof. done. Qed.










(** ** The delivery worker *)

(** [send_email_async] returns normally whatever the transport does. *)
Lemma send_email_async_returns settings smtp_send subject body to_email :
  send_email_async settings smtp_send subject body to_email = Ok ().
Proof.
  unfold send_email_async.
  destruct (negb (truthy (default "" (EMAIL_HOST settings)))); [done|].
  by destruct (smtp_send _ _).
Qed.

(** Hence an iteration of the worker always takes the [sent] branch: the
    handler that marks a row [failed] is never entered through a transport
    failure.  The iteration itself never ends the loop. *)
Lemma email_worker_step_marks_sent settings smtp_send now w :
  email_worker_step settings smtp_send now w
  = match email_queue w with
    | [] => None
    | job :: rest =>
        Some (mkWorld (update_log (EmailLog.mark_sent now) (EmailJob.log_id job) (db w))
                      rest)
    end.
Proof.
  unfold email_worker_step. destruct (email_queue w) as [|job rest]; [done|].
  by rewrite send_email_async_returns.
Qed.

(** C1 on the code, at a failing transport.  A notification is enqueued, the
    mail host is configured and the transport raises "Connection refused":
    the worker marks the log row [sent], with a [sent_at] and without an
    [error_message], and goes on; the row is not [failed]. *)
Theorem transport_failure_is_logged_as_sent :
  let w :=
    enqueue_email Sample.now "Task Overdue: empty" "Hello Ann"
      (Some "ann@example.org") Sample.world1 in
  ∃ w',
    email_worker_step Sample.settings Sample.smtp_down (Sample.now + 1) w = Some w' ∧
    (λ l, (EmailLog.id l, EmailLog.status l, EmailLog.sent_at l,
           EmailLog.error_message l)) <$> email_logs (db w')
    = [(1, "sent", Some (Sample.now + 1), None)] ∧
    email_queue w' = [].
Proof. eexists. split; [reflexivity|]. by vm_compute. Qed.

(** * Further properties *)

(** ** The stage engine, continued *)

Lemma first_put_task_ne rows tid task' :
  Task.task_id task' ≠ tid →
  first (λ t, bool_decide (Task.task_id t = tid)) (put_task task' rows)
  = first (λ t, bool_decide (Task.task_id t = tid)) rows.
Proof.
  intros Hne. induction rows as [|r rows IH]; [done|].
  unfold put_task in *. rewrite fmap_cons, !first_cons.
  destruct (bool_decide (Task.task_id r = Task.task_id task')) eqn:Hr.
  - apply bool_decide_eq_true in Hr.
    rewrite (bool_decide_eq_false_2 _ Hne).
    rewrite (bool_decide_eq_false_2 (Task.task_id r = tid)) by congruence.
    apply IH.
  - destruct (bool_decide (Task.task_id r = tid)); [done | apply IH].
Qed.

Lemma first_put_stage_ne rows sid stage' :
  TaskStage.stage_id stage' ≠ sid →
  first (λ s, bool_decide (TaskStage.stage_id s = sid)) (put_stage stage' rows)
  = first (λ s, bool_decide (TaskStage.stage_id s = sid)) rows.
Proof.
  intros Hne. induction rows as [|r rows IH]; [done|].
  unfold put_stage in *. rewrite fmap_cons, !first_cons.
  destruct (bool_decide (TaskStage.stage_id r = TaskStage.stage_id stage')) eqn:Hr.
  - apply bool_decide_eq_true in Hr.
    rewrite (bool_decide_eq_false_2 _ Hne).
    rewrite (bool_decide_eq_false_2 (TaskStage.stage_id r = sid)) by congruence.
    apply IH.
  - destruct (bool_decide (TaskStage.stage_id r = sid)); [done | apply IH].
Qed.

Lemma put_task_ids task' rows :
  Task.task_id <$> put_task task' rows = Task.task_id <$> rows.
Proof.
  unfold put_task. rewrite <-list_fmap_compose. apply list_fmap_ext.
  intros _ r _. unfold compose. by case_bool_decide.
Qed.

Lemma put_stage_ids stage' rows :
  TaskStage.stage_id <$> put_stage stage' rows = TaskStage.stage_id <$> rows.
Proof.
  unfold put_stage. rewrite <-list_fmap_compose. apply list_fmap_ext.
  intros _ r _. unfold compose. by case_bool_decide.
Qed.

Lemma apply_status_rules_task_id today c o i task stages :
  Task.task_id (apply_status_rules today c o i task stages) = Task.task_id task.
Proof. unfold apply_status_rules. by repeat case_match. Qed.

(** The propagation writes one task row and nothing else. *)
Lemma update_task_status_from_stages_frame today d tid :
  let d' := update_task_status_from_stages today d tid in
  states d' = states d ∧ users d' = users d ∧
  task_stages d' = task_stages d ∧
  archived_tasks d' = archived_tasks d ∧
  archived_task_stages d' = archived_task_stages d ∧
  email_logs d' = email_logs d ∧
  Task.task_id <$> tasks d' = Task.task_id <$> tasks d ∧
  ∀ tid', tid' ≠ tid → get_task d' tid' = get_task d tid'.
Proof.
  unfold update_task_status_from_stages.
  destruct (get_task d tid) as [task|] eqn:Hget; simpl; [|done].
  repeat split; [apply put_task_ids|].
  intros tid' Hne. unfold get_task. simpl. apply first_put_task_ne.
  rewrite apply_status_rules_task_id. apply get_task_id in Hget. congruence.
Qed.

(** What a successful [update_stage] did. *)
Lemma update_stage_Ok today d sid u stage' d' :
  update_stage today d sid u = Ok (stage', d') →
  ∃ stage st,
    get_stage d sid = Some stage ∧
    first (λ s, bool_decide (State.state_id s = TaskStageUpdate.status_state_id u))
          (states d) = Some st ∧
    apply_stage_update today st u stage = Ok stage' ∧
    d' = update_task_status_from_stages today
           (with_task_stages (put_stage stage' (task_stages d)) d)
           (TaskStage.task_id stage').
Proof.
  unfold update_stage. intros H.
  destruct (get_stage d sid) as [stage|]; [|done].
  destruct (first _ (states d)) as [st|]; [|done].
  destruct (apply_stage_update today st u stage) as [s|] eqn:Happ; [|done].
  simplify_eq. by eexists _, _.
Qed.

Lemma apply_stage_update_task_id today st u stage stage' :
  apply_stage_update today st u stage = Ok stage' →
  TaskStage.task_id stage' = TaskStage.task_id stage.
Proof.
  unfold apply_stage_update. intros H. repeat case_match; simplify_eq; done.
Qed.

(** A transition that is not to [completed] cannot fail, and a request
    without [start_date] leaves a recorded start date alone; it dates the
    start today only for a stage that goes in progress without one. *)
Lemma apply_stage_update_start_date today st u stage :
  State.state_name st ≠ "completed" →
  TaskStageUpdate.start_date u = None →
  ∃ stage',
    apply_stage_update today st u stage = Ok stage' ∧
    TaskStage.start_date stage'
    = match TaskStage.start_date stage with
      | Some d0 => Some d0
      | None => if bool_decide (State.state_name st = "in-progress")
                then Some today else None
      end.
Proof.
  intros Hname Hstart. unfold apply_stage_update.
  rewrite (bool_decide_eq_false_2 _ Hname), Hstart.
  destruct (TaskStage.start_date stage) eqn:Hs,
           (bool_decide (State.state_name st = "in-progress")),
           (TaskStageUpdate.actual_time_hours u),
           (TaskStageUpdate.completed_date u); simpl; rewrite ?Hs; by eexists.
Qed.

(** X1.  Two transitions to [in-progress] in a row, neither carrying a start
    date, both succeed; the first dates the start of a stage that had none
    (today, on the day of the first call), and the second, on whatever day,
    leaves that date as it is. *)
Theorem in_progress_twice_keeps_start_date today1 today2 d sid u stage st :
  get_stage d sid = Some stage →
  first (λ s, bool_decide (State.state_id s = TaskStageUpdate.status_state_id u))
        (states d) = Some st →
  State.state_name st = "in-progress" →
  TaskStageUpdate.start_date u = None →
  ∃ s1 d1 s2 d2,
    update_stage today1 d sid u = Ok (s1, d1) ∧
    update_stage today2 d1 sid u = Ok (s2, d2) ∧
    TaskStage.start_date s1 = Some (default today1 (TaskStage.start_date stage)) ∧
    TaskStage.start_date s2 = TaskStage.start_date s1.
Proof.
  intros Hget Hst Hname Hstart.
  assert (State.state_name st ≠ "completed") as Hnc by by rewrite Hname.
  destruct (apply_stage_update_start_date today1 st u stage Hnc Hstart)
    as (s1 & Happ1 & Hd1).
  destruct (apply_stage_update_start_date today2 st u s1 Hnc Hstart)
    as (s2 & Happ2 & Hd2).
  rewrite Hname in Hd1, Hd2. simpl in Hd1, Hd2.
  assert (TaskStage.stage_id s1 = sid) as Hid1.
  { rewrite (apply_stage_update_id _ _ _ _ _ Happ1). by eapply get_stage_id. }
  set (d1 := update_task_status_from_stages today1
               (with_task_stages (put_stage s1 (task_stages d)) d)
               (TaskStage.task_id s1)).
  assert (get_stage d1 sid = Some s1) as Hget1
    by by apply get_stage_after_update with (stage := stage).
  assert (states d1 = states d) as Hstates.
  { unfold d1.
    by destruct (update_task_status_from_stages_frame today1
                   (with_task_stages (put_stage s1 (task_stages d)) d)
                   (TaskStage.task_id s1)) as (-> & _). }
  exists s1, d1, s2. eexists. split; [|split; [|split]].
  - unfold update_stage. by rewrite Hget, Hst, Happ1.
  - unfold update_stage. by rewrite Hget1, Hstates, Hst, Happ2.
  - rewrite Hd1. by destruct (TaskStage.start_date stage).
  - rewrite Hd2, Hd1. by destruct (TaskStage.start_date stage).
Qed.

Lemma in_progress_twice_keeps_start_date_witness :
  ∃ s1 d1 s2 d2,
    update_stage Sample.today Sample.db2 20 (TaskStageUpdate.mk 2 None None None)
    = Ok (s1, d1) ∧
    update_stage (Sample.today + 3) d1 20 (TaskStageUpdate.mk 2 None None None)
    = Ok (s2, d2) ∧
    TaskStage.start_date s1 = Some Sample.today ∧
    TaskStage.start_date s2 = TaskStage.start_date s1.
Proof.
  apply (in_progress_twice_keeps_start_date Sample.today (Sample.today + 3) Sample.db2
           20 (TaskStageUpdate.mk 2 None None None)
           (Sample.stage 20 5 1 1 None None None) (State.mk 2 "in-progress" None)).
  - reflexivity.
  - reflexivity.
  - reflexivity.
  - reflexivity.
Defined.

(** X2.  A successful [update_stage] writes the stage of the given key and
    the task that owns it, and nothing else: every other stage and every
    other task is found as before, no row is added or removed, the stage
    stays with its task, and the other tables are untouched. *)
Theorem update_stage_touches_one_stage_and_its_task today d sid u stage' d' :
  update_stage today d sid u = Ok (stage', d') →
  (∀ sid', sid' ≠ sid → get_stage d' sid' = get_stage d sid') ∧
  (∀ tid', tid' ≠ TaskStage.task_id stage' → get_task d' tid' = get_task d tid') ∧
  (TaskStage.task_id <$> get_stage d sid) = Some (TaskStage.task_id stage') ∧
  TaskStage.stage_id <$> task_stages d' = TaskStage.stage_id <$> task_stages d ∧
  Task.task_id <$> tasks d' = Task.task_id <$> tasks d ∧
  states d' = states d ∧ users d' = users d ∧
  archived_tasks d' = archived_tasks d ∧
  archived_task_stages d' = archived_task_stages d ∧
  email_logs d' = email_logs d.
Proof.
  intros (stage & st & Hget & Hst & Happ & ->)%update_stage_Ok.
  destruct (update_task_status_from_stages_frame today
              (with_task_stages (put_stage stage' (task_stages d)) d)
              (TaskStage.task_id stage'))
    as (-> & -> & Hstages & -> & -> & -> & -> & Htasks).
  assert (TaskStage.stage_id stage' = sid) as Hid.
  { rewrite (apply_stage_update_id _ _ _ _ _ Happ). by eapply get_stage_id. }
  split; [|split; [|split; [|split]]]; try done.
  - intros sid' Hne. unfold get_stage. rewrite Hstages. simpl.
    apply first_put_stage_ne. congruence.
  - rewrite Hget. simpl. by rewrite (apply_stage_update_task_id _ _ _ _ _ Happ).
  - rewrite Hstages. simpl. apply put_stage_ids.
Qed.

Lemma update_stage_touches_one_stage_and_its_task_witness :
  ∃ stage' d',
    update_stage Sample.today Sample.db1 12
      (TaskStageUpdate.mk 3 (Some 6%float) None None) = Ok (stage', d') ∧
    (∀ sid', sid' ≠ 12 → get_stage d' sid' = get_stage Sample.db1 sid') ∧
    email_logs d' = email_logs Sample.db1.
Proof.
  eexists _, _. split; [reflexivity|].
  pose proof (update_stage_touches_one_stage_and_its_task Sample.today Sample.db1 12
                (TaskStageUpdate.mk 3 (Some 6%float) None None) _ _ eq_refl) as H.
  split; [apply H | apply H].
Defined.

(** ** Task status propagation, continued *)

(** X3.  The propagation never takes a completion away by flagging: a task
    that is in the [completed] state is not made [overdue] by it, however far
    past due it is; and a [completed_date] once recorded on a task stays
    recorded, also when the task goes back to [in-progress]. *)
Theorem propagation_keeps_completion today d tid task :
  NoDup (State.state_id <$> states d) →
  get_task d tid = Some task →
  ∃ task',
    get_task (update_task_status_from_stages today d tid) tid = Some task' ∧
    (is_Some (Task.completed_date task) → is_Some (Task.completed_date task')) ∧
    (∀ c o, get_all_states d !! "completed" = Some c →
            get_all_states d !! "overdue" = Some o →
            Task.status_state_id task = Some c →
            Task.status_state_id task' ≠ Some o).
Proof.
  intros Hpk Hget. eexists.
  split; [by apply update_task_status_from_stages_task|].
  split.
  - unfold apply_status_rules. by repeat case_match.
  - intros c o Hc Ho Hst. rewrite Hc, Ho.
    assert (o ≠ c) as Hoc.
    { intros ->.
      by pose proof (get_all_states_inj d "completed" "overdue" c Hpk Hc Ho). }
    unfold apply_status_rules.
    rewrite Hst, (bool_decide_eq_true_2 (Some c = Some c)) by done.
    rewrite andb_false_r.
    repeat case_match; simpl; rewrite ?Hst; try congruence.
    intros Hi.
    by pose proof (get_all_states_inj d "in-progress" "overdue" o Hpk Hi Ho).
Qed.

Lemma propagation_keeps_completion_witness :
  ∃ task',
    get_task (update_task_status_from_stages Sample.today Sample.db4 6) 6 = Some task' ∧
    (is_Some (Task.completed_date Sample.old6) → is_Some (Task.completed_date task')) ∧
    (∀ c o, get_all_states Sample.db4 !! "completed" = Some c →
            get_all_states Sample.db4 !! "overdue" = Some o →
            Task.status_state_id Sample.old6 = Some c →
            Task.status_state_id task' ≠ Some o).
Proof.
  apply (propagation_keeps_completion Sample.today Sample.db4 6 Sample.old6).
  - apply (bool_decide_unpack _). vm_compute. exact I.
  - reflexivity.
Defined.

(** ** The overdue sweep, continued *)

Lemma gather_nil now w : gather now [] w = w.
Proof. done. Qed.

(** Each gathered e-mail gets its log row and its job. *)
Lemma gather_in now emails w e :
  e ∈ emails →
  ∃ logs jobs log job,
    email_logs (db (gather now emails w)) = email_logs (db w) ++ logs ∧
    email_queue (gather now emails w) = email_queue w ++ jobs ∧
    log ∈ logs ∧ job ∈ jobs ∧ logged_as e log ∧ queued_as log job.
Proof.
  intros [i Hi]%list_elem_of_lookup.
  destruct (gather_spec now emails w) as (logs & jobs & Hdb & Hq & Hlogs & Hjobs).
  destruct (Forall2_lookup_l _ _ _ _ _ Hlogs Hi) as (log & Hlog & Hsent).
  destruct (Forall2_lookup_l _ _ _ _ _ Hjobs Hlog) as (job & Hjob & Hqueued).
  exists logs, jobs, log, job. rewrite Hdb, Hq. simpl.
  split; [done|]. split; [done|].
  split; [by eapply list_elem_of_lookup_2|].
  split; [by eapply list_elem_of_lookup_2|done].
Qed.

(** An undisturbed sweep in full. *)
Lemma sweep_no_failure_full today now w c o :
  get_all_states (db w) !! "completed" = Some c →
  get_all_states (db w) !! "overdue" = Some o →
  check_overdue_and_notify NoFailure today now w
  = let d0 := with_task_stages
                (flag_stages now (db w) c o today (task_stages (db w)))
                (with_tasks (flag_tasks now c o today (tasks (db w))) (db w)) in
    let wg :=
      gather now
        (omap (task_overdue_email (db w))
              (List.filter (overdue_task_selected c today) (tasks (db w)))
         ++ omap (stage_overdue_email (db w))
              (List.filter (overdue_stage_selected (db w) c today)
                           (task_stages (db w))))
        (mkWorld d0 (email_queue w)) in
    gather now
      (omap (reminder_email (db wg))
            (List.filter (near_due_selected c today) (tasks (db wg)))) wg.
Proof.
  intros Hc Ho. unfold check_overdue_and_notify, sweep_try. by rewrite Hc, Ho.
Qed.

Lemma recipient_users d1 d2 task :
  users d1 = users d2 →
  recipient d1 task = recipient d2 task ∧ recipient_name d1 task = recipient_name d2 task.
Proof. unfold recipient, recipient_name, assigned_user. by intros ->. Qed.

Lemma failure_point_cases fail :
  fail ∈ [FailStatesQuery; FailTaskQuery; FailStageQuery; FailCommit]
  ∨ (fail = NoFailure ∨ fail = FailReminderQuery).
Proof. destruct fail; rewrite !elem_of_cons; auto 10. Qed.

(** X4.  A task due today is neither overdue nor in the reminder window.
    When every task is due today or later, and every task in the window of
    the next two days is completed, a sweep changes nothing at all: no
    status, no notification, no job, wherever it might fail. *)
Theorem sweep_nothing_due fail today now w :
  (∀ t, t ∈ tasks (db w) →
        today ≤ Task.due_date t ∧
        (Task.due_date t = today ∨ today + 2 < Task.due_date t
         ∨ Task.status_state_id t = get_all_states (db w) !! "completed")) →
  check_overdue_and_notify fail today now w = w.
Proof.
  intros Hdue.
  destruct (get_all_states (db w) !! "completed") as [c|] eqn:Hc;
    [|by apply sweep_states_missing; left].
  destruct (get_all_states (db w) !! "overdue") as [o|] eqn:Ho;
    [|by apply sweep_states_missing; right].
  assert (∀ t, t ∈ tasks (db w) → overdue_task_selected c today t = false) as Hnot.
  { intros t [Ht _]%Hdue. unfold overdue_task_selected.
    rewrite (bool_decide_eq_false_2 (Task.due_date t < today)) by lia.
    apply andb_false_r. }
  assert (∀ t, t ∈ tasks (db w) → near_due_selected c today t = false) as Hnear.
  { intros t [Ht [Heq|[Hlate|Hst]]]%Hdue; unfold near_due_selected.
    - rewrite (bool_decide_eq_false_2 (today + 1 ≤ _)) by lia.
      by rewrite andb_false_r.
    - rewrite (bool_decide_eq_false_2 (_ ≤ today + 2)) by lia.
      by rewrite andb_false_r.
    - rewrite Hst. simpl. by rewrite bool_decide_eq_true_2. }
  assert (flag_tasks now c o today (tasks (db w)) = tasks (db w)) as Htasks.
  { unfold flag_tasks. rewrite <-(list_fmap_id (tasks (db w))) at 2.
    apply list_fmap_ext. intros i t Ht%list_elem_of_lookup_2. by rewrite Hnot. }
  assert (∀ s, overdue_stage_selected (db w) c today s = false) as Hstage.
  { intros s. unfold overdue_stage_selected.
    replace (existsb _ (tasks (db w))) with false; [by rewrite andb_false_r|].
    symmetry. apply not_true_is_false. intros (t & Ht & Hb)%existsb_exists.
    apply list_elem_of_In, Hdue in Ht as [Ht _].
    apply andb_true_iff in Hb as [_ Hb%bool_decide_eq_true]. lia. }
  assert (flag_stages now (db w) c o today (task_stages (db w)) = task_stages (db w))
    as Hstages.
  { unfold flag_stages. rewrite <-(list_fmap_id (task_stages (db w))) at 2.
    apply list_fmap_ext. intros i s _. by rewrite Hstage. }
  destruct (failure_point_cases fail) as [Hfail|Hfail].
  { by apply sweep_rolled_back. }
  unfold check_overdue_and_notify, sweep_try. rewrite Hc, Ho.
  rewrite Htasks, Hstages, !select_none by (by intros; eauto).
  destruct w as [[] q]. by destruct Hfail as [-> | ->].
Qed.

Lemma sweep_nothing_due_witness :
  check_overdue_and_notify NoFailure (Sample.today - 40) Sample.now Sample.world3
  = Sample.world3.
Proof.
  apply (sweep_nothing_due NoFailure (Sample.today - 40) Sample.now Sample.world3).
  intros t Ht. apply list_elem_of_singleton in Ht as ->.
  split; [by vm_compute|]. right. left. by vm_compute.
Defined.

Lemma flag_tasks_unselected now c o today rows t :
  t ∈ rows → overdue_task_selected c today t = false →
  t ∈ flag_tasks now c o today rows.
Proof.
  intros Ht Hsel. unfold flag_tasks.
  apply (list_elem_of_fmap_2' _ _ t); [done|]. by rewrite Hsel.
Qed.

Lemma flag_stages_unselected now d c o today rows s :
  s ∈ rows → overdue_stage_selected d c today s = false →
  s ∈ flag_stages now d c o today rows.
Proof.
  intros Hs Hsel. unfold flag_stages.
  apply (list_elem_of_fmap_2' _ _ s); [done|]. by rewrite Hsel.
Qed.

(** X5.  An undisturbed sweep enqueues a reminder, with the subject
    "Reminder: Task Due Soon - " and the name of the task, for every task
    that is not completed, is due tomorrow or the day after, and has an
    assignee with an address; the task itself is left as it is. *)
Theorem sweep_reminds_near_due_task today now w c o task st u :
  get_all_states (db w) !! "completed" = Some c →
  get_all_states (db w) !! "overdue" = Some o →
  task ∈ tasks (db w) →
  Task.status_state_id task = Some st → st ≠ c →
  today + 1 ≤ Task.due_date task → Task.due_date task ≤ today + 2 →
  assigned_user (db w) task = Some u → User.email u ≠ "" →
  let w1 := check_overdue_and_notify NoFailure today now w in
  notified ("Reminder: Task Due Soon - " +:+ Task.name task) (Some (User.email u)) w w1
  ∧ task ∈ tasks (db w1).
Proof.
  intros Hc Ho Htask Hst Hne Hlo Hhi Hu Hmail w1.
  unfold w1. rewrite (sweep_no_failure_full today now w c o Hc Ho). simpl.
  set (emails := omap _ _ ++ omap _ _).
  set (w0 := mkWorld _ (email_queue w)).
  destruct (gather_spec now emails w0) as (logs1 & jobs1 & Hdb1 & Hq1 & _ & _).
  assert (task ∈ tasks (db (gather now emails w0))) as Htask1.
  { rewrite Hdb1. simpl. apply flag_tasks_unselected; [done|].
    unfold overdue_task_selected.
    rewrite (bool_decide_eq_false_2 (Task.due_date task < today)) by lia.
    apply andb_false_r. }
  set (reminders := omap _ _).
  assert (∃ e, e ∈ reminders ∧
               email_subject e = "Reminder: Task Due Soon - " +:+ Task.name task ∧
               email_to e = Some (User.email u)) as (e & He & Hsubj & Hto).
  { eexists. split.
    - apply list_elem_of_omap. exists task. split.
      + apply elem_of_select. split; [done|]. unfold near_due_selected.
        rewrite Hst. simpl.
        by rewrite bool_decide_eq_false_2, !bool_decide_eq_true_2.
      + unfold reminder_email, recipient, assigned_user in *.
        rewrite Hdb1. simpl. rewrite Hu. simpl.
        unfold truthy. by rewrite bool_decide_eq_false_2.
    - done. }
  split.
  - destruct (gather_in now reminders (gather now emails w0) e He)
      as (logs2 & jobs2 & log & job & Hl2 & Hq2 & Hlog & Hjob & Hlogged & Hqueued).
    destruct Hlogged as (Hs & _ & Ht & Hstat).
    exists (logs1 ++ logs2), (jobs1 ++ jobs2), log, job.
    rewrite Hl2, Hq2, Hdb1, Hq1. simpl. rewrite <-!app_assoc.
    split; [done|]. split; [done|].
    split; [apply elem_of_app; by right|].
    split; [apply elem_of_app; by right|].
    by rewrite Hs, Ht, Hsubj, Hto.
  - by destruct (gather_tables now reminders (gather now emails w0))
      as (_ & _ & -> & _).
Qed.

Lemma sweep_reminds_near_due_task_witness :
  let w1 := check_overdue_and_notify NoFailure Sample.today Sample.now Sample.world6 in
  notified "Reminder: Task Due Soon - soon" (Some "ann@example.org") Sample.world6 w1
  ∧ Sample.soon ∈ tasks (db w1).
Proof.
  apply (sweep_reminds_near_due_task Sample.today Sample.now Sample.world6 3 4
           Sample.soon 1 Sample.ann).
  - by vm_compute.
  - by vm_compute.
  - apply list_elem_of_here.
  - reflexivity.
  - discriminate.
  - by vm_compute.
  - by vm_compute.
  - reflexivity.
  - discriminate.
Defined.

(** The stage selected by the second query is flagged by an undisturbed
    sweep, with or without an assignee to write to. *)
Lemma overdue_stage_selected_started d c today stage st sd task :
  TaskStage.status_state_id stage = Some st → st ≠ c →
  TaskStage.completed_date stage = None →
  TaskStage.start_date stage = Some sd →
  get_task d (TaskStage.task_id stage) = Some task →
  Task.due_date task < today →
  overdue_stage_selected d c today stage = true.
Proof.
  intros Hst Hne Hcd Hsd Htask Hdue.
  unfold overdue_stage_selected. rewrite Hst, Hcd, Hsd. simpl.
  rewrite bool_decide_eq_false_2 by done. simpl.
  apply existsb_exists. exists task.
  apply first_Some in Htask as [Hin Hid]. split; [by apply list_elem_of_In|].
  by rewrite Hid, bool_decide_eq_true_2.
Qed.

(** X6.  An undisturbed sweep sets to [overdue] every stage that was started,
    has no [completed_date], is not in the [completed] state and belongs to
    a task past due, whether or not the task has an assignee; when it has
    one with an address, the sweep also enqueues "Stage Overdue in Task "
    with the key of the task for that assignee.  The status of the task
    plays no part: the stages of a completed task are flagged as well. *)
Theorem sweep_flags_started_stage today now w c o stage st sd task :
  get_all_states (db w) !! "completed" = Some c →
  get_all_states (db w) !! "overdue" = Some o →
  stage ∈ task_stages (db w) →
  TaskStage.status_state_id stage = Some st → st ≠ c →
  TaskStage.completed_date stage = None →
  TaskStage.start_date stage = Some sd →
  get_task (db w) (TaskStage.task_id stage) = Some task →
  Task.due_date task < today →
  let w1 := check_overdue_and_notify NoFailure today now w in
  TaskStage.assign_status now o stage ∈ task_stages (db w1) ∧
  TaskStage.status_state_id (TaskStage.assign_status now o stage) = Some o ∧
  ∀ u, assigned_user (db w) task = Some u → User.email u ≠ "" →
       notified ("Stage Overdue in Task " +:+ pretty (TaskStage.task_id stage))
                (Some (User.email u)) w w1.
Proof.
  intros Hc Ho Hstage Hst Hne Hcd Hsd Htask Hdue w1.
  pose proof (overdue_stage_selected_started (db w) c today stage st sd task
                Hst Hne Hcd Hsd Htask Hdue) as Hsel.
  unfold w1. rewrite (sweep_no_failure_full today now w c o Hc Ho). simpl.
  set (emails := omap _ _ ++ omap _ _).
  set (w0 := mkWorld _ (email_queue w)).
  set (reminders := omap _ _).
  split; [|split].
  - destruct (gather_tables now reminders (gather now emails w0))
      as (_ & _ & _ & -> & _).
    destruct (gather_tables now emails w0) as (_ & _ & _ & -> & _).
    simpl. unfold flag_stages.
    apply (list_elem_of_fmap_2' _ _ stage); [done|]. by rewrite Hsel.
  - apply stage_assign_status_status.
  - intros u Hu Hmail.
    assert (∃ e, e ∈ emails ∧
                 email_subject e
                 = "Stage Overdue in Task " +:+ pretty (TaskStage.task_id stage) ∧
                 email_to e = Some (User.email u)) as (e & He & Hsubj & Hto).
    { eexists. split.
      - apply elem_of_app. right. apply list_elem_of_omap. exists stage.
        split; [by apply elem_of_select|].
        unfold stage_overdue_email, recipient. rewrite Htask, Hu. simpl.
        unfold truthy. by rewrite bool_decide_eq_false_2.
      - done. }
    destruct (gather_in now emails w0 e He)
      as (logs1 & jobs1 & log & job & Hl1 & Hq1 & Hlog & Hjob & Hlogged & Hqueued).
    destruct (gather_spec now reminders (gather now emails w0))
      as (logs2 & jobs2 & Hdb2 & Hq2 & _ & _).
    destruct Hlogged as (Hs & _ & Ht & Hstat).
    exists (logs1 ++ logs2), (jobs1 ++ jobs2), log, job.
    rewrite Hdb2, Hq2, Hl1, Hq1. simpl. rewrite <-!app_assoc.
    split; [done|]. split; [done|].
    split; [apply elem_of_app; by left|].
    split; [apply elem_of_app; by left|].
    by rewrite Hs, Ht, Hsubj, Hto.
Qed.

Lemma sweep_flags_started_stage_witness :
  let w1 := check_overdue_and_notify NoFailure Sample.today Sample.now Sample.world6 in
  TaskStage.assign_status Sample.now 4 Sample.open90 ∈ task_stages (db w1) ∧
  TaskStage.status_state_id (TaskStage.assign_status Sample.now 4 Sample.open90)
  = Some 4 ∧
  ∀ u, assigned_user (db Sample.world6) Sample.done9 = Some u → User.email u ≠ "" →
       notified ("Stage Overdue in Task " +:+ pretty (TaskStage.task_id Sample.open90))
                (Some (User.email u)) Sample.world6 w1.
Proof.
  apply (sweep_flags_started_stage Sample.today Sample.now Sample.world6 3 4
           Sample.open90 2 (Sample.today - 25) Sample.done9).
  - by vm_compute.
  - by vm_compute.
  - apply list_elem_of_here.
  - reflexivity.
  - discriminate.
  - reflexivity.
  - reflexivity.
  - reflexivity.
  - by vm_compute.
Defined.





Lemma flag_tasks_ids now c o today rows :
  Task.task_id <$> flag_tasks now c o today rows = Task.task_id <$> rows.
Proof.
  unfold flag_tasks. rewrite <-list_fmap_compose. apply list_fmap_ext.
  intros _ t _. unfold compose.
  by destruct (flag_task_fields now c o today t) as (-> & _).
Qed.

Lemma flag_stages_ids now d c o today rows :
  TaskStage.stage_id <$> flag_stages now d c o today rows = TaskStage.stage_id <$> rows.
Proof.
  unfold flag_stages. rewrite <-list_fmap_compose. apply list_fmap_ext.
  intros _ s _. unfold compose, TaskStage.assign_status. by repeat case_match.
Qed.

(** X7.  What a sweep never does, wherever it may fail: it adds or removes no
    task and no stage, and it leaves alone every task that is completed or
    not yet past due, and every stage that is completed, has a
    [completed_date] or was never started. *)
Theorem sweep_spares_completed_and_current fail today now w :
  let w' := check_overdue_and_notify fail today now w in
  Task.task_id <$> tasks (db w') = Task.task_id <$> tasks (db w) ∧
  TaskStage.stage_id <$> task_stages (db w') = TaskStage.stage_id <$> task_stages (db w) ∧
  (∀ t, t ∈ tasks (db w) →
        Task.status_state_id t = get_all_states (db w) !! "completed"
        ∨ today ≤ Task.due_date t →
        t ∈ tasks (db w')) ∧
  (∀ s, s ∈ task_stages (db w) →
        TaskStage.status_state_id s = get_all_states (db w) !! "completed"
        ∨ is_Some (TaskStage.completed_date s)
        ∨ TaskStage.start_date s = None →
        s ∈ task_stages (db w')).
Proof.
  intros w'. unfold w'.
  destruct (get_all_states (db w) !! "completed") as [c|] eqn:Hc;
    [|by rewrite sweep_states_missing by auto].
  destruct (get_all_states (db w) !! "overdue") as [o|] eqn:Ho;
    [|by rewrite sweep_states_missing by auto].
  destruct (failure_point_cases fail) as [Hfail|Hfail];
    [by rewrite sweep_rolled_back|].
  destruct (sweep_committed fail today now w c o Hc Ho Hfail)
    as (_ & _ & -> & -> & _).
  split; [apply flag_tasks_ids|]. split; [apply flag_stages_ids|]. split.
  - intros t Ht Hcase. apply flag_tasks_unselected; [done|].
    unfold overdue_task_selected. destruct Hcase as [-> | Hdue]; simpl.
    + by rewrite bool_decide_eq_true_2.
    + rewrite (bool_decide_eq_false_2 (Task.due_date t < today)) by lia.
      apply andb_false_r.
  - intros s Hs Hcase. apply flag_stages_unselected; [done|].
    unfold overdue_stage_selected. destruct Hcase as [-> | [[cd ->] | ->]]; simpl.
    + by rewrite bool_decide_eq_true_2.
    + by rewrite andb_false_r.
    + by rewrite andb_false_r.
Qed.

(** ** The archival job, continued *)

Lemma new_archived_stages_ids now d sel :
  ArchivedTaskStage.stage_id <$> new_archived_stages now d sel
  = TaskStage.stage_id <$> (sel ≫= λ t, stages_of d (Task.task_id t)).
Proof.
  unfold new_archived_stages. induction sel as [|t sel IH]; [done|]. csimpl.
  by rewrite !fmap_app, IH, <-list_fmap_compose.
Qed.

(** After a run that archived its tasks nothing is left to select. *)
Lemma to_archive_archived_db today now d :
  to_archive today (archived_db now d (to_archive today d)) = [].
Proof.
  unfold to_archive at 1. simpl.
  destruct (first _ (states d)) as [cs|] eqn:Hcs; [|done].
  rewrite select_select. apply select_none. intros t Ht.
  destruct (archive_selected _ _ t) eqn:Hsel; [|by rewrite andb_false_r].
  rewrite andb_true_r. apply negb_false_iff, bool_decide_eq_true_2.
  apply list_elem_of_fmap_2. unfold to_archive. rewrite Hcs.
  by apply elem_of_select.
Qed.

(** X8.  Archival is idempotent: a second run on the same day, under the
    same conditions, leaves the database as the first run left it, whether
    the first run archived its tasks or failed. *)
Theorem archive_old_tasks_idempotent delete_raises today now1 now2 d :
  archive_old_tasks delete_raises today now2
    (archive_old_tasks delete_raises today now1 d)
  = archive_old_tasks delete_raises today now1 d.
Proof.
  rewrite (archive_old_tasks_cases delete_raises today now1 d).
  destruct (forallb _ _ && insert_ok _ _ && insert_ok _ _) eqn:Hok.
  - rewrite archive_old_tasks_cases, to_archive_archived_db.
    simpl. by rewrite archived_db_nil.
  - rewrite archive_old_tasks_cases.
    rewrite !new_archived_tasks_ids, !new_archived_stages_ids in *.
    by rewrite Hok.
Qed.

Section counting.
Context {A : Type}.
Implicit Types (p q : A → bool) (l : list A).

(** A selection and its complement share out the rows. *)
Lemma select_split_length p l :
  (length (List.filter p l) + length (List.filter (λ x, negb (p x)) l))%nat = length l.
Proof.
  induction l as [|x l IH]; simpl; [done|].
  destruct (p x); simpl; lia.
Qed.

Lemma select_or_length p q l :
  (∀ x, x ∈ l → p x = true → q x = false) →
  length (List.filter (λ x, p x || q x) l)
  = (length (List.filter p l) + length (List.filter q l))%nat.
Proof.
  induction l as [|x l IH]; intros H; [done|].
  assert (q x = true → p x = false) as Hx.
  { intros Hq. destruct (p x) eqn:Hp; [|done]. rewrite (H x) in Hq; [done|left|done]. }
  specialize (IH (λ y Hy, H y (list_elem_of_further _ _ _ Hy))).
  simpl. destruct (q x) eqn:Hq; [rewrite Hx by done|destruct (p x)]; simpl; lia.
Qed.
End counting.

(** The stage rows a commit deletes are as many as the copies it adds. *)
Lemma archived_stage_count now d sel :
  NoDup (Task.task_id <$> sel) →
  length (new_archived_stages now d sel)
  = length (List.filter (λ s, bool_decide (TaskStage.task_id s ∈ Task.task_id <$> sel))
                        (task_stages d)).
Proof.
  induction sel as [|t sel IH]; intros Hnd.
  - simpl. symmetry. by rewrite select_none.
  - rewrite fmap_cons in Hnd. apply NoDup_cons in Hnd as [Ht Hnd].
    rewrite new_archived_stages_cons, length_app, length_fmap, IH by done.
    unfold stages_of. rewrite <-select_or_length.
    + f_equal. apply select_ext_in. intros s _. rewrite fmap_cons.
      destruct (bool_decide (TaskStage.task_id s = Task.task_id t)) eqn:Hs; simpl.
      * apply bool_decide_eq_true in Hs. rewrite Hs.
        symmetry. apply bool_decide_eq_true_2. by left.
      * apply bool_decide_eq_false in Hs.
        apply bool_decide_ext. rewrite elem_of_cons. tauto.
    + intros s _ Hs%bool_decide_eq_true. apply bool_decide_eq_false_2.
      by rewrite Hs.
Qed.

(** X9.  Archival loses nothing and duplicates nothing: whatever a run does,
    the live tasks and the archived tasks are together as many as before, and
    so are the live stages and the archived stages.  The keys of the task
    table are distinct. *)
Theorem archive_conserves_rows delete_raises today now d :
  NoDup (Task.task_id <$> tasks d) →
  let d' := archive_old_tasks delete_raises today now d in
  (length (tasks d') + length (archived_tasks d')
   = length (tasks d) + length (archived_tasks d))%nat ∧
  (length (task_stages d') + length (archived_task_stages d')
   = length (task_stages d) + length (archived_task_stages d))%nat.
Proof.
  intros Hpk d'. unfold d'. rewrite archive_old_tasks_cases.
  destruct (forallb _ _ && insert_ok _ _ && insert_ok _ _); [|done].
  assert (to_archive today d `sublist_of` tasks d) as Hsub.
  { unfold to_archive. destruct (first _ (states d)); [apply select_sublist|].
    apply sublist_nil_l. }
  assert (NoDup (Task.task_id <$> to_archive today d)) as Hsel
    by by eapply NoDup_fmap_sublist.
  unfold archived_db. simpl. rewrite !length_app. split.
  - unfold new_archived_tasks. rewrite length_fmap.
    rewrite <-(select_split_length
                 (λ t, bool_decide (Task.task_id t ∈ Task.task_id <$> to_archive today d))
                 (tasks d)).
    assert (List.filter
              (λ t, bool_decide (Task.task_id t ∈ Task.task_id <$> to_archive today d))
              (tasks d) = to_archive today d) as ->; [|lia].
    unfold to_archive in *. destruct (first _ (states d)) as [cs|].
    + apply select_ext_in. intros t Ht.
      destruct (archive_selected _ _ t) eqn:Hs.
      * apply bool_decide_eq_true_2, list_elem_of_fmap_2. by apply elem_of_select.
      * apply bool_decide_eq_false_2.
        intros (t' & Hid & [Ht' Hs']%elem_of_select)%list_elem_of_fmap.
        assert (t = t') as <-; [|congruence].
        by apply (NoDup_fmap_inj_on Task.task_id (tasks d)).
    + apply select_none. intros t _. apply bool_decide_eq_false_2, not_elem_of_nil.
  - rewrite archived_stage_count by done.
    rewrite <-(select_split_length
                 (λ s, bool_decide (TaskStage.task_id s
                                    ∈ Task.task_id <$> to_archive today d))
                 (task_stages d)). lia.
Qed.

Lemma archive_conserves_rows_witness :
  let d' := archive_old_tasks (λ _, false) Sample.today Sample.now Sample.db4 in
  (length (tasks d') + length (archived_tasks d')
   = length (tasks Sample.db4) + length (archived_tasks Sample.db4))%nat ∧
  (length (task_stages d') + length (archived_task_stages d')
   = length (task_stages Sample.db4) + length (archived_task_stages Sample.db4))%nat.
Proof.
  apply (archive_conserves_rows (λ _, false) Sample.today Sample.now Sample.db4).
  apply (bool_decide_unpack _). vm_compute. exact I.
Defined.

(** X10.  Archival leaves alone every task it does not select: a task that
    is not in the [completed] state, or has no [completed_date], or was
    completed less than 30 days ago stays in the live table with all its
    stages, whatever the run does to other tasks.  The keys of the task
    table are distinct. *)
Theorem archive_spares_unselected delete_raises today now d t :
  NoDup (Task.task_id <$> tasks d) →
  t ∈ tasks d →
  (∀ cs, first (λ s, bool_decide (State.state_name s = "completed")) (states d)
         = Some cs →
         Task.status_state_id t ≠ Some (State.state_id cs)
         ∨ Task.completed_date t = None
         ∨ ∃ cd, Task.completed_date t = Some cd ∧ today - 30 < cd) →
  let d' := archive_old_tasks delete_raises today now d in
  t ∈ tasks d' ∧ stages_of d' (Task.task_id t) = stages_of d (Task.task_id t).
Proof.
  intros Hpk Ht Hcase d'. unfold d'. rewrite archive_old_tasks_cases.
  destruct (forallb _ _ && insert_ok _ _ && insert_ok _ _); [|done].
  assert (Task.task_id t ∉ Task.task_id <$> to_archive today d) as Hnot.
  { unfold to_archive.
    destruct (first _ (states d)) as [cs|] eqn:Hcs; [|apply not_elem_of_nil].
    intros (t' & Hid & [Ht' Hs']%elem_of_select)%list_elem_of_fmap.
    assert (t = t') as <- by by apply (NoDup_fmap_inj_on Task.task_id (tasks d)).
    unfold archive_selected in Hs'.
    apply andb_true_iff in Hs' as [Hst%bool_decide_eq_true Hcd].
    destruct (Hcase cs eq_refl) as [Hne|[Hnone|(cd & Hsome & Hlt)]].
    - done.
    - by rewrite Hnone in Hcd.
    - rewrite Hsome in Hcd. apply bool_decide_eq_true in Hcd. lia. }
  unfold archived_db, stages_of. simpl. split.
  - apply elem_of_select. split; [done|].
    by apply negb_true_iff, bool_decide_eq_false_2.
  - rewrite select_select. apply select_ext_in. intros s _.
    destruct (bool_decide (TaskStage.task_id s = Task.task_id t)) eqn:Hs;
      [|by rewrite andb_false_r].
    apply bool_decide_eq_true in Hs. rewrite Hs, andb_true_r.
    by apply negb_true_iff, bool_decide_eq_false_2.
Qed.

Lemma archive_spares_unselected_witness :
  let d' := archive_old_tasks (λ _, false) (Sample.today - 2) Sample.now Sample.db4 in
  Sample.old6 ∈ tasks d' ∧ stages_of d' 6 = stages_of Sample.db4 6.
Proof.
  apply (archive_spares_unselected (λ _, false) (Sample.today - 2) Sample.now
           Sample.db4 Sample.old6).
  - apply (bool_decide_unpack _). vm_compute. exact I.
  - apply list_elem_of_here.
  - intros cs Hcs. right. right. exists (Sample.today - 31).
    split; [reflexivity|]. unfold Sample.today. lia.
Defined.

(** ** The delivery worker, continued *)





(** ** [delete_stage], continued *)

Lemma foldl_set_order_number_ids now rows jobs :
  TaskStage.stage_id <$> foldl (set_order_number now) rows jobs
  = TaskStage.stage_id <$> rows.
Proof.
  revert rows. induction jobs as [|job jobs IH]; intros rows; [done|].
  simpl. rewrite IH. unfold set_order_number.
  rewrite <-list_fmap_compose. apply list_fmap_ext. intros _ r _. unfold compose.
  case_bool_decide; [apply assign_order_number_stage_id | done].
Qed.

(** X12.  When the task of the stage is soft-deleted, [delete_stage] answers
    404 "Task not found", and yet the deletion is done and committed: the
    stage is gone from the table, and the task table is as it was. *)
Theorem delete_stage_of_deleted_task now d sid stage :
  get_stage d sid = Some stage →
  (∀ t, t ∈ tasks d → Task.task_id t = TaskStage.task_id stage →
        Task.is_deleted t = true) →
  let r := delete_stage now d sid in
  r.2 = Raise (HTTPException 404 "Task not found") ∧
  get_stage r.1 sid = None ∧
  tasks r.1 = tasks d.
Proof.
  intros Hget Hdel r. unfold r, delete_stage. rewrite Hget. simpl.
  split; [|split; [|done]].
  - unfold get_task_by_id. simpl. rewrite first_None_intro; [done|].
    intros t Ht. destruct (bool_decide (Task.task_id t = _)) eqn:Hid; [|done].
    apply bool_decide_eq_true in Hid. by rewrite (Hdel t Ht Hid).
  - apply first_None_intro. intros s Hs. apply bool_decide_eq_false_2. intros Hid.
    apply (list_elem_of_fmap_2 TaskStage.stage_id) in Hs.
    simpl in Hs. rewrite foldl_set_order_number_ids in Hs.
    apply list_elem_of_fmap in Hs as (s0 & Hs0 & [_ Hne%negb_true_iff]%elem_of_select).
    apply bool_decide_eq_false in Hne. congruence.
Qed.

Lemma delete_stage_of_deleted_task_witness :
  let r := delete_stage Sample.now Sample.db7 100 in
  r.2 = Raise (HTTPException 404 "Task not found") ∧
  get_stage r.1 100 = None ∧
  tasks r.1 = tasks Sample.db7.
Proof.
  apply (delete_stage_of_deleted_task Sample.now Sample.db7 100
           (Sample.stage 100 10 1 1 None None None)).
  - reflexivity.
  - intros t Ht _. by apply list_elem_of_singleton in Ht as ->.
Defined.

(** ** [delete_task] *)

Lemma get_task_by_id_Ok d tid task :
  get_task_by_id d tid = Ok task →
  task ∈ tasks d ∧ Task.task_id task = tid ∧ Task.is_deleted task = false.
Proof.
  unfold get_task_by_id. intros H.
  destruct (first _ (tasks d)) as [t|] eqn:Hfirst; [|done]. simplify_eq.
  apply first_Some in Hfirst as [Hin [Hid Hdel]%andb_true_iff].
  apply bool_decide_eq_true in Hid. by apply negb_true_iff in Hdel.
Qed.

(** A write-back under a selection that the old rows of that key and the new
    row all fail leaves the selection as it was. *)
Lemma first_put_task_other (P : Task.t → bool) task' rows :
  P task' = false →
  (∀ r, Task.task_id r = Task.task_id task' → P r = false) →
  first P (put_task task' rows) = first P rows.
Proof.
  intros Hnew Hold. induction rows as [|r rows IH]; [done|].
  unfold put_task in *. rewrite fmap_cons, !first_cons.
  case_bool_decide as Hr.
  - by rewrite Hnew, (Hold r Hr).
  - by rewrite IH.
Qed.

(** A write-back of a row that passes the selection of its key. *)
Lemma first_put_task_by_id (Q : Task.t → bool) tid task task' rows :
  first (λ t, bool_decide (Task.task_id t = tid) && Q t) rows = Some task →
  Task.task_id task' = tid → Q task' = true →
  first (λ t, bool_decide (Task.task_id t = tid) && Q t) (put_task task' rows)
  = Some task'.
Proof.
  intros Hfirst Hid HQ. subst tid.
  induction rows as [|r rows IH]; [done|].
  rewrite first_cons in Hfirst. unfold put_task in *.
  rewrite fmap_cons, first_cons.
  destruct (bool_decide (Task.task_id r = Task.task_id task')) eqn:Hr.
  - by rewrite bool_decide_eq_true_2, HQ.
  - rewrite Hr. simpl in *. by apply IH.
Qed.

Lemma elem_of_put_task task' rows t :
  t ∈ put_task task' rows →
  t = task' ∨ (t ∈ rows ∧ Task.task_id t ≠ Task.task_id task').
Proof.
  unfold put_task. intros (r & -> & Hr)%list_elem_of_fmap.
  case_bool_decide; [by left | by right].
Qed.

Lemma get_task_by_id_other d d' tid task' tid' :
  tasks d' = put_task task' (tasks d) →
  Task.task_id task' = tid → tid' ≠ tid →
  get_task_by_id d' tid' = get_task_by_id d tid'.
Proof.
  intros Ht Hid Hne. unfold get_task_by_id. rewrite Ht.
  rewrite first_put_task_other; [done|..].
  - by rewrite Hid, bool_decide_eq_false_2.
  - intros r Hr. rewrite Hr, Hid. by rewrite bool_decide_eq_false_2.
Qed.

(** X13.  [delete_task] deletes softly: the row stays in the table, marked
    deleted and stamped, with its stages; from then on the task is not found
    ([get_task_by_id] answers 404), so that a second [delete_task] answers
    404 and changes nothing; the other tasks are found as before. *)
Theorem delete_task_hides_the_task now db_now now' db_now' d tid task :
  get_task_by_id d tid = Ok task →
  let r := delete_task now db_now d tid in
  r.2 = Ok () ∧
  get_task r.1 tid
  = Some (Task.with_updated_at (Some db_now) (soft_deleted now task)) ∧
  get_task_by_id r.1 tid = Raise (HTTPException 404 "Task not found") ∧
  delete_task now' db_now' r.1 tid
  = (r.1, Raise (HTTPException 404 "Task not found")) ∧
  Task.task_id <$> tasks r.1 = Task.task_id <$> tasks d ∧
  task_stages r.1 = task_stages d ∧
  (∀ tid', tid' ≠ tid → get_task_by_id r.1 tid' = get_task_by_id d tid').
Proof.
  intros Hget r. unfold r, delete_task. rewrite Hget. simpl.
  destruct (get_task_by_id_Ok d tid task Hget) as (Hin & Hid & Hlive).
  set (task' := Task.with_updated_at (Some db_now) (soft_deleted now task)).
  assert (get_task_by_id (with_tasks (put_task task' (tasks d)) d) tid
          = Raise (HTTPException 404 "Task not found")) as Hgone.
  { unfold get_task_by_id. simpl. rewrite first_None_intro; [done|].
    intros t [-> | [_ Hne]]%elem_of_put_task; [by rewrite andb_false_r|].
    simpl in Hne. rewrite bool_decide_eq_false_2; [done | congruence]. }
  split; [done|]. split; [|split; [done|split; [|split; [|split]]]].
  - unfold get_task. simpl.
    destruct (first_is_Some (λ t, bool_decide (Task.task_id t = tid)) (tasks d) task)
      as [t0 Ht0]; [done | by apply bool_decide_eq_true_2 |].
    by eapply first_put_task.
  - by rewrite Hgone.
  - apply put_task_ids.
  - done.
  - intros tid' Hne. by eapply get_task_by_id_other.
Qed.

Lemma delete_task_hides_the_task_witness :
  let r := delete_task Sample.now (Sample.now + 1) Sample.db1 2 in
  r.2 = Ok () ∧
  get_task r.1 2
  = Some (Task.with_updated_at (Some (Sample.now + 1))
            (soft_deleted Sample.now
               (Sample.task 2 "empty" 1 (Sample.today - 1) None (Some 1)))) ∧
  get_task_by_id r.1 2 = Raise (HTTPException 404 "Task not found") ∧
  delete_task (Sample.now + 5) (Sample.now + 6) r.1 2
  = (r.1, Raise (HTTPException 404 "Task not found")) ∧
  Task.task_id <$> tasks r.1 = Task.task_id <$> tasks Sample.db1 ∧
  task_stages r.1 = task_stages Sample.db1 ∧
  (∀ tid', tid' ≠ 2 → get_task_by_id r.1 tid' = get_task_by_id Sample.db1 tid').
Proof.
  apply (delete_task_hides_the_task Sample.now (Sample.now + 1) (Sample.now + 5)
           (Sample.now + 6) Sample.db1 2
           (Sample.task 2 "empty" 1 (Sample.today - 1) None (Some 1))).
  reflexivity.
Defined.

(** X14.  A soft-deleted task is still swept.  After [delete_task] the task
    is not found any more, and yet, being past due and not completed, it
    gets its overdue notification from the next undisturbed sweep. *)
Theorem soft_deleted_task_is_still_swept now db_now today now2 d q tid task c o st u :
  get_all_states d !! "completed" = Some c →
  get_all_states d !! "overdue" = Some o →
  get_task_by_id d tid = Ok task →
  Task.status_state_id task = Some st → st ≠ c →
  Task.due_date task < today →
  assigned_user d task = Some u → User.email u ≠ "" →
  let w := mkWorld (delete_task now db_now d tid).1 q in
  get_task_by_id (db w) tid = Raise (HTTPException 404 "Task not found") ∧
  overdue_notified task u w (check_overdue_and_notify NoFailure today now2 w).
Proof.
  intros Hc Ho Hget Hst Hne Hdue Hu Hmail w.
  destruct (get_task_by_id_Ok d tid task Hget) as (Hin & Hid & Hlive).
  unfold w, delete_task. rewrite Hget. simpl.
  set (task' := Task.with_updated_at (Some db_now) (soft_deleted now task)).
  split.
  - unfold get_task_by_id. simpl. rewrite first_None_intro; [done|].
    intros t [-> | [_ Hne']]%elem_of_put_task; [by rewrite andb_false_r|].
    simpl in Hne'. rewrite bool_decide_eq_false_2; [done | congruence].
  - change (Task.name task) with (Task.name task') in |- *.
    apply (sweep_enqueues_task_overdue today now2 _ c o task' u); try done.
    + simpl. unfold put_task. apply (list_elem_of_fmap_2' _ _ task); [done|].
      by rewrite bool_decide_eq_true_2.
    + unfold overdue_task_selected. simpl. rewrite Hst. simpl.
      by rewrite bool_decide_eq_false_2, bool_decide_eq_true_2.
Qed.

Lemma soft_deleted_task_is_still_swept_witness :
  let w := mkWorld (delete_task Sample.now (Sample.now + 1) Sample.db1 2).1 [] in
  get_task_by_id (db w) 2 = Raise (HTTPException 404 "Task not found") ∧
  overdue_notified (Sample.task 2 "empty" 1 (Sample.today - 1) None (Some 1))
    Sample.ann w
    (check_overdue_and_notify NoFailure Sample.today (Sample.now + 9) w).
Proof.
  apply (soft_deleted_task_is_still_swept Sample.now (Sample.now + 1) Sample.today
           (Sample.now + 9) Sample.db1 [] 2
           (Sample.task 2 "empty" 1 (Sample.today - 1) None (Some 1)) 3 4 1 Sample.ann).
  - by vm_compute.
  - by vm_compute.
  - reflexivity.
  - reflexivity.
  - discriminate.
  - by vm_compute.
  - reflexivity.
  - discriminate.
Defined.

(** ** [update_task] *)

Lemma apply_task_fields_none task st :
  apply_task_fields (TaskUpdate.mk None None None None None st) task = task.
Proof. by destruct task. Qed.

(** X15.  [update_task] refuses to complete a task that has an open stage:
    when the new status is the completed state and some stage of the task is
    in another state, the answer is 400 and nothing is written, whatever
    else the request sets. *)
Theorem update_task_refuses_open_stages db_now d tid u task c s :
  get_task_by_id d tid = Ok task →
  get_all_states d !! "completed" = Some c →
  TaskUpdate.status_state_id u = Some c →
  s ∈ stages_of d tid →
  TaskStage.status_state_id s ≠ Some c →
  update_task db_now d tid u
  = (d, Raise (HTTPException 400
                 "Cannot mark task as completed while stages are still open")).
Proof.
  intros Hget Hc Hu Hs Hopen. unfold update_task. rewrite Hget, Hu, Hc.
  rewrite bool_decide_eq_true_2 by done. simpl.
  assert (existsb (λ s, negb (bool_decide (TaskStage.status_state_id s = Some c)))
            (stages_of d tid) = true) as ->; [|done].
  apply existsb_exists. exists s. split; [by apply list_elem_of_In|].
  by rewrite bool_decide_eq_false_2.
Qed.

Lemma update_task_refuses_open_stages_witness :
  update_task (Sample.now + 1) Sample.db1 3
    (TaskUpdate.mk (Some "renamed") None None None None (Some 3))
  = (Sample.db1,
     Raise (HTTPException 400
              "Cannot mark task as completed while stages are still open")).
Proof.
  apply (update_task_refuses_open_stages (Sample.now + 1) Sample.db1 3
           (TaskUpdate.mk (Some "renamed") None None None None (Some 3))
           (Sample.task 3 "draft" 2 (Sample.today + 7) None None) 3
           (Sample.stage 12 3 2 1 None (Some (Sample.today - 2)) None)).
  - reflexivity.
  - by vm_compute.
  - reflexivity.
  - vm_compute. left.
  - discriminate.
Defined.

(** X16.  Completing a task through [update_task] records no completion
    date.  When every stage of the task is completed (or it has none), the
    request that only sets the completed status succeeds and the task has
    that status, with the [completed_date] it had; a task that had none has
    none then, so that no archival run, of whatever day, selects it. *)
Theorem update_task_completes_without_date db_now d tid task c :
  NoDup (Task.task_id <$> tasks d) →
  get_task_by_id d tid = Ok task →
  get_all_states d !! "completed" = Some c →
  Forall (λ s, TaskStage.status_state_id s = Some c) (stages_of d tid) →
  let r := update_task db_now d tid (TaskUpdate.mk None None None None None (Some c)) in
  ∃ task',
    r.2 = Ok task' ∧
    Task.status_state_id task' = Some c ∧
    Task.completed_date task' = Task.completed_date task ∧
    (Task.completed_date task = None →
     ∀ today t, t ∈ to_archive today r.1 → Task.task_id t ≠ tid).
Proof.
  intros Hnd Hget Hc Hall r. unfold r, update_task. rewrite Hget. simpl.
  rewrite Hc, apply_task_fields_none, bool_decide_eq_true_2 by done. simpl.
  destruct (get_task_by_id_Ok d tid task Hget) as (Hin & Hid & Hlive).
  assert (existsb (λ s, negb (bool_decide (TaskStage.status_state_id s = Some c)))
            (stages_of d tid) = false) as ->.
  { apply not_true_is_false. intros (s & Hs & Hopen)%existsb_exists.
    apply list_elem_of_In in Hs. rewrite Forall_forall in Hall.
    by rewrite bool_decide_eq_true_2 in Hopen by by apply Hall. }
  unfold commit_task. case_bool_decide as Hsame.
  - rewrite Hget. exists task. repeat split.
    + by rewrite <-Hsame.
    + intros Hnone today t Ht Htid. unfold to_archive in Ht.
      destruct (first (A:=State.t) _ _); [|by apply elem_of_nil in Ht].
      apply elem_of_select in Ht as [Ht Hsel].
      assert (t = task) as ->.
      { eapply (NoDup_fmap_inj_on Task.task_id); eauto. congruence. }
      unfold archive_selected in Hsel. rewrite Hnone in Hsel.
      by rewrite andb_false_r in Hsel.
  - set (new := Task.with_status (Some c) task) in *.
    assert (task_update_ok d task new = true) as ->.
    { unfold task_update_ok. simpl.
      apply get_all_states_row in Hc as (st & Hst & _ & Hstid).
      assert (existsb (λ s, bool_decide (State.state_id s = c)) (states d) = true) as ->.
      { apply existsb_exists. exists st. split; [by apply list_elem_of_In|].
        by apply bool_decide_eq_true_2. }
      rewrite orb_true_r. simpl.
      rewrite (bool_decide_eq_true_2 (Task.assigned_user_id task = _)) by done.
      simpl. by rewrite bool_decide_eq_true_2. }
    simpl. set (new' := Task.with_updated_at (Some db_now) new).
    assert (get_task_by_id (with_tasks (put_task new' (tasks d)) d) tid = Ok new') as ->.
    { unfold get_task_by_id in *. simpl.
      destruct (first _ (tasks d)) as [t0|] eqn:Hfirst; [|done].
      rewrite (first_put_task_by_id (λ t, negb (Task.is_deleted t)) tid t0 new'
                 (tasks d) Hfirst); [done | done | simpl; by rewrite Hlive]. }
    exists new'. repeat split.
    intros Hnone today t Ht Htid. unfold to_archive in Ht. simpl in Ht.
    destruct (first (A:=State.t) _ _); [|by apply elem_of_nil in Ht].
    apply elem_of_select in Ht as [Ht Hsel].
    apply elem_of_put_task in Ht as [-> | [_ Hne]].
    + unfold archive_selected in Hsel. simpl in Hsel. rewrite Hnone in Hsel.
      by rewrite andb_false_r in Hsel.
    + simpl in Hne. congruence.
Qed.

Lemma update_task_completes_without_date_witness :
  let r := update_task (Sample.now + 1) Sample.db1 2
             (TaskUpdate.mk None None None None None (Some 3)) in
  ∃ task',
    r.2 = Ok task' ∧
    Task.status_state_id task' = Some 3 ∧
    Task.completed_date task'
    = Task.completed_date (Sample.task 2 "empty" 1 (Sample.today - 1) None (Some 1)) ∧
    (Task.completed_date (Sample.task 2 "empty" 1 (Sample.today - 1) None (Some 1))
     = None →
     ∀ today t, t ∈ to_archive today r.1 → Task.task_id t ≠ 2).
Proof.
  apply (update_task_completes_without_date (Sample.now + 1) Sample.db1 2
           (Sample.task 2 "empty" 1 (Sample.today - 1) None (Some 1)) 3).
  - apply (bool_decide_unpack _). by vm_compute.
  - reflexivity.
  - by vm_compute.
  - by vm_compute.
Defined.

(** ** [add_stage_to_task] *)

Global Instance Z_ge_total : Total Z_ge.
Proof. intros a b. unfold Z_ge. lia. Qed.

Global Instance Z_ge_trans : Transitive Z_ge.
Proof. intros a b c. unfold Z_ge. lia. Qed.

(** The first of the numbers in descending order is the greatest. *)
Lemma head_descending (l : list Z) m :
  head (merge_sort Z_ge l) = Some m → m ∈ l ∧ ∀ x, x ∈ l → x ≤ m.
Proof.
  intros Hhead.
  pose proof (StronglySorted_merge_sort Z_ge l) as Hsorted.
  pose proof (merge_sort_Permutation Z_ge l) as Hperm.
  destruct (merge_sort Z_ge l) as [|m' rest]; [done|]. simplify_eq/=.
  split; [rewrite <-Hperm; by left|].
  intros x Hx. rewrite <-Hperm in Hx.
  apply StronglySorted_inv in Hsorted as [_ Hall].
  apply elem_of_cons in Hx as [->|Hx]; [done|].
  rewrite Forall_forall in Hall. by apply Hall.
Qed.

Lemma head_descending_None (l : list Z) :
  head (merge_sort Z_ge l) = None → l = [].
Proof.
  intros Hhead. pose proof (merge_sort_Permutation Z_ge l) as Hperm.
  destruct (merge_sort Z_ge l); [|done].
  by apply Permutation_nil_l in Hperm.
Qed.

Lemma foldr_max_ge (l : list Z) x : x ∈ l → x ≤ foldr Z.max 0 l.
Proof.
  induction l as [|y l IH]; intros Hx; [by apply elem_of_nil in Hx|].
  apply elem_of_cons in Hx as [->|Hx]; simpl; [lia|].
  specialize (IH Hx). lia.
Qed.

Lemma next_stage_id_fresh rows s :
  s ∈ rows → TaskStage.stage_id s < next_stage_id rows.
Proof.
  intros Hs. unfold next_stage_id.
  pose proof (foldr_max_ge (TaskStage.stage_id <$> rows) (TaskStage.stage_id s)
                ltac:(by apply list_elem_of_fmap_2)). lia.
Qed.

Lemma seqZ_snoc m (n : nat) :
  seqZ m (Z.of_nat (S n)) = seqZ m (Z.of_nat n) ++ [m + Z.of_nat n].
Proof.
  revert m. induction n as [|n IH]; intros m.
  - simpl. by rewrite Z.add_0_r.
  - rewrite (seqZ_cons m (Z.of_nat (S (S n)))) by lia.
    rewrite (seqZ_cons m (Z.of_nat (S n))) by lia.
    replace (Z.pred (Z.of_nat (S (S n)))) with (Z.of_nat (S n)) by lia.
    replace (Z.pred (Z.of_nat (S n))) with (Z.of_nat n) by lia.
    rewrite IH. simpl. do 3 f_equal. lia.
Qed.

(** What [add_stage_to_task] does when the task is found and the pending
    state exists. *)
Lemma add_stage_to_task_Ok db_now d tid data task p :
  get_task_by_id d tid = Ok task →
  get_state_by_name d "pending" = Ok p →
  Forall (λ s, TaskStage.order_number s < int4_max) (stages_of d tid) →
  (String.length (TaskStageCreate.stage_name data) ≤ 100)%nat →
  contains_nul (TaskStageCreate.stage_name data) = false →
  let new_stage :=
    TaskStage.mk (next_stage_id (task_stages d)) tid
      (TaskStageCreate.stage_name data) (TaskStageCreate.estimated_time_hours data)
      None (Some (State.state_id p))
      (or_zero (head (merge_sort Z_ge (TaskStage.order_number <$> stages_of d tid))) + 1)
      None None (Some db_now) None in
  add_stage_to_task db_now d tid data
  = (with_task_stages (task_stages d ++ [new_stage]) d, Ok new_stage).
Proof.
  intros Hget Hp Hfit Hname Hnul. unfold add_stage_to_task. rewrite Hget, Hp, Hnul.
  rewrite (bool_decide_eq_true_2 (_ ≤ 100)%nat) by done.
  rewrite bool_decide_eq_true_2; [done|].
  destruct (head _) as [m|] eqn:Hhead; [|by unfold int4_max].
  apply head_descending in Hhead as [Hm _].
  apply list_elem_of_fmap in Hm as (s & -> & Hs). rewrite Forall_forall in Hfit.
  pose proof (Hfit s Hs). unfold or_zero, int4_max in *. case_bool_decide; lia.
Qed.

(** The refusals: a stage numbered with the greatest [Integer], a name of
    more than 100 characters, or a NUL in the name, and nothing is
    written. *)
Lemma add_stage_to_task_refused db_now d tid data task p :
  get_task_by_id d tid = Ok task →
  get_state_by_name d "pending" = Ok p →
  (∃ s, s ∈ stages_of d tid ∧ TaskStage.order_number s = int4_max) ∨
  (100 < String.length (TaskStageCreate.stage_name data))%nat ∨
  contains_nul (TaskStageCreate.stage_name data) = true →
  ∃ msg, add_stage_to_task db_now d tid data = (d, Raise (DBAPIError msg)).
Proof.
  intros Hget Hp Hbad. unfold add_stage_to_task. rewrite Hget, Hp.
  destruct (bool_decide (_ + 1 ≤ int4_max)) eqn:Horder; [|by eexists].
  destruct (contains_nul _) eqn:Hnul; [by eexists|].
  destruct (bool_decide (_ ≤ 100)%nat) eqn:Hname; [|by eexists].
  apply bool_decide_eq_true in Horder, Hname. exfalso.
  destruct Hbad as [(s & Hs & Hmax) | [Hlong | ?]]; [|lia|done].
  destruct (head _) as [m|] eqn:Hhead.
  - apply head_descending in Hhead as [_ Hle].
    pose proof (Hle (TaskStage.order_number s) ltac:(by apply list_elem_of_fmap_2)).
    unfold or_zero, int4_max in *. case_bool_decide; lia.
  - apply head_descending_None, fmap_nil_inv in Hhead.
    rewrite Hhead in Hs. by apply elem_of_nil in Hs.
Qed.

(** X17.  [add_stage_to_task] puts the new stage last.  When the new row
    fits its columns (the name has at most 100 characters, none of them
    NUL, and no stage of the task has the greatest [Integer] for its
    number), the stage is added
    at the end of the table under a key not in use, belongs to the task, is
    pending, has neither dates nor actual hours, and its [order_number] is
    greater than that of every stage the task had (1 when it had none); the
    tasks and the other stages are not touched. *)
Theorem add_stage_goes_last db_now d tid data task p :
  get_task_by_id d tid = Ok task →
  get_state_by_name d "pending" = Ok p →
  Forall (λ s, TaskStage.order_number s < int4_max) (stages_of d tid) →
  (String.length (TaskStageCreate.stage_name data) ≤ 100)%nat →
  contains_nul (TaskStageCreate.stage_name data) = false →
  let r := add_stage_to_task db_now d tid data in
  ∃ new_stage,
    r.2 = Ok new_stage ∧
    task_stages r.1 = task_stages d ++ [new_stage] ∧
    tasks r.1 = tasks d ∧
    get_stage d (TaskStage.stage_id new_stage) = None ∧
    TaskStage.task_id new_stage = tid ∧
    TaskStage.stage_name new_stage = TaskStageCreate.stage_name data ∧
    TaskStage.status_state_id new_stage = Some (State.state_id p) ∧
    TaskStage.start_date new_stage = None ∧
    TaskStage.completed_date new_stage = None ∧
    TaskStage.actual_time_hours new_stage = None ∧
    (∀ s, s ∈ stages_of d tid →
       TaskStage.order_number s < TaskStage.order_number new_stage) ∧
    (stages_of d tid = [] → TaskStage.order_number new_stage = 1).
Proof.
  intros Hget Hp Hfit Hname Hnul r. unfold r.
  rewrite (add_stage_to_task_Ok db_now d tid data task p Hget Hp Hfit Hname Hnul).
  eexists. split; [done|]. simpl. repeat split.
  - apply first_None_intro. intros s Hs. apply bool_decide_eq_false_2.
    pose proof (next_stage_id_fresh _ _ Hs). lia.
  - intros s Hs.
    destruct (head _) as [m|] eqn:Hhead.
    + apply head_descending in Hhead as [_ Hmax].
      pose proof (Hmax (TaskStage.order_number s)
                    ltac:(by apply list_elem_of_fmap_2)).
      unfold or_zero. case_bool_decide; lia.
    + apply head_descending_None, fmap_nil_inv in Hhead.
      rewrite Hhead in Hs. by apply elem_of_nil in Hs.
  - by intros ->.
Qed.

Lemma add_stage_goes_last_witness :
  let r := add_stage_to_task (Sample.now + 1) Sample.db2 5
             (TaskStageCreate.mk "review" 2%float 1) in
  ∃ new_stage,
    r.2 = Ok new_stage ∧
    task_stages r.1 = task_stages Sample.db2 ++ [new_stage] ∧
    tasks r.1 = tasks Sample.db2 ∧
    get_stage Sample.db2 (TaskStage.stage_id new_stage) = None ∧
    TaskStage.task_id new_stage = 5 ∧
    TaskStage.stage_name new_stage = "review" ∧
    TaskStage.status_state_id new_stage = Some 1 ∧
    TaskStage.start_date new_stage = None ∧
    TaskStage.completed_date new_stage = None ∧
    TaskStage.actual_time_hours new_stage = None ∧
    (∀ s, s ∈ stages_of Sample.db2 5 →
       TaskStage.order_number s < TaskStage.order_number new_stage) ∧
    (stages_of Sample.db2 5 = [] → TaskStage.order_number new_stage = 1).
Proof.
  apply (add_stage_goes_last (Sample.now + 1) Sample.db2 5
           (TaskStageCreate.mk "review" 2%float 1)
           (Sample.task 5 "plan" 1 (Sample.today + 7) None (Some 1))
           (State.mk 1 "pending" None)).
  - reflexivity.
  - reflexivity.
  - apply (bool_decide_unpack _). by vm_compute.
  - apply (bool_decide_unpack _). by vm_compute.
  - reflexivity.
Defined.

(** X18.  [add_stage_to_task] keeps the numbering of the stages: when the
    stages of the task are numbered 1, 2, ..., n, and the new row fits its
    columns (the name has at most 100 characters, none of them NUL, and n
    is less than the greatest [Integer]), they are numbered 1, 2, ..., n+1
    afterwards. *)
Theorem add_stage_keeps_numbering db_now d tid data task p (n : nat) :
  get_task_by_id d tid = Ok task →
  get_state_by_name d "pending" = Ok p →
  TaskStage.order_number <$> order_by_order_number (stages_of d tid)
  = seqZ 1 (Z.of_nat n) →
  Z.of_nat n < int4_max →
  (String.length (TaskStageCreate.stage_name data) ≤ 100)%nat →
  contains_nul (TaskStageCreate.stage_name data) = false →
  let r := add_stage_to_task db_now d tid data in
  TaskStage.order_number <$> order_by_order_number (stages_of r.1 tid)
  = seqZ 1 (Z.of_nat (S n)).
Proof.
  intros Hget Hp Hnum Hbound Hname Hnul r. unfold r.
  assert (TaskStage.order_number <$> stages_of d tid ≡ₚ seqZ 1 (Z.of_nat n)) as Hperm.
  { rewrite <-Hnum. unfold order_by_order_number.
    by rewrite merge_sort_Permutation. }
  rewrite (add_stage_to_task_Ok db_now d tid data task p Hget Hp); [|
    apply Forall_forall; intros s Hs;
    assert (TaskStage.order_number s ∈ seqZ 1 (Z.of_nat n)) as Hin
      by (rewrite <-Hperm; by apply list_elem_of_fmap_2);
    apply elem_of_seqZ in Hin; lia | done | done].
  simpl.
  assert (or_zero (head (merge_sort Z_ge (TaskStage.order_number <$> stages_of d tid)))
          = Z.of_nat n) as ->.
  { destruct (head _) as [m|] eqn:Hhead.
    - apply head_descending in Hhead as [Hm Hmax].
      rewrite Hperm in Hm. apply elem_of_seqZ in Hm.
      destruct n as [|n]; [lia|].
      assert (Z.of_nat (S n) ∈ TaskStage.order_number <$> stages_of d tid) as Hn.
      { rewrite Hperm. apply elem_of_seqZ. lia. }
      apply Hmax in Hn. unfold or_zero. case_bool_decide; lia.
    - apply head_descending_None in Hhead. rewrite Hhead in Hperm.
      apply Permutation_nil_l in Hperm.
      destruct n as [|n]; [done|]. by rewrite seqZ_cons in Hperm by lia. }
  apply (Sorted_unique Z.le).
  - unfold order_by_order_number.
    apply (Sorted_fmap TaskStage.order_number order_le Z.le); [done|].
    apply Sorted_merge_sort; apply _.
  - apply Sorted_seqZ.
  - unfold order_by_order_number, stages_of. rewrite merge_sort_Permutation. simpl.
    rewrite List.filter_app, fmap_app. simpl.
    rewrite bool_decide_eq_true_2 by done. simpl.
    rewrite seqZ_snoc. fold (stages_of d tid). rewrite Hperm.
    by replace (1 + Z.of_nat n) with (Z.of_nat n + 1) by lia.
Qed.

Lemma add_stage_keeps_numbering_witness :
  let r := add_stage_to_task (Sample.now + 1) Sample.db2 5
             (TaskStageCreate.mk "review" 2%float 7) in
  TaskStage.order_number <$> order_by_order_number (stages_of r.1 5)
  = seqZ 1 (Z.of_nat 4).
Proof.
  apply (add_stage_keeps_numbering (Sample.now + 1) Sample.db2 5
           (TaskStageCreate.mk "review" 2%float 7)
           (Sample.task 5 "plan" 1 (Sample.today + 7) None (Some 1))
           (State.mk 1 "pending" None) 3).
  - reflexivity.
  - reflexivity.
  - reflexivity.
  - reflexivity.
  - apply (bool_decide_unpack _). by vm_compute.
  - reflexivity.
Defined.

(** ** [sanitize_string] *)

Lemma tag_free_without_gt v : 62%N ∉ v → tag_free v.
Proof.
  induction v as [|c v IH]; intros Hv; [done|]. simpl.
  apply not_elem_of_cons in Hv as [_ Hv]. split; [done | by apply IH].
Qed.

Lemma tag_free_app v1 v2 : tag_free (v1 ++ v2) → tag_free v1 ∧ tag_free v2.
Proof.
  induction v1 as [|c v1 IH]; simpl; [done|].
  intros [Hc Hfree]. destruct (IH Hfree) as [H1 H2]. repeat split; [|done..].
  intros Heq Hin. apply (Hc Heq). apply elem_of_app. by left.
Qed.

(** The scan, in both of its states: outside a tag the output has no tag
    left; inside one, with no [>] in the text held back, neither. *)
Lemma strip_tags_from_tag_free v :
  tag_free (strip_tags_from None v) ∧
  ∀ text, 62%N ∉ text → tag_free (strip_tags_from (Some text) v).
Proof.
  induction v as [|c v [IHnone IHsome]]; simpl.
  - split; [done|]. apply tag_free_without_gt.
  - split.
    + case_bool_decide as Hc.
      * apply IHsome. subst c. apply not_elem_of_cons. split; [done|].
        apply not_elem_of_nil.
      * simpl. done.
    + intros text Htext. case_bool_decide as Hc; [done|].
      apply IHsome.
      intros [Hin | Heq%list_elem_of_singleton]%elem_of_app;
        [by apply Htext | by apply Hc].
Qed.

(** On a text without tags the scan changes nothing. *)
Lemma strip_tags_from_fixed v :
  (tag_free v → strip_tags_from None v = v) ∧
  ∀ text, 62%N ∉ v → strip_tags_from (Some text) v = text ++ v.
Proof.
  induction v as [|c v [IHnone IHsome]]; simpl.
  - split; [done|]. intros text _. by rewrite app_nil_r.
  - split.
    + intros [Hc Hfree]. case_bool_decide as Heq.
      * rewrite IHsome; [done | by apply Hc].
      * by rewrite IHnone.
    + intros text [Hc Hv]%not_elem_of_cons.
      rewrite bool_decide_eq_false_2 by done.
      rewrite IHsome by done. by rewrite <-app_assoc.
Qed.

Lemma lstrip_suffix v : ∃ k, v = k ++ lstrip v.
Proof.
  induction v as [|c v [k IH]]; [by exists []|]. simpl.
  destruct (isspace c); [|by exists []].
  exists (c :: k). simpl. by rewrite <-IH.
Qed.

Lemma lstrip_starts_clean v : starts_clean (lstrip v).
Proof.
  induction v as [|c v IH]; simpl; [done|].
  by destruct (isspace c) eqn:Hc.
Qed.

Lemma lstrip_fixed v : starts_clean v → lstrip v = v.
Proof. destruct v as [|c v]; simpl; [done|]. by intros ->. Qed.

Lemma starts_clean_prefix v1 v2 : starts_clean (v1 ++ v2) → starts_clean v1.
Proof. by destruct v1. Qed.

(** [strip] gives a piece of the text between two runs of white space. *)
Lemma strip_middle v : ∃ k1 k2, v = k1 ++ strip v ++ k2.
Proof.
  unfold strip. destruct (lstrip_suffix v) as [k1 H1].
  destruct (lstrip_suffix (reverse (lstrip v))) as [k2 H2].
  exists k1, (reverse k2).
  rewrite <-reverse_app, <-H2, reverse_involutive. done.
Qed.

Lemma strip_starts_clean v : starts_clean (strip v) ∧ starts_clean (reverse (strip v)).
Proof.
  unfold strip. rewrite reverse_involutive. split; [|apply lstrip_starts_clean].
  destruct (lstrip_suffix (reverse (lstrip v))) as [k Hk].
  apply (starts_clean_prefix _ (reverse k)).
  rewrite <-reverse_app, <-Hk, reverse_involutive. apply lstrip_starts_clean.
Qed.

Lemma strip_fixed v : starts_clean v → starts_clean (reverse v) → strip v = v.
Proof.
  intros H1 H2. unfold strip.
  by rewrite (lstrip_fixed v), (lstrip_fixed (reverse v)), reverse_involutive.
Qed.

(** X19.  [sanitize_string] gives a clean text and is idempotent: in its
    result no [<] is followed by a [>], and it neither begins nor ends with
    white space, so that sanitizing a second time changes nothing; a value
    that is not a string comes back as it is. *)
Theorem sanitize_string_clean_and_idempotent {A} (v : list N + A) :
  sanitize_string (sanitize_string v) = sanitize_string v ∧
  match sanitize_string v with
  | inl text => tag_free text ∧ starts_clean text ∧ starts_clean (reverse text)
  | inr other => v = inr other
  end.
Proof.
  destruct v as [s|other]; simpl; [|done].
  assert (tag_free (strip (strip_tags s))) as Hfree.
  { destruct (strip_middle (strip_tags s)) as (k1 & k2 & Hk).
    pose proof (proj1 (strip_tags_from_tag_free s)) as Hs.
    unfold strip_tags in Hk at 1. rewrite Hk in Hs.
    by apply tag_free_app in Hs as [_ [Hs _]%tag_free_app]. }
  destruct (strip_starts_clean (strip_tags s)) as [Hl Hr].
  split; [|done]. f_equal. unfold strip_tags at 1.
  rewrite (proj1 (strip_tags_from_fixed _) Hfree). by apply strip_fixed.
Qed.

(** The scan on some texts: a [<] inside a tag belongs to it, a tag ends at
    the first [>], and a [<] that meets no [>] stays. *)
Lemma sanitize_string_examples :
  sanitize_string (A:=unit) (inl (code_points "  <b>bold</b> text "))
  = inl (code_points "bold text") ∧
  sanitize_string (A:=unit) (inl (code_points "a<<x>b>")) = inl (code_points "ab>") ∧
  sanitize_string (A:=unit) (inl (code_points "1 < 2")) = inl (code_points "1 < 2") ∧
  sanitize_string (A:=unit) (inl (code_points "<i> x </i>")) = inl (code_points "x").
Proof. by vm_compute. Qed.

(** ** [list_tasks] *)

Global Instance task_id_le_total : Total task_id_le.
Proof. intros a b. unfold task_id_le. lia. Qed.

Global Instance task_id_le_trans : Transitive task_id_le.
Proof. intros a b c. unfold task_id_le. lia. Qed.

Lemma select_Permutation {A} (f : A → bool) l1 l2 :
  l1 ≡ₚ l2 → List.filter f l1 ≡ₚ List.filter f l2.
Proof.
  induction 1 as [|x l1 l2 _ IH|x y l|l1 l2 l3 _ IH1 _ IH2]; simpl.
  - done.
  - destruct (f x); by rewrite IH.
  - destruct (f x), (f y); try done. apply perm_swap.
  - by etrans.
Qed.

Lemma StronglySorted_select {A} (R : relation A) (f : A → bool) l :
  StronglySorted R l → StronglySorted R (List.filter f l).
Proof.
  induction 1 as [|x l Hl IH Hx]; simpl; [constructor|].
  destruct (f x); [|done]. constructor; [done|].
  rewrite Forall_forall in Hx |- *. intros y [Hy _]%elem_of_select. by apply Hx.
Qed.

(** To select and to order by key commute, on rows of distinct keys. *)
Lemma merge_sort_select (f : Task.t → bool) rows :
  NoDup (Task.task_id <$> rows) →
  merge_sort task_id_le (List.filter f rows)
  = List.filter f (merge_sort task_id_le rows).
Proof.
  intros Hnd. apply (StronglySorted_unique_strong task_id_le).
  - intros x1 x2 Hx1 Hx2 H12 H21.
    rewrite merge_sort_Permutation in Hx1. apply elem_of_select in Hx1 as [Hx1 _].
    apply elem_of_select in Hx2 as [Hx2 _]. rewrite merge_sort_Permutation in Hx2.
    apply (NoDup_fmap_inj_on Task.task_id rows); try done.
    unfold task_id_le in *. lia.
  - apply StronglySorted_merge_sort; apply _.
  - apply StronglySorted_select, StronglySorted_merge_sort; apply _.
  - rewrite merge_sort_Permutation. apply select_Permutation.
    by rewrite merge_sort_Permutation.
Qed.

(** In rows ordered by distinct keys, the rows of a key above that of the
    row at an index are the rows after the index. *)
Lemma select_after_index rows (j : nat) t :
  StronglySorted task_id_le rows →
  NoDup (Task.task_id <$> rows) →
  rows !! j = Some t →
  List.filter (λ x, bool_decide (Task.task_id t < Task.task_id x)) rows
  = drop (S j) rows.
Proof.
  intros Hsorted. revert j. induction Hsorted as [|x rows Hrows IH Hx];
    intros j Hnd Hj; [done|].
  rewrite fmap_cons in Hnd. apply NoDup_cons in Hnd as [Hnew Hnd].
  rewrite Forall_forall in Hx. simpl.
  destruct j as [|j]; simplify_eq/=.
  - rewrite bool_decide_eq_false_2 by lia. rewrite drop_0.
    apply select_all. intros y Hy. apply bool_decide_eq_true_2.
    pose proof (Hx y Hy) as Hle. unfold task_id_le in Hle.
    assert (Task.task_id y ≠ Task.task_id t); [|lia].
    intros Heq. apply Hnew. rewrite <-Heq. by apply list_elem_of_fmap_2.
  - pose proof (Hx t ltac:(by eapply list_elem_of_lookup_2)) as Hle.
    unfold task_id_le in Hle. rewrite bool_decide_eq_false_2 by lia.
    by apply IH.
Qed.

(** X20.  The pages of [list_tasks] join: the page asked for with the key of
    the last task of a page as [last_id] continues that page, the two
    together being the page of twice the limit.  The keys are distinct, and
    the key handed on is not 0, which [list_tasks] takes for no cursor. *)
Theorem list_tasks_pages_join d cursor limit page1 t :
  NoDup (Task.task_id <$> tasks d) →
  list_tasks d cursor limit = Ok page1 →
  last page1 = Some t →
  Task.task_id t ≠ 0 →
  ∃ page2,
    list_tasks d (Some (Task.task_id t)) limit = Ok page2 ∧
    list_tasks d cursor (2 * limit) = Ok (page1 ++ page2).
Proof.
  intros Hnd Hpage Hlast Hkey. unfold list_tasks in *.
  set (live := List.filter (λ t, negb (Task.is_deleted t)) (tasks d)) in *.
  set (query := match cursor with
                | Some last =>
                    if bool_decide (last = 0) then live
                    else List.filter (λ t, bool_decide (last < Task.task_id t)) live
                | None => live
                end) in *.
  destruct (bool_decide (limit < 0)) eqn:Hlimit; [done|].
  apply bool_decide_eq_false in Hlimit. simplify_eq.
  rewrite (bool_decide_eq_false_2 (Task.task_id t = 0)) by done.
  rewrite (bool_decide_eq_false_2 (2 * limit < 0)) by lia.
  eexists. split; [done|]. f_equal.
  set (rows := merge_sort task_id_le query) in *.
  set (n := Z.to_nat limit) in *.
  assert (NoDup (Task.task_id <$> live)) as Hnd_live.
  { eapply NoDup_fmap_sublist; [apply select_sublist | done]. }
  assert (NoDup (Task.task_id <$> query)) as Hnd_query.
  { unfold query. destruct cursor as [last|]; [|done].
    case_bool_decide; [done|].
    eapply NoDup_fmap_sublist; [apply select_sublist | done]. }
  assert (rows !! pred (length (take n rows)) = Some t) as Hj.
  { rewrite last_lookup in Hlast.
    apply lookup_take_Some in Hlast as [Hlast _]. done. }
  assert (t ∈ query) as Ht.
  { unfold rows in Hj. apply list_elem_of_lookup_2 in Hj.
    by rewrite merge_sort_Permutation in Hj. }
  assert (List.filter (λ x, bool_decide (Task.task_id t < Task.task_id x)) live
          = List.filter (λ x, bool_decide (Task.task_id t < Task.task_id x)) query)
    as ->.
  { unfold query. destruct cursor as [last|]; [|done].
    case_bool_decide as Hzero; [done|].
    unfold query in Ht.
    apply elem_of_select in Ht as [_ Hlt%bool_decide_eq_true].
    rewrite select_select. apply select_ext_in. intros x _.
    destruct (bool_decide (Task.task_id t < Task.task_id x)) eqn:Hx;
      [|by rewrite andb_false_r].
    apply bool_decide_eq_true in Hx. rewrite bool_decide_eq_true_2; [done | lia]. }
  rewrite merge_sort_select by done. fold rows.
  assert (length (take n rows) ≠ 0%nat) as Hlen.
  { intros Hnil. apply length_zero_iff_nil in Hnil.
    rewrite Hnil in Hlast. done. }
  rewrite (select_after_index rows (pred (length (take n rows))) t); try done.
  - replace (S (pred (length (take n rows)))) with (length (take n rows)) by lia.
    replace (Z.to_nat (2 * limit)) with (n + n)%nat by lia.
    rewrite <-take_take_drop. f_equal.
    destruct (decide (n ≤ length rows)%nat) as [Hle|Hgt].
    + by rewrite length_take_le.
    + rewrite length_take_ge by lia. by rewrite drop_all, drop_ge by lia.
  - apply StronglySorted_merge_sort; apply _.
  - unfold rows. by rewrite merge_sort_Permutation.
Qed.

Lemma list_tasks_pages_join_witness :
  ∃ page2,
    list_tasks Sample.db1
      (Some (Task.task_id (Sample.task 1 "report" 2 (Sample.today + 7) None (Some 1))))
      1
    = Ok page2 ∧
    list_tasks Sample.db1 None (2 * 1)
    = Ok ([Sample.task 1 "report" 2 (Sample.today + 7) None (Some 1)] ++ page2).
Proof.
  apply (list_tasks_pages_join Sample.db1 None 1
           [Sample.task 1 "report" 2 (Sample.today + 7) None (Some 1)]
           (Sample.task 1 "report" 2 (Sample.today + 7) None (Some 1))).
  - apply (bool_decide_unpack _). by vm_compute.
  - reflexivity.
  - reflexivity.
  - discriminate.
Defined.

(** ** [notify_user_manually] *)

Lemma next_log_id_fresh logs l : l ∈ logs → EmailLog.id l < next_log_id logs.
Proof.
  intros Hl. unfold next_log_id.
  pose proof (foldr_max_ge (EmailLog.id <$> logs) (EmailLog.id l)
                ltac:(by apply list_elem_of_fmap_2)). lia.
Qed.

(** X21.  [notify_user_manually] reads the task by its key alone, so a
    soft-deleted task is notified like a live one.  When a row of the key
    exists and has an assignee, the answer names the address, exactly one
    [pending] log row is added, under a key above every key of the log, with
    exactly one job for it at the back of the queue; tasks and stages are
    not touched. *)
Theorem notify_user_manually_enqueues now w tid task u :
  get_task (db w) tid = Some task →
  assigned_user (db w) task = Some u →
  let r := notify_user_manually now w tid in
  r.2 = Ok ("Notification sent to " +:+ User.email u) ∧
  tasks (db r.1) = tasks (db w) ∧
  task_stages (db r.1) = task_stages (db w) ∧
  ∃ log job,
    email_logs (db r.1) = email_logs (db w) ++ [log] ∧
    email_queue r.1 = email_queue w ++ [job] ∧
    (∀ l, l ∈ email_logs (db w) → EmailLog.id l < EmailLog.id log) ∧
    EmailLog.subject log = "Notification: Task " +:+ Task.name task ∧
    EmailLog.to_email log = Some (User.email u) ∧
    EmailLog.status log = "pending" ∧
    EmailLog.created_at log = Some now ∧
    queued_as log job.
Proof.
  intros Hget Hu r. unfold r, notify_user_manually. rewrite Hget, Hu. simpl.
  repeat split. eexists _, _. repeat split.
  intros l Hl. simpl. by apply next_log_id_fresh.
Qed.

Lemma notify_user_manually_enqueues_witness :
  let w := mkWorld Sample.db7 [] in
  let r := notify_user_manually (Sample.now + 2) w 10 in
  r.2 = Ok ("Notification sent to " +:+ User.email Sample.ann) ∧
  tasks (db r.1) = tasks (db w) ∧
  task_stages (db r.1) = task_stages (db w) ∧
  ∃ log job,
    email_logs (db r.1) = email_logs (db w) ++ [log] ∧
    email_queue r.1 = email_queue w ++ [job] ∧
    (∀ l, l ∈ email_logs (db w) → EmailLog.id l < EmailLog.id log) ∧
    EmailLog.subject log = "Notification: Task " +:+ Task.name Sample.gone ∧
    EmailLog.to_email log = Some (User.email Sample.ann) ∧
    EmailLog.status log = "pending" ∧
    EmailLog.created_at log = Some (Sample.now + 2) ∧
    queued_as log job.
Proof.
  apply (notify_user_manually_enqueues (Sample.now + 2) (mkWorld Sample.db7 []) 10
           Sample.gone Sample.ann).
  - reflexivity.
  - reflexivity.
Defined.

(** ** [create_task] *)

Lemma first_app {A} (P : A → bool) l1 l2 :
  first P (l1 ++ l2) = match first P l1 with
                       | Some x => Some x
                       | None => first P l2
                       end.
Proof.
  induction l1 as [|x l1 IH]; [done|].
  rewrite <-app_comm_cons, !first_cons. by destruct (P x).
Qed.

Lemma next_task_id_fresh rows r : r ∈ rows → Task.task_id r < next_task_id rows.
Proof.
  intros Hr. unfold next_task_id.
  pose proof (foldr_max_ge (Task.task_id <$> rows) (Task.task_id r)
                ltac:(by apply list_elem_of_fmap_2)). lia.
Qed.

(** A live row added under a new key is the one found under that key. *)
Lemma get_task_by_id_new d d' new :
  tasks d' = tasks d ++ [new] →
  Task.task_id new = next_task_id (tasks d) →
  Task.is_deleted new = false →
  get_task_by_id d' (Task.task_id new) = Ok new.
Proof.
  intros Htasks Hid Hlive. unfold get_task_by_id. rewrite Htasks, first_app.
  rewrite first_None_intro.
  - by rewrite first_cons, bool_decide_eq_true_2, Hlive.
  - intros r Hr. pose proof (next_task_id_fresh _ _ Hr).
    rewrite bool_decide_eq_false_2; [done | lia].
Qed.

(** What the route does with a request that creates a task. *)
Lemma create_task_route_new db_now d tpl data uid d1 t :
  match TaskCreate.idempotency_key data with
  | Some k =>
      if truthy k then
        first (λ r, bool_decide (Task.idempotency_key r = Some k)
                    && negb (Task.is_deleted r)) (tasks d)
      else None
  | None => None
  end = None →
  create_task_route db_now d tpl data uid = (d1, Ok t) →
  ∃ p specs,
    get_state_by_name d "pending" = Ok p ∧
    t = Task.mk (next_task_id (tasks d)) (TaskCreate.name data)
          (TaskCreate.description data) (Some (State.state_id p))
          (TaskCreate.due_date data) None (TaskCreate.priority data)
          (TaskCreate.assigned_user_id data) (Some uid)
          (TaskCreate.idempotency_key data) (Some db_now) None false None ∧
    task_insert_ok d t = true ∧
    match TaskCreate.template_id data with
    | Some template_id =>
        if bool_decide (template_id = 0) then specs = []
        else ∃ template,
          first (λ t, bool_decide (TaskTemplate.template_id t = template_id))
                (task_templates tpl) = Some template ∧
          specs = template_stage_specs tpl (TaskTemplate.template_id template)
    | None => specs = []
    end ∧
    d1 = mkDB (states d) (users d) (tasks d ++ [t])
           (task_stages d
            ++ added_stage_rows db_now (next_stage_id (task_stages d))
                 (Task.task_id t) (State.state_id p)
                 (specs ++ explicit_stage_specs (TaskCreate.stages data)))
           (archived_tasks d) (archived_task_stages d) (email_logs d).
Proof.
  intros Hnone Hroute. unfold create_task_route, create_task in Hroute.
  rewrite Hnone in Hroute.
  destruct (get_state_by_name d "pending") as [p|] eqn:Hp; [|by simplify_eq].
  set (new := Task.mk _ _ _ _ _ _ _ _ _ _ _ _ _ _) in Hroute.
  destruct (task_insert_ok d new) eqn:Hok; simpl in Hroute; [|by simplify_eq].
  assert (∀ specs,
    (mkDB (states d) (users d) (tasks d ++ [new])
       (task_stages d
        ++ added_stage_rows db_now (next_stage_id (task_stages d))
             (Task.task_id new) (State.state_id p)
             (specs ++ explicit_stage_specs (TaskCreate.stages data)))
       (archived_tasks d) (archived_task_stages d) (email_logs d),
     get_task_by_id
       (mkDB (states d) (users d) (tasks d ++ [new])
          (task_stages d
           ++ added_stage_rows db_now (next_stage_id (task_stages d))
                (Task.task_id new) (State.state_id p)
                (specs ++ explicit_stage_specs (TaskCreate.stages data)))
          (archived_tasks d) (archived_task_stages d) (email_logs d))
       (Task.task_id new)) = (d1, Ok t) →
    t = new ∧
    d1 = mkDB (states d) (users d) (tasks d ++ [t])
           (task_stages d
            ++ added_stage_rows db_now (next_stage_id (task_stages d))
                 (Task.task_id t) (State.state_id p)
                 (specs ++ explicit_stage_specs (TaskCreate.stages data)))
           (archived_tasks d) (archived_task_stages d) (email_logs d)) as Hdone.
  { intros specs Heq. rewrite (get_task_by_id_new d _ new) in Heq by done.
    by simplify_eq. }
  destruct (TaskCreate.template_id data) as [template_id|].
  - destruct (bool_decide (template_id = 0)) eqn:Hzero.
    + apply (Hdone []) in Hroute as [-> ->]. by exists p, [].
    + destruct (first _ (task_templates tpl)) as [template|] eqn:Htpl;
        [|by simplify_eq].
      apply Hdone in Hroute as [-> ->].
      exists p, (template_stage_specs tpl (TaskTemplate.template_id template)).
      repeat split; try done. by exists template.
  - apply (Hdone []) in Hroute as [-> ->]. by exists p, [].
Qed.

(** The request whose non-empty key a live task holds: that task is the
    answer, and nothing is written. *)
Lemma create_task_route_existing db_now d tpl data uid k t :
  TaskCreate.idempotency_key data = Some k →
  k ≠ "" →
  NoDup (Task.task_id <$> tasks d) →
  t ∈ tasks d →
  Task.is_deleted t = false →
  Task.idempotency_key t = Some k →
  (∀ r, r ∈ tasks d → Task.idempotency_key r = Some k → r = t) →
  create_task_route db_now d tpl data uid = (d, Ok t).
Proof.
  intros Hkey Hk Hnd Ht Hlive Htk Hunique.
  assert (truthy k = true) as Htruthy
    by (unfold truthy; by rewrite bool_decide_eq_false_2).
  assert (get_task_by_id d (Task.task_id t) = Ok t) as Hfound.
  { unfold get_task_by_id.
    destruct (first_is_Some
                (λ r, bool_decide (Task.task_id r = Task.task_id t)
                      && negb (Task.is_deleted r)) (tasks d) t) as [r Hr]; [done| |].
    { by rewrite bool_decide_eq_true_2, Hlive. }
    rewrite Hr. apply first_Some in Hr as [Hin [Hid%bool_decide_eq_true _]%andb_true_iff].
    f_equal. by apply (NoDup_fmap_inj_on Task.task_id (tasks d)). }
  unfold create_task_route, create_task. rewrite Hkey, Htruthy.
  destruct (first_is_Some
              (λ r, bool_decide (Task.idempotency_key r = Some k)
                    && negb (Task.is_deleted r)) (tasks d) t) as [e He]; [done| |].
  { by rewrite bool_decide_eq_true_2, Hlive. }
  rewrite He. apply first_Some in He as [Hin [Hek%bool_decide_eq_true _]%andb_true_iff].
  rewrite (Hunique e Hin Hek). by rewrite Hfound, Hfound.
Qed.

(** X22.  A retry with the same idempotency key gives the same task, as long
    as that task is live.  When a request with a non-empty key was answered
    with a task, the request with that key that follows it, whatever else it
    holds and whoever sends it, is answered with that task and writes
    nothing; and so is every request with that key, in whatever state of the
    database, as long as a live task holds the key, the keys of the tasks
    being distinct and no other task holding that idempotency key.  (Once
    the task is soft-deleted the request is refused.) *)
Theorem create_task_retry_gives_same_task
    db_now db_now' d tpl tpl' data data' uid uid' k d1 t :
  TaskCreate.idempotency_key data = Some k →
  k ≠ "" →
  TaskCreate.idempotency_key data' = Some k →
  create_task_route db_now d tpl data uid = (d1, Ok t) →
  create_task_route db_now' d1 tpl' data' uid' = (d1, Ok t) ∧
  ∀ db_now2 d2 tpl2 uid2 t2,
    NoDup (Task.task_id <$> tasks d2) →
    t2 ∈ tasks d2 →
    Task.is_deleted t2 = false →
    Task.idempotency_key t2 = Some k →
    (∀ r, r ∈ tasks d2 → Task.idempotency_key r = Some k → r = t2) →
    create_task_route db_now2 d2 tpl2 data' uid2 = (d2, Ok t2).
Proof.
  intros Hkey Hk Hkey' Hroute.
  split; [|intros; by eapply create_task_route_existing].
  assert (truthy k = true) as Htruthy
    by (unfold truthy; by rewrite bool_decide_eq_false_2).
  destruct (first (λ r, bool_decide (Task.idempotency_key r = Some k)
                        && negb (Task.is_deleted r)) (tasks d))
    as [existing|] eqn:Hexisting.
  - unfold create_task_route, create_task in *.
    rewrite Hkey, Htruthy, Hexisting in Hroute.
    destruct (get_task_by_id d (Task.task_id existing)) as [t0|] eqn:Ht0;
      [|by simplify_eq].
    injection Hroute as <- Ht. rewrite Hkey', Htruthy, Hexisting, Ht0.
    by rewrite Ht.
  - destruct (create_task_route_new db_now d tpl data uid d1 t)
      as (p & specs & Hp & Ht & Hok & _ & Hd1); [|done|].
    { by rewrite Hkey, Htruthy. }
    assert (tasks d1 = tasks d ++ [t]) as Htasks by by rewrite Hd1.
    assert (get_task_by_id d1 (Task.task_id t) = Ok t) as Hfound.
    { apply (get_task_by_id_new d); [done | by rewrite Ht | by rewrite Ht]. }
    unfold create_task_route, create_task.
    rewrite Hkey', Htruthy, Htasks, first_app, Hexisting, first_cons.
    assert (Task.idempotency_key t = Some k) as -> by by rewrite Ht.
    assert (Task.is_deleted t = false) as -> by by rewrite Ht.
    rewrite bool_decide_eq_true_2 by done. simpl. by rewrite Hfound, Hfound.
Qed.

Lemma create_task_retry_gives_same_task_witness :
  create_task_route (Sample.now + 9)
    (create_task_route Sample.now Sample.db1 Sample.templates
       (Sample.request (Some "k-1")) 1).1
    (mkTemplates [] [])
    (TaskCreate.mk "another name" None Sample.today "low" None None (Some "k-1") [])
    1
  = ((create_task_route Sample.now Sample.db1 Sample.templates
        (Sample.request (Some "k-1")) 1).1,
     Ok (Task.mk 4 "release 1.0" None (Some 1) (Sample.today + 14) None "high"
           (Some 1) (Some 1) (Some "k-1") (Some Sample.now) None false None)) ∧
  ∀ db_now2 d2 tpl2 uid2 t2,
    NoDup (Task.task_id <$> tasks d2) →
    t2 ∈ tasks d2 →
    Task.is_deleted t2 = false →
    Task.idempotency_key t2 = Some "k-1" →
    (∀ r, r ∈ tasks d2 → Task.idempotency_key r = Some "k-1" → r = t2) →
    create_task_route db_now2 d2 tpl2
      (TaskCreate.mk "another name" None Sample.today "low" None None (Some "k-1") [])
      uid2
    = (d2, Ok t2).
Proof.
  apply (create_task_retry_gives_same_task Sample.now (Sample.now + 9) Sample.db1
           Sample.templates (mkTemplates [] []) (Sample.request (Some "k-1"))
           (TaskCreate.mk "another name" None Sample.today "low" None None
              (Some "k-1") [])
           1 1 "k-1").
  - reflexivity.
  - discriminate.
  - reflexivity.
  - by vm_compute.
Defined.



(** [sorted]: the result is in the order of the keys, has the same rows, and
    keeps the rows of one key in the order they had. *)
Lemma insert_sorted_Permutation {A} (key : A → Z) x l :
  insert_sorted key x l ≡ₚ x :: l.
Proof.
  induction l as [|y l IH]; simpl; [done|].
  case_bool_decide; [done|]. by rewrite IH, Permutation_swap.
Qed.

Lemma sorted_Permutation {A} (key : A → Z) l : sorted key l ≡ₚ l.
Proof.
  induction l as [|x l IH]; simpl; [done|].
  by rewrite insert_sorted_Permutation, IH.
Qed.

Lemma Sorted_insert_sorted {A} (key : A → Z) x l :
  Sorted Z.le (key <$> l) → Sorted Z.le (key <$> insert_sorted key x l).
Proof.
  induction l as [|y l IH]; intros Hl; simpl.
  - by repeat constructor.
  - case_bool_decide as Hxy.
    + rewrite !fmap_cons. constructor; [done|]. by constructor.
    + rewrite fmap_cons in Hl |- *. apply Sorted_inv in Hl as [Hl Hhd].
      constructor; [by apply IH|].
      destruct l as [|z l]; simpl.
      * constructor. lia.
      * case_bool_decide; constructor; [lia|]. by apply HdRel_inv in Hhd.
Qed.

Lemma Sorted_sorted {A} (key : A → Z) l : Sorted Z.le (key <$> sorted key l).
Proof.
  induction l as [|x l IH]; simpl; [constructor|]. by apply Sorted_insert_sorted.
Qed.

Lemma sorted_stable {A} (key : A → Z) c l :
  List.filter (λ y, bool_decide (key y = c)) (sorted key l)
  = List.filter (λ y, bool_decide (key y = c)) l.
Proof.
  induction l as [|x l IH]; [done|]. simpl. rewrite <-IH.
  generalize (sorted key l). clear IH. intros rows.
  induction rows as [|y rows IH]; simpl; [done|].
  destruct (bool_decide (key x ≤ key y)) eqn:Hxy; simpl; [done|]. rewrite IH.
  apply bool_decide_eq_false in Hxy.
  destruct (bool_decide (key x = c)) eqn:Hx; [|done].
  apply bool_decide_eq_true in Hx. rewrite bool_decide_eq_false_2; [done | lia].
Qed.

Lemma length_enumerate {A} start (xs : list A) :
  length (enumerate start xs) = length xs.
Proof. unfold enumerate. rewrite length_zip, length_seqZ. lia. Qed.

Lemma added_stage_rows_specs db_now first_id task_id pending_id specs :
  (λ s, (TaskStage.stage_name s, TaskStage.estimated_time_hours s,
         TaskStage.order_number s))
  <$> added_stage_rows db_now first_id task_id pending_id specs
  = specs.
Proof.
  unfold added_stage_rows, enumerate. rewrite <-list_fmap_compose.
  transitivity ((zip (seqZ first_id (Z.of_nat (length specs))) specs).*2).
  - apply list_fmap_ext. by intros _ [i [[stage_name hours] order_number]] _.
  - apply snd_zip. rewrite length_seqZ. lia.
Qed.

Lemma added_stage_rows_ids db_now first_id task_id pending_id specs :
  TaskStage.stage_id <$> added_stage_rows db_now first_id task_id pending_id specs
  = seqZ first_id (Z.of_nat (length specs)).
Proof.
  unfold added_stage_rows, enumerate. rewrite <-list_fmap_compose.
  transitivity ((zip (seqZ first_id (Z.of_nat (length specs))) specs).*1).
  - apply list_fmap_ext. by intros _ [i [[stage_name hours] order_number]] _.
  - apply fst_zip. rewrite length_seqZ. lia.
Qed.

Lemma length_added_stage_rows db_now first_id task_id pending_id specs :
  length (added_stage_rows db_now first_id task_id pending_id specs) = length specs.
Proof. unfold added_stage_rows. by rewrite length_fmap, length_enumerate. Qed.

(** X24.  A task created from a template gets the stages of the template in
    the order of their [order_number], stages of one number in the order of
    the table, with 0 for a missing or zero estimate, and after them the
    stages of the request in the order given, numbered as the request says.
    All are pending, without dates, under keys that differ from each other
    and are above the keys in use; the task is added last. *)
Theorem create_task_adds_stages_in_order db_now d tpl data uid d1 t tid :
  TaskCreate.idempotency_key data = None →
  TaskCreate.template_id data = Some tid →
  tid ≠ 0 →
  create_task_route db_now d tpl data uid = (d1, Ok t) →
  ∃ rows1 rows2,
    tasks d1 = tasks d ++ [t] ∧
    task_stages d1 = task_stages d ++ rows1 ++ rows2 ∧
    (λ s, (TaskStage.stage_name s, TaskStage.estimated_time_hours s,
           TaskStage.order_number s)) <$> rows1
    = template_stage_specs tpl tid ∧
    Sorted Z.le (TaskStage.order_number <$> rows1) ∧
    (∀ c, TaskStage.stage_name
          <$> List.filter (λ s, bool_decide (TaskStage.order_number s = c)) rows1
          = TaskTemplateStage.stage_name
            <$> List.filter
                  (λ ts, bool_decide (TaskTemplateStage.template_id ts = tid)
                         && bool_decide (TaskTemplateStage.order_number ts = c))
                  (task_template_stages tpl)) ∧
    (λ s, (TaskStage.stage_name s, TaskStage.estimated_time_hours s,
           TaskStage.order_number s)) <$> rows2
    = explicit_stage_specs (TaskCreate.stages data) ∧
    NoDup (TaskStage.stage_id <$> rows1 ++ rows2) ∧
    (∀ s s0, s ∈ rows1 ++ rows2 → s0 ∈ task_stages d →
       TaskStage.stage_id s0 < TaskStage.stage_id s) ∧
    Forall (λ s, TaskStage.task_id s = Task.task_id t ∧
                 TaskStage.status_state_id s = Task.status_state_id t ∧
                 TaskStage.start_date s = None ∧
                 TaskStage.completed_date s = None)
           (rows1 ++ rows2).
Proof.
  intros Hkey Htid Hnz Hroute.
  destruct (create_task_route_new db_now d tpl data uid d1 t)
    as (p & specs & Hp & Ht & Hok & Hspecs & Hd1); [by rewrite Hkey | done |].
  rewrite Htid, bool_decide_eq_false_2 in Hspecs by done.
  destruct Hspecs as (template & Htemplate & ->).
  apply first_Some in Htemplate as [_ Heq%bool_decide_eq_true].
  rewrite Heq in Hd1. clear template Heq.
  set (specs := template_stage_specs tpl tid ++ _) in Hd1.
  set (rows := added_stage_rows db_now (next_stage_id (task_stages d))
                 (Task.task_id t) (State.state_id p) specs) in Hd1.
  set (n := length (template_stage_specs tpl tid)).
  pose proof (added_stage_rows_specs db_now (next_stage_id (task_stages d))
                (Task.task_id t) (State.state_id p) specs) as Hrows.
  fold rows in Hrows.
  exists (take n rows), (drop n rows). rewrite take_drop.
  assert ((λ s, (TaskStage.stage_name s, TaskStage.estimated_time_hours s,
                 TaskStage.order_number s)) <$> take n rows
          = template_stage_specs tpl tid) as Hfirst.
  { rewrite fmap_take, Hrows. unfold specs, n. by rewrite take_app_length. }
  split; [by rewrite Hd1|]. split; [by rewrite Hd1|]. split; [done|].
  split; [|split; [|split; [|split; [|split]]]].
  - assert (TaskStage.order_number <$> take n rows
            = (λ x : string * float * Z, x.2)
              <$> ((λ s, (TaskStage.stage_name s, TaskStage.estimated_time_hours s,
                          TaskStage.order_number s)) <$> take n rows)) as ->
      by by rewrite <-list_fmap_compose.
    rewrite Hfirst. unfold template_stage_specs. rewrite <-list_fmap_compose.
    apply (Sorted_sorted TaskTemplateStage.order_number).
  - intros c.
    transitivity
      ((λ x : string * float * Z, x.1.1)
       <$> List.filter (λ x : string * float * Z, bool_decide (x.2 = c))
             ((λ s, (TaskStage.stage_name s, TaskStage.estimated_time_hours s,
                     TaskStage.order_number s)) <$> take n rows)).
    { by rewrite select_fmap, <-list_fmap_compose. }
    rewrite Hfirst. unfold template_stage_specs.
    rewrite select_fmap, <-list_fmap_compose. unfold compose. simpl.
    by rewrite (sorted_stable TaskTemplateStage.order_number c), select_select.
  - rewrite fmap_drop, Hrows. unfold specs, n. by rewrite drop_app_length.
  - unfold rows. rewrite added_stage_rows_ids. apply NoDup_seqZ.
  - intros s s0 Hs Hs0.
    assert (TaskStage.stage_id s ∈ TaskStage.stage_id <$> rows) as Hid
      by by apply list_elem_of_fmap_2.
    unfold rows in Hid. rewrite added_stage_rows_ids in Hid.
    apply elem_of_seqZ in Hid. pose proof (next_stage_id_fresh _ _ Hs0). lia.
  - apply Forall_forall. intros s Hs. unfold rows, added_stage_rows in Hs.
    apply list_elem_of_fmap in Hs as ([i [[stage_name hours] order_number]] & -> & _).
    by rewrite Ht.
Qed.

Lemma create_task_adds_stages_in_order_witness :
  ∃ rows1 rows2,
    tasks (create_task_route Sample.now Sample.db1 Sample.templates
             (Sample.request None) 1).1
    = tasks Sample.db1
      ++ [Task.mk 4 "release 1.0" None (Some 1) (Sample.today + 14) None "high"
            (Some 1) (Some 1) None (Some Sample.now) None false None] ∧
    task_stages (create_task_route Sample.now Sample.db1 Sample.templates
                   (Sample.request None) 1).1
    = task_stages Sample.db1 ++ rows1 ++ rows2 ∧
    (λ s, (TaskStage.stage_name s, TaskStage.estimated_time_hours s,
           TaskStage.order_number s)) <$> rows1
    = template_stage_specs Sample.templates 1 ∧
    Sorted Z.le (TaskStage.order_number <$> rows1) ∧
    (∀ c, TaskStage.stage_name
          <$> List.filter (λ s, bool_decide (TaskStage.order_number s = c)) rows1
          = TaskTemplateStage.stage_name
            <$> List.filter
                  (λ ts, bool_decide (TaskTemplateStage.template_id ts = 1)
                         && bool_decide (TaskTemplateStage.order_number ts = c))
                  (task_template_stages Sample.templates)) ∧
    (λ s, (TaskStage.stage_name s, TaskStage.estimated_time_hours s,
           TaskStage.order_number s)) <$> rows2
    = explicit_stage_specs (TaskCreate.stages (Sample.request None)) ∧
    NoDup (TaskStage.stage_id <$> rows1 ++ rows2) ∧
    (∀ s s0, s ∈ rows1 ++ rows2 → s0 ∈ task_stages Sample.db1 →
       TaskStage.stage_id s0 < TaskStage.stage_id s) ∧
    Forall (λ s, TaskStage.task_id s
                 = Task.task_id
                     (Task.mk 4 "release 1.0" None (Some 1) (Sample.today + 14) None
                        "high" (Some 1) (Some 1) None (Some Sample.now) None false None) ∧
                 TaskStage.status_state_id s
                 = Task.status_state_id
                     (Task.mk 4 "release 1.0" None (Some 1) (Sample.today + 14) None
                        "high" (Some 1) (Some 1) None (Some Sample.now) None false None) ∧
                 TaskStage.start_date s = None ∧
                 TaskStage.completed_date s = None)
           (rows1 ++ rows2).
Proof.
  apply (create_task_adds_stages_in_order Sample.now Sample.db1 Sample.templates
           (Sample.request None) 1
           (create_task_route Sample.now Sample.db1 Sample.templates
              (Sample.request None) 1).1
           (Task.mk 4 "release 1.0" None (Some 1) (Sample.today + 14) None "high"
              (Some 1) (Some 1) None (Some Sample.now) None false None) 1).
  - reflexivity.
  - reflexivity.
  - discriminate.
  - by vm_compute.
Defined.

(** ** [delete_user] *)

Lemma first_put_user rows uid x u' :
  first (λ u, bool_decide (User.user_id u = uid)) rows = Some x →
  User.user_id u' = uid →
  first (λ u, bool_decide (User.user_id u = uid)) (put_user u' rows) = Some u'.
Proof.
  intros Hfirst Hid. subst uid. induction rows as [|r rows IH]; [done|].
  rewrite first_cons in Hfirst. unfold put_user in *. rewrite fmap_cons, first_cons.
  destruct (bool_decide (User.user_id r = User.user_id u')) eqn:Hr.
  - by rewrite bool_decide_eq_true_2.
  - rewrite Hr. by apply IH.
Qed.

Lemma elem_of_put_user u' rows u :
  u ∈ put_user u' rows →
  u = u' ∨ (u ∈ rows ∧ User.user_id u ≠ User.user_id u').
Proof.
  unfold put_user. intros (r & -> & Hr)%list_elem_of_fmap.
  case_bool_decide; [by left | by right].
Qed.

(** X25.  [delete_user] deletes softly, and the sweep does not look at the
    mark: after it the user is not found any more, and yet a task assigned
    to that user that is past due and not completed still has its overdue
    notification sent to the address of the user. *)
Theorem deleted_user_is_still_notified now today now2 d q uid u task c o st :
  get_all_states d !! "completed" = Some c →
  get_all_states d !! "overdue" = Some o →
  get_user d uid = Ok u →
  User.email u ≠ "" →
  task ∈ tasks d →
  Task.assigned_user_id task = Some uid →
  Task.status_state_id task = Some st → st ≠ c →
  Task.due_date task < today →
  let r := delete_user now d uid in
  let w := mkWorld r.1 q in
  r.2 = Ok () ∧
  get_user (db w) uid = Raise (HTTPException 404 "User not found") ∧
  overdue_notified task u w (check_overdue_and_notify NoFailure today now2 w).
Proof.
  intros Hc Ho Hget Hmail Htask Huid Hst Hne Hdue r w.
  unfold w, r, delete_user. rewrite Hget. simpl.
  unfold get_user in Hget.
  destruct (first _ (users d)) as [u0|] eqn:Hfirst; [|done]. simplify_eq.
  apply first_Some in Hfirst as [Hin [Hid%bool_decide_eq_true Hlive]%andb_true_iff].
  set (u' := User.mk _ _ _ _ _ true _).
  split; [done|]. split.
  - unfold get_user. simpl. rewrite first_None_intro; [done|].
    intros x [-> | [_ Hx]]%elem_of_put_user; [by rewrite andb_false_r|].
    simpl in Hx. rewrite bool_decide_eq_false_2; [done | congruence].
  - change (User.email u) with (User.email u').
    apply (sweep_enqueues_task_overdue today now2 _ c o task u'); try done.
    + unfold overdue_task_selected. rewrite Hst. simpl.
      by rewrite bool_decide_eq_false_2, bool_decide_eq_true_2.
    + unfold assigned_user. rewrite Huid. simpl.
      destruct (first_is_Some (λ x, bool_decide (User.user_id x = uid)) (users d) u)
        as [x Hx]; [done | by apply bool_decide_eq_true_2 |].
      by apply (first_put_user _ _ x).
Qed.

Lemma deleted_user_is_still_notified_witness :
  let r := delete_user Sample.now Sample.db1 1 in
  let w := mkWorld r.1 [] in
  r.2 = Ok () ∧
  get_user (db w) 1 = Raise (HTTPException 404 "User not found") ∧
  overdue_notified (Sample.task 2 "empty" 1 (Sample.today - 1) None (Some 1))
    Sample.ann w
    (check_overdue_and_notify NoFailure Sample.today (Sample.now + 9) w).
Proof.
  apply (deleted_user_is_still_notified Sample.now Sample.today (Sample.now + 9)
           Sample.db1 [] 1 Sample.ann
           (Sample.task 2 "empty" 1 (Sample.today - 1) None (Some 1)) 3 4 1).
  - by vm_compute.
  - by vm_compute.
  - reflexivity.
  - discriminate.
  - vm_compute. right. left.
  - reflexivity.
  - reflexivity.
  - discriminate.
  - by vm_compute.
Defined.

(** ** [run_data_cleaning] *)

Global Instance created_desc_total : Total created_desc.
Proof.
  intros a b. unfold created_desc.
  destruct (Task.created_at a), (Task.created_at b); try tauto. lia.
Qed.

Global Instance created_desc_trans : Transitive created_desc.
Proof.
  intros a b c. unfold created_desc.
  destruct (Task.created_at a), (Task.created_at b), (Task.created_at c);
    try tauto. lia.
Qed.

(** The loop over live tasks that all have a time of creation: it ends; an
    object is deleted or as it was; the objects left live have keys that
    differ from each other and from those seen before; and every key of a
    task is one seen before or that of an object left live, which was
    created no earlier. *)
Lemma cleaning_loop_spec now rows seen log :
  Forall (λ t, Task.is_deleted t = false ∧ is_Some (Task.created_at t)) rows →
  StronglySorted created_desc rows →
  ∃ objects log',
    cleaning_loop now rows seen log = Some (objects, log') ∧
    Task.task_id <$> objects = Task.task_id <$> rows ∧
    length log' = (length log + length (List.filter Task.is_deleted objects))%nat ∧
    (∀ t', t' ∈ objects → Task.is_deleted t' = true →
       ∃ t i, t ∈ rows ∧ t' = soft_deleted (now i) t) ∧
    (∀ t', t' ∈ objects → Task.is_deleted t' = false →
       t' ∈ rows ∧ ∀ k, dup_key t' = Some k → k ∉ seen) ∧
    NoDup (dup_key <$> List.filter (λ t, negb (Task.is_deleted t)) objects) ∧
    (∀ t k, t ∈ rows → dup_key t = Some k →
       k ∈ seen ∨
       ∃ t', t' ∈ objects ∧ Task.is_deleted t' = false ∧ dup_key t' = Some k ∧
             created_desc t' t).
Proof.
  intros Hrows Hsorted. revert seen log.
  induction Hsorted as [|t rest Hrest IH Hfirst]; intros seen log.
  { exists [], log. simpl. split; [done|]. split; [done|]. split; [lia|].
    split; [by intros t' Ht'%elem_of_nil|].
    split; [by intros t' Ht'%elem_of_nil|]. split; [constructor|].
    by intros t k Ht%elem_of_nil. }
  apply Forall_cons in Hrows as [[Hlive [created Hcreated]] Hrows].
  specialize (IH Hrows). rewrite Forall_forall in Hfirst.
  assert (dup_key t = Some (Task.name t, date_of created)) as Hkey
    by (unfold dup_key; by rewrite Hcreated).
  assert (created_desc t t) as Hrefl by (unfold created_desc; by rewrite Hcreated).
  simpl. rewrite Hcreated.
  destruct (bool_decide ((Task.name t, date_of created) ∈ seen)) eqn:Hseen.
  - apply bool_decide_eq_true in Hseen.
    destruct (IH seen (log ++ ["Deleted Dupe: " +:+ Task.name t +:+
                               " (ID: " +:+ pretty (Task.task_id t) +:+ ")"]))
      as (objects & log' & -> & Hids & Hlen & Hdel & Hkept & Hnd & Hall).
    eexists _, _. split; [done|].
    split; [by rewrite !fmap_cons, Hids|]. simpl.
    split; [|split; [|split; [|split]]].
    + rewrite Hlen, length_app. simpl. lia.
    + intros t' [->|Ht']%elem_of_cons Hd.
      * exists t, (length log). split; [left | done].
      * destruct (Hdel t' Ht' Hd) as (t0 & i & Ht0 & ->).
        exists t0, i. split; [by right | done].
    + intros t' [->|Ht']%elem_of_cons Hl; [done|].
      destruct (Hkept t' Ht' Hl) as [Hin Hk]. split; [by right | done].
    + done.
    + intros t1 k [->|Ht1]%elem_of_cons Hk.
      * left. by simplify_eq.
      * destruct (Hall t1 k Ht1 Hk) as [?|(t' & Ht' & Hl & Hk' & Hd)]; [by left|].
        right. exists t'. split; [by right | done].
  - apply bool_decide_eq_false in Hseen.
    destruct (IH ((Task.name t, date_of created) :: seen) log)
      as (objects & log' & -> & Hids & Hlen & Hdel & Hkept & Hnd & Hall).
    eexists _, _. split; [done|].
    split; [by rewrite !fmap_cons, Hids|]. simpl. rewrite Hlive. simpl.
    split; [done|].
    split; [|split; [|split]].
    + intros t' [->|Ht']%elem_of_cons Hd; [congruence|].
      destruct (Hdel t' Ht' Hd) as (t0 & i & Ht0 & ->).
      exists t0, i. split; [by right | done].
    + intros t' [->|Ht']%elem_of_cons Hl.
      * split; [left|]. intros k Hk. by simplify_eq.
      * destruct (Hkept t' Ht' Hl) as [Hin Hk]. split; [by right|].
        intros k Hk' Hin'. apply (Hk k Hk'). by right.
    + change (NoDup (dup_key t :: (dup_key
                <$> List.filter (λ t, negb (Task.is_deleted t)) objects))).
      apply NoDup_cons. split; [|done].
      intros (t' & Hk' & [Ht' Hl]%elem_of_select)%list_elem_of_fmap.
      apply negb_true_iff in Hl. destruct (Hkept t' Ht' Hl) as [_ Hk].
      apply (Hk (Task.name t, date_of created)); [congruence | left].
    + intros t1 k [->|Ht1]%elem_of_cons Hk.
      * right. exists t. split; [left | done].
      * destruct (Hall t1 k Ht1 Hk) as [[->|Hin]%elem_of_cons|(t' & Ht' & Hl & Hk' & Hd)].
        -- right. exists t. split; [left|]. split; [done|]. split; [done|].
           by apply Hfirst.
        -- by left.
        -- right. exists t'. split; [by right | done].
Qed.

(** The loop over tasks of pairwise different keys, none of them seen
    before, changes nothing. *)
Lemma cleaning_loop_fixed now rows seen log :
  Forall (λ t, is_Some (Task.created_at t)) rows →
  NoDup (dup_key <$> rows) →
  (∀ t k, t ∈ rows → dup_key t = Some k → k ∉ seen) →
  cleaning_loop now rows seen log = Some (rows, log).
Proof.
  revert seen. induction rows as [|t rest IH]; intros seen Hrows Hnd Hseen; [done|].
  apply Forall_cons in Hrows as [[created Hcreated] Hrows].
  rewrite fmap_cons in Hnd. apply NoDup_cons in Hnd as [Hnew Hnd].
  assert (dup_key t = Some (Task.name t, date_of created)) as Hkey
    by (unfold dup_key; by rewrite Hcreated).
  simpl. rewrite Hcreated.
  rewrite bool_decide_eq_false_2 by (apply (Hseen t); [left | done]).
  rewrite IH; [done..|].
  intros t1 k Ht1 Hk [->|Hin]%elem_of_cons.
  - apply Hnew. rewrite Hkey, <-Hk. by apply list_elem_of_fmap_2.
  - apply (Hseen t1 k); [by right | done..].
Qed.

(** The commit of changed objects, row by row. *)
Lemma commit_changed_ids db_now changed rows :
  Task.task_id
  <$> foldl (λ rows t, put_task (Task.with_updated_at (Some db_now) t) rows) rows changed
  = Task.task_id <$> rows.
Proof.
  revert rows. induction changed as [|t changed IH]; intros rows; [done|].
  simpl. by rewrite IH, put_task_ids.
Qed.

Lemma commit_changed_elem db_now changed rows x :
  x ∈ foldl (λ rows t, put_task (Task.with_updated_at (Some db_now) t) rows) rows changed →
  (x ∈ rows ∧ Task.task_id x ∉ Task.task_id <$> changed) ∨
  (∃ t, t ∈ changed ∧ x = Task.with_updated_at (Some db_now) t).
Proof.
  revert rows. induction changed as [|t changed IH]; intros rows Hx.
  { left. split; [done | apply not_elem_of_nil]. }
  simpl in Hx. destruct (IH _ Hx) as [[Hin Hid] | (t' & Ht' & ->)].
  - apply elem_of_put_task in Hin as [-> | [Hin Hne]].
    + right. exists t. split; [left | done].
    + left. split; [done|]. rewrite fmap_cons.
      apply not_elem_of_cons. split; [done|]. done.
  - right. exists t'. split; [by right | done].
Qed.

Lemma commit_changed_kept db_now changed rows x :
  x ∈ rows → Task.task_id x ∉ Task.task_id <$> changed →
  x ∈ foldl (λ rows t, put_task (Task.with_updated_at (Some db_now) t) rows) rows changed.
Proof.
  revert rows. induction changed as [|t changed IH]; intros rows Hx Hid; [done|].
  rewrite fmap_cons in Hid. apply not_elem_of_cons in Hid as [Hne Hid].
  simpl. apply IH; [|done]. unfold put_task.
  apply (list_elem_of_fmap_2' _ _ x); [done|].
  by rewrite bool_decide_eq_false_2.
Qed.

(** What a run does to a table of distinct keys whose live tasks all have a
    time of creation. *)
Lemma run_data_cleaning_spec now db_now d :
  NoDup (Task.task_id <$> tasks d) →
  Forall (λ t, Task.is_deleted t = false → is_Some (Task.created_at t)) (tasks d) →
  ∃ d' report,
    run_data_cleaning now db_now d = Some (d', report) ∧
    Task.task_id <$> tasks d' = Task.task_id <$> tasks d ∧
    task_stages d' = task_stages d ∧
    (∀ a, a ∈ tasks d' → Task.is_deleted a = false → a ∈ tasks d) ∧
    (∀ a b, a ∈ tasks d' → b ∈ tasks d' →
       Task.is_deleted a = false → Task.is_deleted b = false →
       dup_key a = dup_key b → a = b) ∧
    (∀ t, t ∈ tasks d → Task.is_deleted t = false →
       ∃ t', t' ∈ tasks d ∧ t' ∈ tasks d' ∧ Task.is_deleted t' = false ∧
             dup_key t' = dup_key t ∧ created_desc t' t) ∧
    (∀ x, x ∈ tasks d' →
       x ∈ tasks d ∨
       ∃ t i, t ∈ tasks d ∧ Task.is_deleted t = false ∧
              x = Task.with_updated_at (Some db_now) (soft_deleted (now i) t)).
Proof.
  intros Hnd Hcreated. rewrite Forall_forall in Hcreated.
  set (live := List.filter (λ t, negb (Task.is_deleted t)) (tasks d)).
  set (rows := merge_sort created_desc live).
  assert (∀ t, t ∈ rows ↔ t ∈ tasks d ∧ Task.is_deleted t = false) as Hrows.
  { intros t. unfold rows. rewrite merge_sort_Permutation. unfold live.
    rewrite elem_of_select, negb_true_iff. done. }
  assert (NoDup (Task.task_id <$> rows)) as Hnd_rows.
  { unfold rows. rewrite merge_sort_Permutation.
    eapply NoDup_fmap_sublist; [apply select_sublist | done]. }
  destruct (cleaning_loop_spec now rows [] [])
    as (objects & log' & Hloop & Hids & Hlen & Hdel & Hkept & Hnd_keys & Hall).
  { apply Forall_forall. intros t [Ht Hl]%Hrows. split; [done | by apply Hcreated]. }
  { apply StronglySorted_merge_sort; apply _. }
  set (changed := List.filter Task.is_deleted objects) in *.
  assert (NoDup (Task.task_id <$> objects)) as Hnd_objects by by rewrite Hids.
  assert (∃ d' report,
            run_data_cleaning now db_now d = Some (d', report) ∧
            tasks d'
            = foldl (λ rows t, put_task (Task.with_updated_at (Some db_now) t) rows)
                    (tasks d) changed ∧
            task_stages d' = task_stages d) as (d' & report & Hrun & Htasks & Hstages).
  { unfold run_data_cleaning. fold live. fold rows. rewrite Hloop.
    destruct log' as [|entry log'].
    - exists d, NoDuplicates. split; [done|]. split; [|done].
      simpl in Hlen. symmetry in Hlen. apply length_zero_iff_nil in Hlen.
      by rewrite Hlen.
    - eexists _, _. split; [done|]. by destruct d. }
  assert (∀ a, a ∈ objects → Task.is_deleted a = false →
            Task.task_id a ∉ Task.task_id <$> changed) as Hq1.
  { intros a Ha Hl (x & Hid & [Hx Hd]%elem_of_select)%list_elem_of_fmap.
    assert (a = x) as -> by by apply (NoDup_fmap_inj_on Task.task_id objects).
    congruence. }
  assert (∀ a, a ∈ tasks d' → Task.is_deleted a = false →
            a ∈ tasks d ∧ a ∈ objects) as Hq2.
  { intros a Ha Hl. rewrite Htasks in Ha.
    apply commit_changed_elem in Ha as [[Ha Hid] | (t & [_ Ht]%elem_of_select & ->)];
      [|simpl in Hl; congruence].
    split; [done|].
    assert (Task.task_id a ∈ Task.task_id <$> objects) as Hin.
    { rewrite Hids. apply list_elem_of_fmap_2. by apply Hrows. }
    apply list_elem_of_fmap in Hin as (x & Hx & Hin).
    destruct (Task.is_deleted x) eqn:Hdx.
    - exfalso. apply Hid. rewrite Hx. apply list_elem_of_fmap_2.
      by apply elem_of_select.
    - destruct (Hkept x Hin Hdx) as [Hxr _].
      assert (a = x) as ->; [|done].
      apply (NoDup_fmap_inj_on Task.task_id rows); try done. by apply Hrows. }
  exists d', report. split; [done|].
  split; [by rewrite Htasks, commit_changed_ids|]. split; [done|].
  split; [|split; [|split]].
  - intros a Ha Hl. by apply Hq2.
  - intros a b Ha Hb Hla Hlb Hkey.
    apply (NoDup_fmap_inj_on dup_key
             (List.filter (λ t, negb (Task.is_deleted t)) objects)); try done.
    + apply elem_of_select. split; [by apply Hq2 | by rewrite Hla].
    + apply elem_of_select. split; [by apply Hq2 | by rewrite Hlb].
  - intros t Ht Hl. destruct (Hcreated t Ht Hl) as [created Hc].
    destruct (Hall t (Task.name t, date_of created)) as [Hin | (t' & Ht' & Hl' & Hk' & Hd')].
    + by apply Hrows.
    + unfold dup_key. by rewrite Hc.
    + by apply elem_of_nil in Hin.
    + exists t'. destruct (Hkept t' Ht' Hl') as [[Hin _]%Hrows _].
      split; [done|]. split; [|split; [done|split; [|done]]].
      * rewrite Htasks. apply commit_changed_kept; [done | by apply Hq1].
      * rewrite Hk'. unfold dup_key. by rewrite Hc.
  - intros x Hx. rewrite Htasks in Hx.
    apply commit_changed_elem in Hx as [[Hx _] | (t & [Ht Hd]%elem_of_select & ->)];
      [by left|].
    right. destruct (Hdel t Ht Hd) as (t0 & i & [Ht0 Hl0]%Hrows & ->).
    by exists t0, i.
Qed.

(** X26.  [run_data_cleaning] leaves one live task of each name and day of
    creation, the one created last.  On a table of distinct keys whose live
    tasks all have a time of creation the run ends, and afterwards no two
    live tasks have the name and the day of creation in common; every task
    that was live has a live task of its name and day left, unchanged and
    created no earlier; every row is as it was or is the soft-deleted form
    of a task that was live, no row is removed, and the stages are not
    touched. *)
Theorem run_data_cleaning_keeps_one_per_day now db_now d :
  NoDup (Task.task_id <$> tasks d) →
  Forall (λ t, Task.is_deleted t = false → is_Some (Task.created_at t)) (tasks d) →
  ∃ d' report,
    run_data_cleaning now db_now d = Some (d', report) ∧
    Task.task_id <$> tasks d' = Task.task_id <$> tasks d ∧
    task_stages d' = task_stages d ∧
    (∀ a b, a ∈ tasks d' → b ∈ tasks d' →
       Task.is_deleted a = false → Task.is_deleted b = false →
       dup_key a = dup_key b → a = b) ∧
    (∀ t, t ∈ tasks d → Task.is_deleted t = false →
       ∃ t', t' ∈ tasks d ∧ t' ∈ tasks d' ∧ Task.is_deleted t' = false ∧
             dup_key t' = dup_key t ∧ created_desc t' t) ∧
    (∀ x, x ∈ tasks d' →
       x ∈ tasks d ∨
       ∃ t i, t ∈ tasks d ∧ Task.is_deleted t = false ∧
              x = Task.with_updated_at (Some db_now) (soft_deleted (now i) t)).
Proof.
  intros Hnd Hcreated.
  destruct (run_data_cleaning_spec now db_now d Hnd Hcreated)
    as (d' & report & Hrun & Hids & Hstages & _ & Hunique & Hkeeps & Hshape).
  by exists d', report.
Qed.

Lemma run_data_cleaning_keeps_one_per_day_witness :
  ∃ d' report,
    run_data_cleaning (λ i, Sample.now + 100 + Z.of_nat i) (Sample.now + 200) Sample.db9
    = Some (d', report) ∧
    Task.task_id <$> tasks d' = Task.task_id <$> tasks Sample.db9 ∧
    task_stages d' = task_stages Sample.db9 ∧
    (∀ a b, a ∈ tasks d' → b ∈ tasks d' →
       Task.is_deleted a = false → Task.is_deleted b = false →
       dup_key a = dup_key b → a = b) ∧
    (∀ t, t ∈ tasks Sample.db9 → Task.is_deleted t = false →
       ∃ t', t' ∈ tasks Sample.db9 ∧ t' ∈ tasks d' ∧ Task.is_deleted t' = false ∧
             dup_key t' = dup_key t ∧ created_desc t' t) ∧
    (∀ x, x ∈ tasks d' →
       x ∈ tasks Sample.db9 ∨
       ∃ t i, t ∈ tasks Sample.db9 ∧ Task.is_deleted t = false ∧
              x = Task.with_updated_at (Some (Sample.now + 200))
                    (soft_deleted (Sample.now + 100 + Z.of_nat i) t)).
Proof.
  apply (run_data_cleaning_keeps_one_per_day (λ i, Sample.now + 100 + Z.of_nat i)
           (Sample.now + 200) Sample.db9).
  - apply (bool_decide_unpack _). by vm_compute.
  - unfold Sample.db9. simpl tasks.
    repeat (apply Forall_cons_2; [intros _; by eexists|]). apply Forall_nil_2.
Defined.

(** X27.  [run_data_cleaning] is idempotent: on the database a run leaves, a
    second run, at whatever time, finds no duplicates and writes nothing. *)
Theorem run_data_cleaning_twice now db_now now' db_now' d :
  NoDup (Task.task_id <$> tasks d) →
  Forall (λ t, Task.is_deleted t = false → is_Some (Task.created_at t)) (tasks d) →
  ∃ d' report,
    run_data_cleaning now db_now d = Some (d', report) ∧
    run_data_cleaning now' db_now' d' = Some (d', NoDuplicates).
Proof.
  intros Hnd Hcreated.
  destruct (run_data_cleaning_spec now db_now d Hnd Hcreated)
    as (d' & report & Hrun & Hids & _ & Hlive & Hunique & _ & _).
  exists d', report. split; [done|].
  rewrite Forall_forall in Hcreated.
  unfold run_data_cleaning.
  set (live := List.filter (λ t, negb (Task.is_deleted t)) (tasks d')).
  assert (∀ t, t ∈ live ↔ t ∈ tasks d' ∧ Task.is_deleted t = false) as Hin.
  { intros t. unfold live. by rewrite elem_of_select, negb_true_iff. }
  rewrite cleaning_loop_fixed; [done|..].
  - apply Forall_forall. intros t Ht. rewrite merge_sort_Permutation in Ht.
    apply Hin in Ht as [Ht Hl]. apply Hcreated; [by apply Hlive | done].
  - rewrite merge_sort_Permutation. apply NoDup_fmap_2_strong.
    + intros a b [Ha Hla]%Hin [Hb Hlb]%Hin Hkey. by apply Hunique.
    + apply (NoDup_fmap_1 Task.task_id).
      eapply NoDup_fmap_sublist; [apply select_sublist | by rewrite Hids].
  - intros t k _ _ Hk. by apply elem_of_nil in Hk.
Qed.

Lemma run_data_cleaning_twice_witness :
  ∃ d' report,
    run_data_cleaning (λ i, Sample.now + 100 + Z.of_nat i) (Sample.now + 200) Sample.db9
    = Some (d', report) ∧
    run_data_cleaning (λ i, Sample.now + 900 + Z.of_nat i) (Sample.now + 950) d'
    = Some (d', NoDuplicates).
Proof.
  apply (run_data_cleaning_twice (λ i, Sample.now + 100 + Z.of_nat i)
           (Sample.now + 200) (λ i, Sample.now + 900 + Z.of_nat i) (Sample.now + 950)
           Sample.db9).
  - apply (bool_decide_unpack _). by vm_compute.
  - unfold Sample.db9. simpl tasks.
    repeat (apply Forall_cons_2; [intros _; by eexists|]). apply Forall_nil_2.
Defined.

(** ** [create_template], [delete_template] *)

Lemma insert_sorted_fmap {A B} (key : B → Z) (g : A → B) x l :
  insert_sorted key (g x) (g <$> l) = g <$> insert_sorted (key ∘ g) x l.
Proof.
  induction l as [|y l IH]; [done|]. csimpl. unfold compose at 1.
  destruct (bool_decide (key (g x) ≤ key (g y))); [done|].
  by rewrite IH.
Qed.

Lemma sorted_ext {A} (key1 key2 : A → Z) l :
  (∀ x, key1 x = key2 x) → sorted key1 l = sorted key2 l.
Proof.
  intros Hkey. induction l as [|x l IH]; [done|]. simpl. rewrite IH.
  generalize (sorted key2 l). intros rows.
  induction rows as [|y rows IHrows]; [done|]. simpl.
  rewrite !Hkey. by rewrite IHrows.
Qed.

Lemma sorted_fmap {A B} (key : B → Z) (g : A → B) l :
  sorted key (g <$> l) = g <$> sorted (key ∘ g) l.
Proof.
  induction l as [|x l IH]; [done|]. csimpl.
  by rewrite IH, insert_sorted_fmap.
Qed.

Lemma next_template_id_fresh rows t :
  t ∈ rows → TaskTemplate.template_id t < next_template_id rows.
Proof.
  intros Ht. unfold next_template_id.
  pose proof (foldr_max_ge (TaskTemplate.template_id <$> rows)
                (TaskTemplate.template_id t) ltac:(by apply list_elem_of_fmap_2)). lia.
Qed.

Lemma next_template_id_pos rows : 0 < next_template_id rows.
Proof.
  unfold next_template_id.
  assert (0 ≤ foldr Z.max 0 (TaskTemplate.template_id <$> rows)); [|lia].
  induction rows as [|t rows IH]; csimpl; lia.
Qed.

(** X28.  Once [delete_template] has deleted a template, its stages are gone
    with it and those of the other templates are as they were, and a request
    for a task from that template writes nothing: it is answered with an
    error, or with an earlier task of its idempotency key. *)
Theorem deleted_template_creates_no_task tpl tid tpl' db_now d data uid :
  tid ≠ 0 →
  delete_template tpl tid = (tpl', Ok ()) →
  TaskCreate.template_id data = Some tid →
  List.filter (λ s, bool_decide (TaskTemplateStage.template_id s = tid))
              (task_template_stages tpl') = [] ∧
  List.filter (λ s, negb (bool_decide (TaskTemplateStage.template_id s = tid)))
              (task_template_stages tpl')
  = List.filter (λ s, negb (bool_decide (TaskTemplateStage.template_id s = tid)))
                (task_template_stages tpl) ∧
  (create_task_route db_now d tpl' data uid).1 = d ∧
  (∀ t, (create_task_route db_now d tpl' data uid).2 = Ok t → t ∈ tasks d).
Proof.
  intros Hnz Hdelete Htid. unfold delete_template in Hdelete.
  destruct (first _ (task_templates tpl)) as [template|] eqn:Hfirst; [|done].
  apply first_Some in Hfirst as [_ Hid%bool_decide_eq_true].
  rewrite Hid in Hdelete. injection Hdelete as <-. simpl.
  split; [|split].
  - rewrite select_select. apply select_none. intros s _.
    by destruct (bool_decide (TaskTemplateStage.template_id s = tid)).
  - rewrite select_select. apply select_ext_in. intros s _.
    by destruct (bool_decide (TaskTemplateStage.template_id s = tid)).
  - unfold create_task_route, create_task.
    destruct (match TaskCreate.idempotency_key data with
              | Some k => _
              | None => None
              end) as [existing|].
    { destruct (get_task_by_id d (Task.task_id existing)) as [t0|] eqn:Ht0; [|done].
      simpl. split; [done|]. intros t Ht.
      by apply get_task_by_id_Ok in Ht as [Ht _]. }
    destruct (get_state_by_name d "pending") as [p|]; [|done].
    destruct (task_insert_ok d _); [|done]. simpl.
    rewrite Htid, bool_decide_eq_false_2 by done. simpl.
    rewrite first_None_intro; [done|].
    intros t [_ Ht]%elem_of_select. by apply negb_true_iff in Ht.
Qed.

Lemma deleted_template_creates_no_task_witness :
  List.filter (λ s, bool_decide (TaskTemplateStage.template_id s = 1))
              (task_template_stages (mkTemplates [] [])) = [] ∧
  List.filter (λ s, negb (bool_decide (TaskTemplateStage.template_id s = 1)))
              (task_template_stages (mkTemplates [] []))
  = List.filter (λ s, negb (bool_decide (TaskTemplateStage.template_id s = 1)))
                (task_template_stages Sample.templates) ∧
  (create_task_route Sample.now Sample.db1 (mkTemplates [] [])
     (Sample.request None) 1).1 = Sample.db1 ∧
  (∀ t, (create_task_route Sample.now Sample.db1 (mkTemplates [] [])
           (Sample.request None) 1).2 = Ok t → t ∈ tasks Sample.db1).
Proof.
  apply (deleted_template_creates_no_task Sample.templates 1 (mkTemplates [] [])
           Sample.now Sample.db1 (Sample.request None) 1).
  - discriminate.
  - reflexivity.
  - reflexivity.
Defined.

(** X29.  A task created from a template that [create_template] has just
    made gets the stages of that request, whatever the other templates are:
    the template is read back with the stages of the request in their order,
    and the task has them in the order of their [order_number], those of one
    number in the order of the request, with 0 for a missing estimate,
    before the stages of its own request.  Every stage of the table belongs
    to a template of the table. *)
Theorem task_from_new_template db_now d tpl tdata data uid tpl' template stages d1 t :
  (∀ s, s ∈ task_template_stages tpl →
     TaskTemplateStage.template_id s ∈ TaskTemplate.template_id <$> task_templates tpl) →
  create_template tpl tdata = (tpl', Some (template, stages)) →
  TaskCreate.idempotency_key data = None →
  TaskCreate.template_id data = Some (TaskTemplate.template_id template) →
  create_task_route db_now d tpl' data uid = (d1, Ok t) →
  (λ s, (TaskTemplateStage.stage_name s, TaskTemplateStage.estimated_time_hours s,
         TaskTemplateStage.order_number s)) <$> stages
  = (λ s, (TemplateStageCreate.stage_name s, TemplateStageCreate.estimated_time_hours s,
           TemplateStageCreate.order_number s)) <$> TemplateCreate.stages tdata ∧
  ∃ rows,
    task_stages d1 = task_stages d ++ rows ∧
    (λ s, (TaskStage.stage_name s, TaskStage.estimated_time_hours s,
           TaskStage.order_number s)) <$> rows
    = ((λ s, (TemplateStageCreate.stage_name s,
              or_zero_float (TemplateStageCreate.estimated_time_hours s),
              TemplateStageCreate.order_number s))
       <$> sorted TemplateStageCreate.order_number (TemplateCreate.stages tdata))
      ++ explicit_stage_specs (TaskCreate.stages data).
Proof.
  intros Hfk Hcreate Hkey Htid Hroute. unfold create_template in Hcreate.
  set (new_id := next_template_id (task_templates tpl)) in *.
  set (new := TaskTemplate.mk new_id _ _) in *.
  set (numbered := enumerate (next_template_stage_id (task_template_stages tpl))
                     (TemplateCreate.stages tdata)) in *.
  set (make := λ '(i, s), TaskTemplateStage.mk i (TaskTemplate.template_id new)
                            (TemplateStageCreate.stage_name s)
                            (TemplateStageCreate.estimated_time_hours s)
                            (TemplateStageCreate.order_number s)) in *.
  assert (numbered.*2 = TemplateCreate.stages tdata) as Hnumbered.
  { unfold numbered, enumerate. apply snd_zip. rewrite length_seqZ. lia. }
  assert (first (λ t, bool_decide (TaskTemplate.template_id t = new_id))
                (task_templates tpl ++ [new]) = Some new) as Hfirst.
  { rewrite first_app, first_None_intro.
    - by rewrite first_cons, bool_decide_eq_true_2.
    - intros x Hx. pose proof (next_template_id_fresh _ _ Hx).
      rewrite bool_decide_eq_false_2; [done | unfold new_id; lia]. }
  assert (List.filter (λ s, bool_decide (TaskTemplateStage.template_id s = new_id))
                      (task_template_stages tpl ++ (make <$> numbered))
          = make <$> numbered) as Hmine.
  { rewrite List.filter_app, select_none, select_all; [done|..].
    - intros s (x & -> & _)%list_elem_of_fmap. destruct x as [i x].
      by apply bool_decide_eq_true_2.
    - intros s Hs. apply bool_decide_eq_false_2. intros Heq.
      apply Hfk, list_elem_of_fmap in Hs as (x & Hx & Hin).
      pose proof (next_template_id_fresh _ _ Hin). unfold new_id in Heq. lia. }
  simpl in Hcreate. rewrite Hfirst in Hcreate. simpl in Hcreate.
  rewrite Hmine in Hcreate. injection Hcreate as <- <- <-.
  split.
  { rewrite <-Hnumbered, <-!list_fmap_compose. apply list_fmap_ext.
    by intros _ [i x] _. }
  eassert (_ = None) as Hnone; [|
    destruct (create_task_route_new _ _ _ _ _ _ _ Hnone Hroute)
      as (p & specs & Hp & Ht & Hok & Hspecs & Hd1)]; [by rewrite Hkey|].
  rewrite Htid in Hspecs. simpl in Hspecs.
  rewrite bool_decide_eq_false_2 in Hspecs
    by (pose proof (next_template_id_pos (task_templates tpl)); unfold new_id; lia).
  destruct Hspecs as (template0 & Htemplate0 & ->).
  apply first_Some in Htemplate0 as [_ Hid%bool_decide_eq_true].
  rewrite Hid in Hd1. eexists. split; [by rewrite Hd1|].
  rewrite added_stage_rows_specs. f_equal.
  unfold template_stage_specs. simpl. rewrite Hmine.
  rewrite sorted_fmap, <-list_fmap_compose, <-Hnumbered, sorted_fmap,
    <-list_fmap_compose.
  assert (sorted (TaskTemplateStage.order_number ∘ make) numbered
          = sorted (TemplateStageCreate.order_number ∘ snd) numbered) as ->.
  { apply sorted_ext. by intros [i x]. }
  apply list_fmap_ext. by intros _ [i x] _.
Qed.

Lemma task_from_new_template_witness :
  (λ s, (TaskTemplateStage.stage_name s, TaskTemplateStage.estimated_time_hours s,
         TaskTemplateStage.order_number s))
  <$> [TaskTemplateStage.mk 4 2 "verify" None 2;
       TaskTemplateStage.mk 5 2 "patch" (Some 1.5%float) 1]
  = (λ s, (TemplateStageCreate.stage_name s, TemplateStageCreate.estimated_time_hours s,
           TemplateStageCreate.order_number s))
    <$> TemplateCreate.stages Sample.hotfix ∧
  ∃ rows,
    task_stages (create_task_route Sample.now Sample.db1
                   (create_template Sample.templates Sample.hotfix).1
                   Sample.hotfix_request 1).1
    = task_stages Sample.db1 ++ rows ∧
    (λ s, (TaskStage.stage_name s, TaskStage.estimated_time_hours s,
           TaskStage.order_number s)) <$> rows
    = ((λ s, (TemplateStageCreate.stage_name s,
              or_zero_float (TemplateStageCreate.estimated_time_hours s),
              TemplateStageCreate.order_number s))
       <$> sorted TemplateStageCreate.order_number (TemplateCreate.stages Sample.hotfix))
      ++ explicit_stage_specs (TaskCreate.stages Sample.hotfix_request).
Proof.
  apply (task_from_new_template Sample.now Sample.db1 Sample.templates Sample.hotfix
           Sample.hotfix_request 1
           (create_template Sample.templates Sample.hotfix).1
           (TaskTemplate.mk 2 "hotfix" None)
           [TaskTemplateStage.mk 4 2 "verify" None 2;
            TaskTemplateStage.mk 5 2 "patch" (Some 1.5%float) 1]
           (create_task_route Sample.now Sample.db1
              (create_template Sample.templates Sample.hotfix).1
              Sample.hotfix_request 1).1
           (Task.mk 4 "hotfix 7" None (Some 1) (Sample.today + 2) None "high" None
              (Some 1) None (Some Sample.now) None false None)).
  - intros s Hs. unfold Sample.templates in Hs. simpl in Hs.
    repeat (apply elem_of_cons in Hs as [-> | Hs]; [vm_compute; left|]).
    by apply elem_of_nil in Hs.
  - by vm_compute.
  - reflexivity.
  - reflexivity.
  - by vm_compute.
Defined.
